(** * nomad: network path collector and network diagnostics

    A shallow embedding of
      - [nomad/collectors/network_perf.py] (latency prober, retransmit
        counter, phased throughput benchmark, path collector, store), and
      - [nomad/diag/network.py] (time-pattern analyzer, cause analysis,
        recommendations, [diagnose_network]),
    followed by the properties of the specification stated over it.

    Modelling conventions.
      - A Python [float] is an exact rational ([Q]); rounding, infinities
        and NaN are outside the model.  Division by zero raises
        [ZeroDivisionError] as in Python and is written out.
      - A Python [int] is a [Z].
      - A [str] is a [string] of ASCII characters.
      - A [dict] with string keys is an association list in insertion
        order, looked up by [dict_get].
      - Exceptions are a result type [res]; code that calls the operating
        system runs in the monad [M], whose state is the log of the
        effects performed so far and which keeps that log when an
        exception is raised.
      - Library calls whose result the code only inspects through a few
        accesses are oracles: [json.loads] of the iperf3 report is a field
        of the environment, [datetime.fromisoformat] a variable of the
        section that uses it.  The regular expressions, [float], [int],
        [strip] and [split] are written out.
      - Logging is not modelled. *)

From Stdlib Require Import String Ascii List ZArith QArith Lia Bool.
From Stdlib Require Import DecimalString.
Import ListNotations.

Local Open Scope string_scope.
Local Open Scope Z_scope.

(* ===================================================================== *)
(** ** Python values, exceptions, strings                                *)
(* ===================================================================== *)

Module Py.

(** The exceptions that the modelled code can meet.

    Modelled from the spec: [CollectionError] is imported from the
    collectors' base module, which is not among the sources; the
    specification (section 4.1) has it as the typed failure of the
    command runner, and the code catches it as an ordinary exception.
    The other constructors are Python's own. *)
Inductive exn : Type :=
| CollectionError
| ValueError
| TypeError
| AttributeError
| ZeroDivisionError
| OverflowError
| OSError
| JSONDecodeError
| IntegrityError
| InterfaceError.

Inductive res (A : Type) : Type :=
| Ok (a : A)
| Raise (e : exn).
Arguments Ok {A} a.
Arguments Raise {A} e.

Definition rbind {A B} (r : res A) (k : A -> res B) : res B :=
  match r with
  | Ok a => k a
  | Raise e => Raise e
  end.

Definition is_ok {A} (r : res A) : bool :=
  match r with Ok _ => true | Raise _ => false end.

(** The values that occur in records, rows and configuration. *)
#[local] Set Warnings "-register-all".
Inductive pyval : Type :=
| VNone
| VStr (s : string)
| VInt (z : Z)
| VFloat (q : Q)
| VDict (d : list (string * pyval)).

Definition dict := list (string * pyval).

(** [d.get(k)]: [None] when the key is missing. *)
Fixpoint dict_lookup (k : string) (d : dict) : option pyval :=
  match d with
  | [] => None
  | (k', v) :: d' => if String.eqb k k' then Some v else dict_lookup k d'
  end.

Definition dict_get (k : string) (d : dict) : pyval :=
  match dict_lookup k d with Some v => v | None => VNone end.

(** [d.get(k, default)]. *)
Definition dict_get_default (k : string) (default : pyval) (d : dict) : pyval :=
  match dict_lookup k d with Some v => v | None => default end.

Definition dict_keys (d : dict) : list string := map fst d.

Definition Qeqb0 (q : Q) : bool := Z.eqb (Qnum q) 0.

(** Truth value of an object in a boolean context. *)
Definition truthy (v : pyval) : bool :=
  match v with
  | VNone => false
  | VStr s => negb (String.eqb s EmptyString)
  | VInt z => negb (Z.eqb z 0)
  | VFloat q => negb (Qeqb0 q)
  | VDict d => match d with [] => false | _ => true end
  end.

(** [a or b]. *)
Definition py_or (a b : pyval) : pyval := if truthy a then a else b.

(** The number held by a value, when it is an [int] or a [float]. *)
Definition num_of (v : pyval) : option Q :=
  match v with
  | VInt z => Some (inject_Z z)
  | VFloat q => Some q
  | _ => None
  end.

Definition Qltb (x y : Q) : bool := negb (Qle_bool y x).

(** [v > c] and [v < c] against a numeric literal: ordering a [None], a
    [str] or a [dict] against a number raises [TypeError]. *)
Definition py_gt (v : pyval) (c : Q) : res bool :=
  match num_of v with
  | Some q => Ok (Qltb c q)
  | None => Raise TypeError
  end.

Definition py_lt (v : pyval) (c : Q) : res bool :=
  match num_of v with
  | Some q => Ok (Qltb q c)
  | None => Raise TypeError
  end.

(** [int(x)] of a float: truncation towards zero. *)
Definition int_of_float (q : Q) : Z := Z.quot (Qnum q) (Zpos (Qden q)).

(** *** Characters and strings *)

Definition is_digit (c : ascii) : bool :=
  let n := nat_of_ascii c in (48 <=? n)%nat && (n <=? 57)%nat.

(** [str.isspace] on ASCII: TAB, LF, VT, FF, CR, FS, GS, RS, US, space. *)
Definition is_space (c : ascii) : bool :=
  let n := nat_of_ascii c in
  ((9 <=? n)%nat && (n <=? 13)%nat) || ((28 <=? n)%nat && (n <=? 32)%nat).

Definition is_digit_or_dot (c : ascii) : bool :=
  is_digit c || Ascii.eqb c "."%char.

(** Longest prefix whose characters satisfy [p], and the rest. *)
Fixpoint span (p : ascii -> bool) (s : string) : string * string :=
  match s with
  | EmptyString => (EmptyString, EmptyString)
  | String c s' =>
      if p c then let (a, b) := span p s' in (String c a, b)
      else (EmptyString, s)
  end.

Fixpoint drop_while (p : ascii -> bool) (s : string) : string :=
  match s with
  | EmptyString => EmptyString
  | String c s' => if p c then drop_while p s' else s
  end.

Fixpoint string_rev_onto (s acc : string) : string :=
  match s with
  | EmptyString => acc
  | String c s' => string_rev_onto s' (String c acc)
  end.

Definition string_rev (s : string) : string := string_rev_onto s EmptyString.

(** [s.strip()]. *)
Definition strip (s : string) : string :=
  string_rev (drop_while is_space (string_rev (drop_while is_space s))).

(** [s.split()]: the maximal runs of non-whitespace characters. *)
Fixpoint split_ws_aux (s cur : string) : list string :=
  match s with
  | EmptyString =>
      match cur with EmptyString => [] | _ => [string_rev cur] end
  | String c s' =>
      if is_space c
      then match cur with
           | EmptyString => split_ws_aux s' EmptyString
           | _ => string_rev cur :: split_ws_aux s' EmptyString
           end
      else split_ws_aux s' (String c cur)
  end.

Definition split_ws (s : string) : list string := split_ws_aux s EmptyString.

(** [needle in hay] for strings. *)
Fixpoint contains (needle hay : string) : bool :=
  if String.prefix needle hay then true
  else match hay with
       | EmptyString => false
       | String _ hay' => contains needle hay'
       end.

(** [' '.join(l)]. *)
Fixpoint join (sep : string) (l : list string) : string :=
  match l with
  | [] => EmptyString
  | [x] => x
  | x :: l' => x ++ sep ++ join sep l'
  end.

(** [str(n)] and the [{n}] of an f-string, for an [int]. *)
Definition str_of_int (z : Z) : string :=
  NilZero.string_of_int (Z.to_int z).

Definition digit_val (c : ascii) : Z := Z.of_nat (nat_of_ascii c) - 48.

(** Value of a run of decimal digits, most significant first. *)
Fixpoint digits_val_acc (s : string) (acc : Z) : Z :=
  match s with
  | EmptyString => acc
  | String c s' => digits_val_acc s' (10 * acc + digit_val c)
  end.

Definition digits_val (s : string) : Z := digits_val_acc s 0.

Fixpoint all_chars (p : ascii -> bool) (s : string) : bool :=
  match s with
  | EmptyString => true
  | String c s' => p c && all_chars p s'
  end.

(** [10 ^ n], used for [n >= 1] only. *)
Definition pow10 (n : nat) : positive := Pos.pow 10 (Pos.of_nat n).

(** [float(s)] for a string made of digits and dots (the only strings
    the collector passes to it): at most one dot and at least one digit,
    otherwise [ValueError]. *)
Definition py_float (s : string) : res Q :=
  let (ip, rest) := span is_digit s in
  match rest with
  | EmptyString =>
      match ip with
      | EmptyString => Raise ValueError
      | _ => Ok (inject_Z (digits_val ip))
      end
  | String c fp =>
      if Ascii.eqb c "."%char && all_chars is_digit fp then
        match ip, fp with
        | EmptyString, EmptyString => Raise ValueError
        | _, EmptyString => Ok (inject_Z (digits_val ip))
        | _, _ =>
            Ok (Qmake (digits_val ip * Zpos (pow10 (String.length fp))
                       + digits_val fp)
                      (pow10 (String.length fp)))
        end
      else Raise ValueError
  end.

(** [int(s)] for a token without surrounding blanks: an optional sign and
    decimal digits (digit-group underscores are not modelled). *)
Definition py_int (s : string) : res Z :=
  let body_val (b : string) : res Z :=
    match b with
    | EmptyString => Raise ValueError
    | _ => if all_chars is_digit b then Ok (digits_val b) else Raise ValueError
    end in
  match s with
  | String "-"%char b => rbind (body_val b) (fun z => Ok (- z))
  | String "+"%char b => body_val b
  | _ => body_val s
  end.

(** Drop the first [n] characters. *)
Fixpoint string_drop (n : nat) (s : string) : string :=
  match n, s with
  | O, _ => s
  | S n', String _ s' => string_drop n' s'
  | S _, EmptyString => EmptyString
  end.

(** [s] without the literal prefix [p], when it starts with it. *)
Definition strip_prefix (p s : string) : option string :=
  if String.prefix p s then Some (string_drop (String.length p) s) else None.

End Py.

(* ===================================================================== *)
(** ** collectors/network_perf.py                                        *)
(* ===================================================================== *)

Module NetworkPerf.
Import Py.

(** *** Data classes (lines 29-111) *)

Record PingStats : Type := mkPing {
  min_ms : Q;
  avg_ms : Q;
  max_ms : Q;
  mdev_ms : Q;
  loss_pct : Q
}.

Definition PingStats_default : PingStats := mkPing 0 0 0 0 0.

Record ThroughputStats : Type := mkThroughput {
  bytes_transferred : Z;
  rate_mbps : Q;
  duration_sec : Q;
  tcp_retrans : Z
}.

(** The [timestamp] is kept as the ISO text that [to_dict] emits. *)
Record NetworkPerfStats : Type := mkStats {
  source_host : string;
  dest_host : string;
  path_type : string;
  timestamp : option string;
  ping : option PingStats;
  throughput_cold : option ThroughputStats;
  throughput_hot : option ThroughputStats;
  throughput_write : option ThroughputStats;
  status : string
}.

Definition PingStats_to_dict (p : PingStats) : dict :=
  [ ("min_ms", VFloat (min_ms p));
    ("avg_ms", VFloat (avg_ms p));
    ("max_ms", VFloat (max_ms p));
    ("mdev_ms", VFloat (mdev_ms p));
    ("loss_pct", VFloat (loss_pct p)) ].

Definition ThroughputStats_to_dict (t : ThroughputStats) : dict :=
  [ ("bytes_transferred", VInt (bytes_transferred t));
    ("rate_mbps", VFloat (rate_mbps t));
    ("duration_sec", VFloat (duration_sec t));
    ("tcp_retrans", VInt (tcp_retrans t)) ].

Definition opt_dict {A} (f : A -> dict) (o : option A) : pyval :=
  match o with Some a => VDict (f a) | None => VNone end.

Definition to_dict (s : NetworkPerfStats) : dict :=
  [ ("source_host", VStr (source_host s));
    ("dest_host", VStr (dest_host s));
    ("path_type", VStr (path_type s));
    ("timestamp", match timestamp s with Some t => VStr t | None => VNone end);
    ("ping", opt_dict PingStats_to_dict (ping s));
    ("throughput_cold", opt_dict ThroughputStats_to_dict (throughput_cold s));
    ("throughput_hot", opt_dict ThroughputStats_to_dict (throughput_hot s));
    ("throughput_write", opt_dict ThroughputStats_to_dict (throughput_write s));
    ("status", VStr (status s)) ].

(** [is_healthy] (lines 97-111).  A dataclass instance is always true in
    a boolean context, so [not self.ping] tests for [None]. *)
Definition is_healthy (s : NetworkPerfStats) : bool :=
  match ping s with
  | None => false
  | Some p =>
      if Qltb 1 (loss_pct p) then false
      else if Qltb 50 (avg_ms p) then false
      else if Qltb 20 (mdev_ms p) then false
      else match throughput_hot s with
           | Some h => if Qltb (rate_mbps h) 100 then false else true
           | None => true
           end
  end.

(** The status assignment of [_collect_path] (lines 527-533). *)
Definition determine_status (s : NetworkPerfStats) : string :=
  if is_healthy s then "healthy"
  else if match ping s with
          | Some p => Qltb (loss_pct p) 10
          | None => false
          end
       then "degraded"
       else "error".

(** *** The regular expressions of the module

    Each pattern is matched the way [re.search] does: leftmost start,
    greedy repetitions.  For these patterns a shorter repetition can
    never make the rest of the pattern match, so no backtracking inside
    one start position is needed. *)

(** [(\d+(?:\.\d+)?)% packet loss] anchored at the head of [s]. *)
Definition match_loss_here (s : string) : option string :=
  let (d1, r1) := span is_digit s in
  match d1 with
  | EmptyString => None
  | _ =>
      let plain := if String.prefix "% packet loss" r1 then Some d1 else None in
      match r1 with
      | String "."%char r2 =>
          let (d2, r3) := span is_digit r2 in
          match d2 with
          | EmptyString => plain
          | _ => if String.prefix "% packet loss" r3
                 then Some (d1 ++ "." ++ d2) else plain
          end
      | _ => plain
      end
  end.

Fixpoint search_loss (s : string) : option string :=
  match match_loss_here s with
  | Some g => Some g
  | None => match s with
            | EmptyString => None
            | String _ s' => search_loss s'
            end
  end.

(** One [([\d.]+)] group followed by the literal [sep]. *)
Definition group_then (sep : string) (s : string) : option (string * string) :=
  let (g, r) := span is_digit_or_dot s in
  match g with
  | EmptyString => None
  | _ => match strip_prefix sep r with
         | Some r' => Some (g, r')
         | None => None
         end
  end.

(** [rtt min/avg/max/mdev = ([\d.]+)/([\d.]+)/([\d.]+)/([\d.]+)]. *)
Definition match_rtt_here (s : string)
  : option (string * string * string * string) :=
  match strip_prefix "rtt min/avg/max/mdev = " s with
  | None => None
  | Some r0 =>
      match group_then "/" r0 with
      | None => None
      | Some (g1, r1) =>
          match group_then "/" r1 with
          | None => None
          | Some (g2, r2) =>
              match group_then "/" r2 with
              | None => None
              | Some (g3, r3) =>
                  match group_then EmptyString r3 with
                  | None => None
                  | Some (g4, _) => Some (g1, g2, g3, g4)
                  end
              end
          end
      end
  end.

Fixpoint search_rtt (s : string)
  : option (string * string * string * string) :=
  match match_rtt_here s with
  | Some g => Some g
  | None => match s with
            | EmptyString => None
            | String _ s' => search_rtt s'
            end
  end.

(** The alternation [(MiB|MB|GiB|GB|KiB|KB|B)?], first alternative first. *)
Definition unit_names : list string :=
  ["MiB"; "MB"; "GiB"; "GB"; "KiB"; "KB"; "B"].

Fixpoint first_prefix (names : list string) (s : string) : option string :=
  match names with
  | [] => None
  | n :: names' => if String.prefix n s then Some n else first_prefix names' s
  end.

(** [([\d.]+)\s*(MiB|MB|GiB|GB|KiB|KB|B)?]: the match starts at the
    first digit or dot. *)
Fixpoint search_bytes (s : string) : option (string * option string) :=
  match s with
  | EmptyString => None
  | String c s' =>
      if is_digit_or_dot c then
        let (g, r) := span is_digit_or_dot s in
        Some (g, first_prefix unit_names (drop_while is_space r))
      else search_bytes s'
  end.

(** The [multipliers] table of [measure_throughput_ssh] (lines 228-232). *)
Definition multiplier (unit : string) : Z :=
  if String.eqb unit "B" then 1
  else if String.eqb unit "KB" || String.eqb unit "KiB" then 1024
  else if String.eqb unit "MB" || String.eqb unit "MiB" then 1024 ^ 2
  else if String.eqb unit "GB" || String.eqb unit "GiB" then 1024 ^ 3
  else 1.

(** *** The outside world

    Every call that leaves the process is an [event]; the state of the
    monad is the log of the events so far, newest first.  What the world
    answers is given by an environment [env], whose oracles are indexed
    by the number of events already logged, so that two calls of the same
    command may get different answers. *)

Inductive event : Type :=
| EvRun (cmd : string) (timeout : Z)   (* subprocess.run(cmd, shell=True, ...) *)
| EvTime                               (* time.time() *)
| EvNow                                (* datetime.now() *)
| EvSleep (secs : Z)                   (* time.sleep(secs) *)
| EvMkdtemp (pfx : string)             (* tempfile.mkdtemp(prefix=pfx) *)
| EvWriteFile (path : string) (size_mb : Z)
| EvRmtree (path : string).            (* shutil.rmtree(path, ignore_errors=True) *)

(** What [subprocess.run] does without [check=True]: it returns the
    completed process whatever its exit status, or raises. *)
Inductive proc_outcome : Type :=
| Completed (returncode : Z) (stdout : string)
| TimeoutExpired
| SpawnFailed.

(** The part of iperf3's JSON report that the code reads, that is
    [data['end']['sum_sent']] with its three numbers, each possibly
    missing. *)
Record iperf_sent : Type := mkSent {
  sent_bytes : option Z;
  sent_bits_per_second : option Q;
  sent_seconds : option Q
}.

Record env : Type := mkEnv {
  subprocess_run : nat -> string -> Z -> proc_outcome;
  time_time : nat -> Q;
  datetime_now : nat -> string;          (* datetime.now().isoformat() *)
  gethostname : string;
  mkdtemp : nat -> string -> res string;
  write_file : nat -> string -> Z -> res unit;
  (** [json.loads] followed by the accesses of lines 188-192: [None] when
      one of them raises, [Some None] when ['end'] or ['sum_sent'] is
      missing, [Some (Some sent)] otherwise. *)
  iperf_json : string -> option (option iperf_sent)
}.

Definition world := list event.

Definition M (A : Type) : Type := world -> res A * world.

Definition ret {A} (a : A) : M A := fun w => (Ok a, w).

Definition raise {A} (e : exn) : M A := fun w => (Raise e, w).

Definition bind {A B} (m : M A) (k : A -> M B) : M B :=
  fun w => match m w with
           | (Ok a, w') => k a w'
           | (Raise e, w') => (Raise e, w')
           end.

Definition lift {A} (r : res A) : M A := fun w => (r, w).

(** [try: body except <those with handles e = true>: handler]. *)
Definition try_except {A} (body : M A) (handles : exn -> bool)
           (handler : exn -> M A) : M A :=
  fun w => match body w with
           | (Ok a, w') => (Ok a, w')
           | (Raise e, w') => if handles e then handler e w' else (Raise e, w')
           end.

(** [except Exception] and the bare [except:]. *)
Definition any_exception (e : exn) : bool := true.

Definition only_CollectionError (e : exn) : bool :=
  match e with CollectionError => true | _ => false end.

(** [try: body finally: cleanup], for a cleanup that cannot raise. *)
Definition try_finally {A} (body : M A) (cleanup : M unit) : M A :=
  fun w => match body w with
           | (r, w') => (r, snd (cleanup w'))
           end.

Declare Scope py_scope.
Delimit Scope py_scope with py.
Notation "x <- c1 ;; c2" := (bind c1 (fun x => c2))
  (at level 100, c1 at next level, right associativity) : py_scope.
Notation "c1 ;;; c2" := (bind c1 (fun _ => c2))
  (at level 100, right associativity) : py_scope.
Local Open Scope py_scope.


Section WithEnv.

Variable E : env.

Definition emit (e : event) : M unit := fun w => (Ok tt, e :: w).

(** [run_command] (lines 114-124).  The exit status is not looked at: a
    command that ran gives its stripped standard output. *)
Definition run_command (cmd : string) (timeout : Z) : M string :=
  fun w =>
    let w' := EvRun cmd timeout :: w in
    match subprocess_run E (length w) cmd timeout with
    | Completed _ out => (Ok (strip out), w')
    | TimeoutExpired => (Raise CollectionError, w')
    | SpawnFailed => (Raise CollectionError, w')
    end.

Definition time_now : M Q :=
  fun w => (Ok (time_time E (length w)), EvTime :: w).

Definition datetime_now_iso : M string :=
  fun w => (Ok (datetime_now E (length w)), EvNow :: w).

Definition sleep (secs : Z) : M unit := emit (EvSleep secs).

(** [measure_ping] (lines 127-153).  In the [try] block only
    [run_command] can raise [CollectionError], and it does so before any
    field of [stats] is assigned; the [float] conversions can raise
    [ValueError], which this function does not catch. *)
Definition measure_ping (host : string) (count : Z) : M PingStats :=
  let stats := PingStats_default in
  try_except
    (output <- run_command ("ping -c " ++ str_of_int count ++ " -q " ++ host)
                           (count + 10) ;;
     stats1 <- match search_loss output with
               | Some g =>
                   lift (rbind (py_float g) (fun l =>
                     Ok (mkPing (min_ms stats) (avg_ms stats) (max_ms stats)
                                (mdev_ms stats) l)))
               | None => ret stats
               end ;;
     match search_rtt output with
     | Some (g1, g2, g3, g4) =>
         lift (rbind (py_float g1) (fun a =>
               rbind (py_float g2) (fun b =>
               rbind (py_float g3) (fun c =>
               rbind (py_float g4) (fun d =>
                 Ok (mkPing a b c d (loss_pct stats1)))))))
     | None => ret stats1
     end)
    only_CollectionError
    (fun _ => ret (mkPing (min_ms stats) (avg_ms stats) (max_ms stats)
                          (mdev_ms stats) 100)).

(** [get_tcp_retrans] (lines 156-165). *)
Definition get_tcp_retrans : M Z :=
  try_except
    (output <- run_command
                 "nstat -az TcpRetransSegs 2>/dev/null | grep TcpRetransSegs" 60 ;;
     let parts := split_ws output in
     if (2 <=? length parts)%nat
     then lift (py_int (nth 1 parts EmptyString))
     else ret 0)
    any_exception
    (fun _ => ret 0).

Definition opt_default {A} (o : option A) (d : A) : A :=
  match o with Some a => a | None => d end.

(** [measure_throughput_iperf] (lines 168-198). *)
Definition measure_throughput_iperf (host : string) (duration : Z)
  : M (option ThroughputStats) :=
  try_except
    (run_command "which iperf3" 60 ;;;
     retrans_before <- get_tcp_retrans ;;
     output <- run_command ("iperf3 -c " ++ host ++ " -t "
                            ++ str_of_int duration ++ " -J") (duration + 30) ;;
     retrans_after <- get_tcp_retrans ;;
     let retrans := Z.max 0 (retrans_after - retrans_before) in
     match iperf_json E output with
     | None => raise JSONDecodeError
     | Some None => ret (Some (mkThroughput 0 0 0 retrans))
     | Some (Some sent) =>
         ret (Some (mkThroughput
                      (opt_default (sent_bytes sent) 0)
                      (opt_default (sent_bits_per_second sent) 0%Q / 1000000)%Q
                      (opt_default (sent_seconds sent) (inject_Z duration))
                      retrans))
     end)
    any_exception
    (fun _ => ret None).

(** [f"{user}@{host}" if user else host]. *)
Definition dest_of (user : option string) (host : string) : string :=
  match user with
  | Some u => if String.eqb u EmptyString then host else u ++ "@" ++ host
  | None => host
  end.

(** [measure_throughput_ssh] (lines 201-245); [duration_sec] is never
    assigned and keeps the default of the data class. *)
Definition measure_throughput_ssh (host : string) (user : option string)
           (size_mb : Z) : M (option ThroughputStats) :=
  try_except
    (run_command "which pv" 60 ;;;
     let dest := dest_of user host in
     retrans_before <- get_tcp_retrans ;;
     output <- run_command
                 ("dd if=/dev/zero bs=1M count=" ++ str_of_int size_mb
                  ++ " 2>/dev/null | pv -f -b 2>&1 | ssh -T -o BatchMode=yes "
                  ++ dest ++ " 'cat > /dev/null'") 300 ;;
     retrans_after <- get_tcp_retrans ;;
     let retrans := Z.max 0 (retrans_after - retrans_before) in
     bytes <- match search_bytes output with
              | Some (g, u) =>
                  value <- lift (py_float g) ;;
                  let unit := opt_default u "B" in
                  ret (int_of_float (value * inject_Z (multiplier unit))%Q)
              | None => ret (size_mb * 1024 * 1024)
              end ;;
     ret (Some (mkThroughput bytes
                             (inject_Z (bytes * 8) / 1000000 / 10)%Q
                             0%Q
                             retrans)))
    any_exception
    (fun _ => ret None).

(** [os.path.join(directory, name)] for a relative [name]. *)
Definition ends_with_slash (d : string) : bool :=
  match string_rev d with
  | String "/"%char _ => true
  | _ => false
  end.

Definition path_join (directory name : string) : string :=
  match directory with
  | EmptyString => name
  | _ => if ends_with_slash directory then directory ++ name
         else directory ++ "/" ++ name
  end.

(** [range(n)]. *)
Definition range (n : Z) : list Z := map Z.of_nat (seq 0 (Z.to_nat n)).

(** [generate_random_files] (lines 248-266): one file of [size_mb] chunks
    per index; a failing [open] or [write] raises. *)
Fixpoint generate_files_loop (directory : string) (size_mb : Z)
         (idx : list Z) (files : list string) : M (list string) :=
  match idx with
  | [] => ret files
  | i :: idx' =>
      let filepath :=
        path_join directory ("nomad_nettest_" ++ str_of_int i ++ ".iotest") in
      (fun w => (write_file E (length w) filepath size_mb,
                 EvWriteFile filepath size_mb :: w)) ;;;
      generate_files_loop directory size_mb idx' (files ++ [filepath])%list
  end.

Definition generate_random_files (directory : string) (count size_mb : Z)
  : M (list string) :=
  generate_files_loop directory size_mb (range count) [].

(** [flush_caches] (lines 269-279). *)
Definition is_remote (host : option string) : option string :=
  match host with
  | Some h =>
      if String.eqb h EmptyString then None
      else if String.eqb h "localhost" || String.eqb h "127.0.0.1" then None
      else Some h
  | None => None
  end.

Definition flush_caches (host : option string) (user : option string)
  : M bool :=
  try_except
    (match is_remote host with
     | Some h =>
         run_command ("ssh -o BatchMode=yes " ++ dest_of user h
                      ++ " 'sync; echo 3 | sudo tee /proc/sys/vm/drop_caches > /dev/null 2>&1'")
                     30
     | None =>
         run_command "sync; echo 3 | sudo tee /proc/sys/vm/drop_caches > /dev/null 2>&1"
                     30
     end ;;;
     ret true)
    any_exception
    (fun _ => ret false).

(** [lock_in_cache] (lines 282-295). *)
Fixpoint run_each (mk : string -> string) (files : list string) : M unit :=
  match files with
  | [] => ret tt
  | f :: files' => run_command (mk f) 60 ;;; run_each mk files'
  end.

Definition lock_in_cache (files : list string) : M bool :=
  try_except
    (run_each (fun f => "vmtouch -t " ++ f) files ;;; ret true)
    any_exception
    (fun _ =>
       try_except
         (run_each (fun f => "cat " ++ f ++ " > /dev/null") files ;;; ret true)
         any_exception
         (fun _ => ret false)).

(** The [results] dictionary of [measure_throughput_full]. *)
Record full_results : Type := mkFull {
  cold_cache : option ThroughputStats;
  hot_cache_runs : list ThroughputStats;
  hot_cache_avg : option ThroughputStats;
  true_write : option ThroughputStats;
  tcp_retrans_total : Z;
  error : option string
}.

Definition discard_cmd (files : list string) (dest : string) : string :=
  "cat " ++ join " " files
  ++ " | pv -f -n 2>&1 | ssh -T -o BatchMode=yes -o Compression=no "
  ++ dest ++ " 'cat > /dev/null'".

Definition write_cmd (files : list string) (dest : string) : string :=
  "cat " ++ join " " files
  ++ " | pv -f -n 2>&1 | ssh -T -o BatchMode=yes -o Compression=no "
  ++ dest
  ++ " 'cat > /tmp/nomad_nettest_recv.tmp && rm -f /tmp/nomad_nettest_recv.tmp'".

(** One timed transfer: the pattern of lines 349-361, 367-379 and
    399-412.  [start_time] is read before the [try]; the division by a
    zero [duration] raises inside it, and any exception leaves the slot
    empty. *)
Definition timed_transfer (cmd : string) (total_bytes : Z)
  : M (option ThroughputStats) :=
  start_time <- time_now ;;
  try_except
    (run_command cmd 300 ;;;
     end_time <- time_now ;;
     let duration := (end_time - start_time)%Q in
     if Qeqb0 duration then raise ZeroDivisionError
     else ret (Some (mkThroughput total_bytes
                                  (inject_Z (total_bytes * 8) / duration / 1000000)%Q
                                  duration
                                  0)))
    any_exception
    (fun _ => ret None).

(** The loop [for run in range(3)] (lines 366-382). *)
Fixpoint hot_cache_loop (cmd : string) (total_bytes : Z) (runs : list Z)
         (acc : list ThroughputStats) : M (list ThroughputStats) :=
  match runs with
  | [] => ret acc
  | run :: runs' =>
      r <- timed_transfer cmd total_bytes ;;
      let acc' := match r with Some t => (acc ++ [t])%list | None => acc end in
      (if run <? 2 then sleep 5 else ret tt) ;;;
      hot_cache_loop cmd total_bytes runs' acc'
  end.

(** [sum(xs)]: a left fold from 0. *)
Definition sumQ (l : list Q) : Q := fold_left Qplus l 0%Q.
Definition sumZ (l : list Z) : Z := fold_left Z.add l 0.

Definition lenQ {A} (l : list A) : Q := inject_Z (Z.of_nat (length l)).

(** The average of the hot-cache runs (lines 385-392). *)
Definition hot_cache_average (runs : list ThroughputStats)
  : option ThroughputStats :=
  match runs with
  | [] => None
  | _ =>
      let avg_rate := (sumQ (map rate_mbps runs) / lenQ runs)%Q in
      let avg_bytes :=
        (inject_Z (sumZ (map bytes_transferred runs)) / lenQ runs)%Q in
      Some (mkThroughput (int_of_float avg_bytes)
                         avg_rate
                         (sumQ (map duration_sec runs) / lenQ runs)%Q
                         0)
  end.

(** The hot-cache phase: pin the files, three runs, average. *)
Definition hot_cache_phase (files : list string) (dest : string)
           (total_bytes : Z) : M (list ThroughputStats) :=
  lock_in_cache files ;;;
  hot_cache_loop (discard_cmd files dest) total_bytes (range 3) [].

(** [measure_throughput_full] (lines 298-423); its [work_dir] argument is
    never used and is left out. *)
Definition measure_throughput_full (host : string) (user : option string)
           (num_files file_size_mb : Z) : M full_results :=
  let dest := dest_of user host in
  pv <- try_except (run_command "which pv" 60 ;;; ret true)
                   any_exception (fun _ => ret false) ;;
  if negb pv then
    ret (mkFull None [] None None 0 (Some "pv not installed"))
  else
    test_dir <- (fun w => (mkdtemp E (length w) "nomad_nettest_",
                           EvMkdtemp "nomad_nettest_" :: w)) ;;
    try_finally
      (files <- generate_random_files test_dir num_files file_size_mb ;;
       let total_bytes := num_files * file_size_mb * 1024 * 1024 in
       tcp_start <- get_tcp_retrans ;;
       (* cold cache *)
       flush_caches None None ;;;
       flush_caches (Some host) user ;;;
       cold <- timed_transfer (discard_cmd files dest) total_bytes ;;
       (* hot cache, three runs *)
       runs <- hot_cache_phase files dest total_bytes ;;
       let hot_avg := hot_cache_average runs in
       (* true write *)
       flush_caches None None ;;;
       flush_caches (Some host) user ;;;
       lock_in_cache files ;;;
       write <- timed_transfer (write_cmd files dest) total_bytes ;;
       tcp_end <- get_tcp_retrans ;;
       ret (mkFull cold runs hot_avg write (Z.max 0 (tcp_end - tcp_start)) None))
      (emit (EvRmtree test_dir)).

(** *** The collector (lines 428-535) *)

Record test_config : Type := mkTest {
  tc_source : option string;
  tc_dest : option string;
  tc_path_type : option string;
  tc_user : option string
}.

Record collector : Type := mkCollector {
  network_tests : list test_config;
  ping_count : Z;
  iperf_duration : Z;
  full_test : bool;
  num_files : Z;
  file_size_mb : Z
}.

Definition set_hot_retrans (h : option ThroughputStats) (n : Z)
  : option ThroughputStats :=
  match h with
  | Some t => Some (mkThroughput (bytes_transferred t) (rate_mbps t)
                                 (duration_sec t) n)
  | None => None
  end.

Definition with_status (s : NetworkPerfStats) (st : string)
  : NetworkPerfStats :=
  mkStats (source_host s) (dest_host s) (path_type s) (timestamp s) (ping s)
          (throughput_cold s) (throughput_hot s) (throughput_write s) st.

(** [_collect_path] (lines 493-535). *)
Definition _collect_path (self : collector) (source dest path_type : string)
           (user : option string) : M NetworkPerfStats :=
  now <- datetime_now_iso ;;
  p <- measure_ping dest (ping_count self) ;;
  thr <- (if full_test self then
            full <- measure_throughput_full dest user (num_files self)
                                            (file_size_mb self) ;;
            let hot := if negb (tcp_retrans_total full =? 0)
                       then set_hot_retrans (hot_cache_avg full)
                                            (tcp_retrans_total full)
                       else hot_cache_avg full in
            ret (cold_cache full, hot, true_write full)
          else
            hot <- measure_throughput_iperf dest (iperf_duration self) ;;
            hot' <- match hot with
                    | Some _ => ret hot
                    | None => measure_throughput_ssh dest user 50
                    end ;;
            ret (None, hot', None)) ;;
  let '(cold, hot, write) := thr in
  let stats := mkStats source dest path_type (Some now) (Some p)
                       cold hot write "unknown" in
  ret (with_status stats (determine_status stats)).

Definition error_record (source dest path_type now : string) : dict :=
  [ ("source_host", VStr source);
    ("dest_host", VStr dest);
    ("path_type", VStr path_type);
    ("status", VStr "error");
    ("timestamp", VStr now) ].

(** One iteration of the loop of [collect] (lines 468-489): the records
    it appends to [results]. *)
Definition collect_one (self : collector) (t : test_config)
  : M (list dict) :=
  let source := opt_default (tc_source t) (gethostname E) in
  let path_type := opt_default (tc_path_type t) "unknown" in
  match tc_dest t with
  | None => ret []
  | Some dest =>
      if String.eqb dest EmptyString then ret []
      else
        try_except
          (stats <- _collect_path self source dest path_type (tc_user t) ;;
           ret [to_dict stats])
          any_exception
          (fun _ =>
             now <- datetime_now_iso ;;
             ret [error_record source dest path_type now])
  end.

Fixpoint collect_loop (self : collector) (tests : list test_config)
         (results : list dict) : M (list dict) :=
  match tests with
  | [] => ret results
  | t :: tests' =>
      rs <- collect_one self t ;;
      collect_loop self tests' (results ++ rs)%list
  end.

(** [collect] (lines 464-491). *)
Definition collect (self : collector) : M (list dict) :=
  collect_loop self (network_tests self) [].

End WithEnv.

(** *** [store] (lines 537-597)

    Modelled from the spec: the connection comes from
    [get_db_connection] of the base collector, which is not among the
    sources; the specification (section 6) has the store as one appended
    row per record.  The table [network_perf] is the list of its rows,
    oldest first (the [id] column is left out).  A parameter that is not
    a scalar cannot be bound, and the columns declared NOT NULL refuse
    [None]; an exception leaves the transaction uncommitted. *)

Record row : Type := mkRow {
  col_timestamp : pyval;
  col_source_host : pyval;
  col_dest_host : pyval;
  col_path_type : pyval;
  col_status : pyval;
  col_ping_min_ms : pyval;
  col_ping_avg_ms : pyval;
  col_ping_max_ms : pyval;
  col_ping_mdev_ms : pyval;
  col_ping_loss_pct : pyval;
  col_throughput_mbps : pyval;
  col_bytes_transferred : pyval;
  col_tcp_retrans : pyval
}.

(** The receiver of a [.get] call must be a [dict]. *)
Definition as_dict (v : pyval) : res dict :=
  match v with
  | VDict d => Ok d
  | _ => Raise AttributeError
  end.

(** The parameter tuple of the INSERT (lines 570-593). *)
Definition row_of_record (timestamp : string) (record : dict) : res row :=
  let ping := py_or (dict_get "ping" record) (VDict []) in
  let throughput :=
    py_or (py_or (dict_get "throughput_hot" record)
                 (dict_get "throughput_cold" record))
          (VDict []) in
  rbind (as_dict ping) (fun ping =>
  rbind (as_dict throughput) (fun throughput =>
    Ok (mkRow (dict_get_default "timestamp" (VStr timestamp) record)
              (dict_get "source_host" record)
              (dict_get "dest_host" record)
              (dict_get "path_type" record)
              (dict_get "status" record)
              (dict_get "min_ms" ping)
              (dict_get "avg_ms" ping)
              (dict_get "max_ms" ping)
              (dict_get "mdev_ms" ping)
              (dict_get "loss_pct" ping)
              (dict_get "rate_mbps" throughput)
              (dict_get "bytes_transferred" throughput)
              (dict_get "tcp_retrans" throughput)))).

Definition is_scalar (v : pyval) : bool :=
  match v with VDict _ => false | _ => true end.

Definition is_null (v : pyval) : bool :=
  match v with VNone => true | _ => false end.

Definition row_columns (r : row) : list pyval :=
  [ col_timestamp r; col_source_host r; col_dest_host r; col_path_type r;
    col_status r; col_ping_min_ms r; col_ping_avg_ms r; col_ping_max_ms r;
    col_ping_mdev_ms r; col_ping_loss_pct r; col_throughput_mbps r;
    col_bytes_transferred r; col_tcp_retrans r ].

Definition insert_row (r : row) (table : list row) : res (list row) :=
  if negb (forallb is_scalar (row_columns r)) then Raise InterfaceError
  else if is_null (col_timestamp r) || is_null (col_source_host r)
          || is_null (col_dest_host r)
       then Raise IntegrityError
       else Ok (table ++ [r])%list.

Fixpoint insert_records (timestamp : string) (data : list dict)
         (table : list row) : res (list row) :=
  match data with
  | [] => Ok table
  | record :: data' =>
      rbind (row_of_record timestamp record) (fun r =>
      rbind (insert_row r table) (fun table' =>
        insert_records timestamp data' table'))
  end.

(** [timestamp] is the [datetime.now().isoformat()] of line 568. *)
Definition store (timestamp : string) (data : list dict) (table : list row)
  : res (list row) :=
  match data with
  | [] => Ok table
  | _ => insert_records timestamp data table
  end.

End NetworkPerf.

(* ===================================================================== *)
(** ** diag/network.py                                                   *)
(* ===================================================================== *)

Module Diag.
Import Py.

(** What the code observes of a [datetime]: [weekday()] and [hour]. *)
Record datetime : Type := mkDatetime {
  weekday : Z;
  hour : Z
}.

(** The dictionary returned by [analyze_time_patterns] when the history
    is not empty; the empty dictionary is [None]. *)
Record time_patterns : Type := mkPatterns {
  weekday_avg : Q;
  weekend_avg : Q;
  business_hours_avg : Q;
  off_hours_avg : Q;
  weekday_count : Z;
  weekend_count : Z
}.

(** The text of a cause's [detail], with the formatted number kept apart
    from the fixed text that follows it. *)
Inductive detail_text : Type :=
| Plain (s : string)
| Fixed1 (x : pyval) (rest : string)    (* f'{x:.1f}...' *)
| Fixed0 (x : Q) (rest : string)        (* f'{x:.0f}...' *)
| Shown (x : pyval) (rest : string).    (* f'{x}...' *)

Record cause_entry : Type := mkCause {
  cause : string;
  confidence : string;
  detail : detail_text
}.

Record buckets : Type := mkBuckets {
  weekday_samples : list pyval;
  weekend_samples : list pyval;
  business_samples : list pyval;
  off_hours_samples : list pyval
}.

(** [sum(samples) / len(samples) if samples else 0]. *)
Fixpoint sum_values (l : list pyval) (acc : Q) : res Q :=
  match l with
  | [] => Ok acc
  | v :: l' =>
      match num_of v with
      | Some q => sum_values l' (acc + q)%Q
      | None => Raise TypeError
      end
  end.

Definition average (samples : list pyval) : res Q :=
  match samples with
  | [] => Ok 0%Q
  | _ => rbind (sum_values samples 0%Q) (fun s =>
           Ok (s / inject_Z (Z.of_nat (length samples)))%Q)
  end.

Section WithParser.

(** [datetime.fromisoformat]; [None] stands for [ValueError]. *)
Variable fromisoformat : string -> option datetime.

(** The loop of [analyze_time_patterns] (lines 190-214). *)
Fixpoint partition_samples (history : list dict) (b : buckets) : res buckets :=
  match history with
  | [] => Ok b
  | record :: history' =>
      let timestamp := dict_get "timestamp" record in
      let throughput := dict_get_default "throughput_mbps" (VInt 0) record in
      if negb (truthy throughput) then partition_samples history' b
      else
        match timestamp with
        | VStr s =>
            match fromisoformat s with
            | None => partition_samples history' b
            | Some ts =>
                let b1 :=
                  if weekday ts <? 5
                  then mkBuckets (weekday_samples b ++ [throughput])
                                 (weekend_samples b)
                                 (business_samples b) (off_hours_samples b)
                  else mkBuckets (weekday_samples b)
                                 (weekend_samples b ++ [throughput])
                                 (business_samples b) (off_hours_samples b) in
                let b2 :=
                  if (9 <=? hour ts) && (hour ts <? 17) && (weekday ts <? 5)
                  then mkBuckets (weekday_samples b1) (weekend_samples b1)
                                 (business_samples b1 ++ [throughput])
                                 (off_hours_samples b1)
                  else mkBuckets (weekday_samples b1) (weekend_samples b1)
                                 (business_samples b1)
                                 (off_hours_samples b1 ++ [throughput]) in
                partition_samples history' b2
            end
        | _ => Raise AttributeError
        end
  end%list.

(** [analyze_time_patterns] (lines 180-223). *)
Definition analyze_time_patterns (history : list dict)
  : res (option time_patterns) :=
  match history with
  | [] => Ok None
  | _ =>
      rbind (partition_samples history (mkBuckets [] [] [] [])) (fun b =>
      rbind (average (weekday_samples b)) (fun wd =>
      rbind (average (weekend_samples b)) (fun we =>
      rbind (average (business_samples b)) (fun biz =>
      rbind (average (off_hours_samples b)) (fun off =>
        Ok (Some (mkPatterns wd we biz off
                             (Z.of_nat (length (weekday_samples b)))
                             (Z.of_nat (length (weekend_samples b))))))))))
  end.

End WithParser.

(** [dict(row)] of [get_network_state] (lines 68-90): the columns of the
    latest row of [network_perf] under their names (the [id] column is
    left out). *)
Definition state_of_row (r : NetworkPerf.row) : dict :=
  [ ("timestamp", NetworkPerf.col_timestamp r);
    ("source_host", NetworkPerf.col_source_host r);
    ("dest_host", NetworkPerf.col_dest_host r);
    ("path_type", NetworkPerf.col_path_type r);
    ("status", NetworkPerf.col_status r);
    ("ping_min_ms", NetworkPerf.col_ping_min_ms r);
    ("ping_avg_ms", NetworkPerf.col_ping_avg_ms r);
    ("ping_max_ms", NetworkPerf.col_ping_max_ms r);
    ("ping_mdev_ms", NetworkPerf.col_ping_mdev_ms r);
    ("ping_loss_pct", NetworkPerf.col_ping_loss_pct r);
    ("throughput_mbps", NetworkPerf.col_throughput_mbps r);
    ("bytes_transferred", NetworkPerf.col_bytes_transferred r);
    ("tcp_retrans", NetworkPerf.col_tcp_retrans r) ].

(** *** [analyze_potential_causes] (lines 226-346) *)

Definition no_data_cause : cause_entry :=
  mkCause "No network data available" "high"
          (Plain "No recent measurements found for this path").

Definition no_issue_cause : cause_entry :=
  mkCause "No obvious issues detected" "low"
          (Plain "Network path appears healthy").

(** Lines 240-253. *)
Definition check_loss (state : dict) : res (list cause_entry) :=
  let loss := dict_get_default "ping_loss_pct" (VInt 0) state in
  rbind (py_gt loss 5) (fun hi =>
    if hi then
      Ok [mkCause "High Packet Loss" "high"
            (Fixed1 loss "% packet loss - indicates network instability")]
    else
      rbind (py_gt loss 1) (fun mid =>
        if mid then
          Ok [mkCause "Elevated Packet Loss" "medium"
                (Fixed1 loss "% packet loss - minor network issues")]
        else Ok [])).

(** Lines 255-270. *)
Definition check_latency (state : dict) : res (list cause_entry) :=
  let latency := dict_get_default "ping_avg_ms" (VInt 0) state in
  rbind (py_gt latency 100) (fun hi =>
    if hi then
      Ok [mkCause "High Latency" "high"
            (Fixed1 latency
               "ms average latency - significantly impacts performance")]
    else
      rbind (py_gt latency 50) (fun mid =>
        if mid then
          Ok [mkCause "Elevated Latency" "medium"
                (Fixed1 latency "ms average latency")]
        else Ok [])).

(** Lines 272-277. *)
Definition check_jitter (state : dict) : res (list cause_entry) :=
  let jitter := dict_get_default "ping_mdev_ms" (VInt 0) state in
  rbind (py_gt jitter 20) (fun hi =>
    if hi then
      Ok [mkCause "High Jitter" "high"
            (Fixed1 jitter
               "ms jitter - indicates network congestion or instability")]
    else Ok []).

(** Lines 279-292. *)
Definition check_retrans (state : dict) : res (list cause_entry) :=
  let retrans := dict_get_default "tcp_retrans" (VInt 0) state in
  rbind (py_gt retrans 100) (fun hi =>
    if hi then
      Ok [mkCause "Excessive TCP Retransmits" "high"
            (Shown retrans
               " retransmits - significant packet loss or corruption")]
    else
      rbind (py_gt retrans 10) (fun mid =>
        if mid then
          Ok [mkCause "Elevated TCP Retransmits" "medium"
                (Shown retrans " retransmits")]
        else Ok [])).

(** Lines 294-301. *)
Definition check_throughput (state : dict) : res (list cause_entry) :=
  let throughput := dict_get_default "throughput_mbps" (VInt 0) state in
  if truthy throughput then
    rbind (py_lt throughput 100) (fun low =>
      if low then
        Ok [mkCause "Low Throughput" "medium"
              (Fixed1 throughput " Mbps - below expected performance")]
      else Ok [])
  else Ok [].

(** Lines 303-322. *)
Definition check_business_hours (tp : option time_patterns)
  : list cause_entry :=
  match tp with
  | None => []
  | Some tp =>
      let biz := business_hours_avg tp in
      let off := off_hours_avg tp in
      if negb (Qeqb0 biz) && negb (Qeqb0 off) && Qltb 0 off then
        let ratio := (biz / off)%Q in
        if Qltb ratio (7 # 10) then
          [mkCause "Business Hours Congestion" "high"
             (Fixed0 ((1 - ratio) * 100)%Q
                "% throughput drop during 9am-5pm weekdays")]
        else if Qltb ratio (85 # 100) then
          [mkCause "Mild Business Hours Impact" "medium"
             (Fixed0 ((1 - ratio) * 100)%Q
                "% throughput drop during business hours")]
        else []
      else []
  end.

(** [trends.get(name, {}).get('trend') == value]. *)
Fixpoint trends_lookup (k : string) (trends : list (string * dict)) : dict :=
  match trends with
  | [] => []
  | (k', d) :: trends' =>
      if String.eqb k k' then d else trends_lookup k trends'
  end.

Definition trend_is (trends : list (string * dict)) (name value : string)
  : bool :=
  match dict_get "trend" (trends_lookup name trends) with
  | VStr s => String.eqb s value
  | _ => false
  end.

(** Lines 324-337. *)
Definition check_trends (trends : list (string * dict)) : list cause_entry :=
  ((if trend_is trends "throughput" "decreasing"
    then [mkCause "Declining Throughput Trend" "medium"
            (Plain "Throughput has been decreasing over time")]
    else [])
   ++
   (if trend_is trends "latency" "increasing"
    then [mkCause "Increasing Latency Trend" "medium"
            (Plain "Latency has been increasing over time")]
    else []))%list.

Definition state_present (state : option dict) : bool :=
  match state with
  | Some (_ :: _) => true
  | _ => false
  end.

Definition analyze_potential_causes (state : option dict)
           (history : list dict) (trends : list (string * dict))
           (tp : option time_patterns) : res (list cause_entry) :=
  match state with
  | None => Ok [no_data_cause]
  | Some [] => Ok [no_data_cause]
  | Some state =>
      rbind (check_loss state) (fun c1 =>
      rbind (check_latency state) (fun c2 =>
      rbind (check_jitter state) (fun c3 =>
      rbind (check_retrans state) (fun c4 =>
      rbind (check_throughput state) (fun c5 =>
        let causes :=
          (c1 ++ c2 ++ c3 ++ c4 ++ c5
              ++ check_business_hours tp ++ check_trends trends)%list in
        match causes with
        | [] => Ok [no_issue_cause]
        | _ => Ok causes
        end)))))
  end.

(** *** [generate_recommendations] (lines 349-390) *)

Definition recommendations_for (cause_name : string) : list string :=
  if contains "Packet Loss" cause_name then
    [ "Check cable connections and switch ports";
      "Verify switch port error counters: show interface counters errors";
      "Test with different cables or ports" ]
  else if contains "Latency" cause_name then
    [ "Check for routing changes: traceroute <dest>";
      "Verify no bandwidth-heavy processes running";
      "Check switch/router CPU utilization" ]
  else if contains "Jitter" cause_name then
    [ "Network jitter often indicates congestion";
      "Check for broadcast storms or network loops";
      "Consider QoS policies for critical traffic" ]
  else if contains "Retransmit" cause_name then
    [ "TCP retransmits indicate packet loss";
      "Check for duplex mismatch: ethtool <interface>";
      "Verify MTU settings match across path" ]
  else if contains "Congestion" cause_name then
    [ "Consider dedicated network path for HPC traffic";
      "Evaluate traffic shaping or QoS policies";
      "Schedule large transfers for off-hours";
      "Document congestion pattern for infrastructure upgrade proposal" ]
  else if contains "Low Throughput" cause_name then
    [ "Run iperf3 test to isolate bottleneck: iperf3 -c <dest>";
      "Check NIC link speed: ethtool <interface>";
      "Verify no half-duplex links in path" ]
  else [].

(** The list built by the loop and the fallback (lines 351-388). *)
Definition raw_recommendations (causes : list cause_entry) : list string :=
  let recommendations := flat_map (fun c => recommendations_for (cause c)) causes in
  match recommendations with
  | [] => ["Network appears healthy - no action required"]
  | _ => recommendations
  end.

(** [list(dict.fromkeys(l))]: each key is inserted once, at the place of
    its first occurrence. *)
Definition mem_string (x : string) (l : list string) : bool :=
  existsb (String.eqb x) l.

Definition dict_fromkeys (l : list string) : list string :=
  fold_left (fun keys k => if mem_string k keys then keys else keys ++ [k])%list
            l [].

Definition generate_recommendations (causes : list cause_entry)
  : list string :=
  dict_fromkeys (raw_recommendations causes).

End Diag.

(* ===================================================================== *)
(** ** Concrete worlds used to run the model                             *)
(* ===================================================================== *)

Module Demo.
Import Py NetworkPerf.

Definition ping_report : string :=
  "10 packets transmitted, 10 received, 0% packet loss, time 9012ms rtt min/avg/max/mdev = 0.123/0.456/0.789/0.111 ms".

(** A host where every command runs, [ping] prints [ping_report], the
    clock advances by one second per event and nothing else prints. *)
Definition quiet_env : env :=
  mkEnv (fun _ cmd _ =>
           if String.prefix "ping" cmd then Completed 0 ping_report
           else Completed 0 EmptyString)
        (fun n => inject_Z (Z.of_nat n))
        (fun _ => "2026-01-05T10:00:00")
        "node01"
        (fun _ _ => Ok "/tmp/nomad_nettest_abc")
        (fun _ _ _ => Ok tt)
        (fun _ => None).

(** The same host with every command timing out. *)
Definition dead_env : env :=
  mkEnv (fun _ _ _ => TimeoutExpired)
        (fun n => inject_Z (Z.of_nat n))
        (fun _ => "2026-01-05T10:00:00")
        "node01"
        (fun _ _ => Ok "/tmp/nomad_nettest_abc")
        (fun _ _ _ => Ok tt)
        (fun _ => None).

(** A host whose disk is full: the test files cannot be written. *)
Definition full_disk_env : env :=
  mkEnv (fun _ cmd _ =>
           if String.prefix "ping" cmd then Completed 0 ping_report
           else Completed 0 EmptyString)
        (fun n => inject_Z (Z.of_nat n))
        (fun _ => "2026-01-05T10:00:00")
        "node01"
        (fun _ _ => Ok "/tmp/nomad_nettest_abc")
        (fun _ _ _ => Raise OSError)
        (fun _ => None).

(** A host without a usable [pv]: probing for it cannot even be run. *)
Definition no_pv_env : env :=
  mkEnv (fun _ cmd _ =>
           if String.eqb cmd "which pv" then SpawnFailed
           else if String.prefix "ping" cmd then Completed 0 ping_report
           else Completed 0 EmptyString)
        (fun n => inject_Z (Z.of_nat n))
        (fun _ => "2026-01-05T10:00:00")
        "node01"
        (fun _ _ => Ok "/tmp/nomad_nettest_abc")
        (fun _ _ _ => Ok tt)
        (fun _ => None).

(** A host on which pv is not installed: [which pv] runs and exits with
    status 1 without printing anything. *)
Definition absent_pv_env : env :=
  mkEnv (fun _ cmd _ =>
           if String.eqb cmd "which pv" then Completed 1 EmptyString
           else if String.prefix "ping" cmd then Completed 0 ping_report
           else Completed 0 EmptyString)
        (fun n => inject_Z (Z.of_nat n))
        (fun _ => "2026-01-05T10:00:00")
        "node01"
        (fun _ _ => Ok "/tmp/nomad_nettest_abc")
        (fun _ _ _ => Ok tt)
        (fun _ => None).

Definition quick_collector (tests : list test_config) : collector :=
  mkCollector tests 10 10 false 3 10.

Definition full_collector (tests : list test_config) : collector :=
  mkCollector tests 10 10 true 3 10.

Definition storage_test : test_config :=
  mkTest (Some "localhost") (Some "storage") (Some "switch") None.

(** A calendar of two instants: Monday 5 January 2026 at 10:00 and
    Saturday 10 January 2026 at 12:00. *)
Definition two_days (s : string) : option Diag.datetime :=
  if String.eqb s "2026-01-05T10:00:00" then Some (Diag.mkDatetime 0 10)
  else if String.eqb s "2026-01-10T12:00:00" then Some (Diag.mkDatetime 5 12)
  else None.

Definition monday_sample : dict :=
  [ ("timestamp", VStr "2026-01-05T10:00:00"); ("throughput_mbps", VInt 100) ].

Definition saturday_sample : dict :=
  [ ("timestamp", VStr "2026-01-10T12:00:00");
    ("throughput_mbps", VFloat 200) ].

End Demo.

(* ===================================================================== *)
(** ** Vocabulary of the properties                                      *)
(* ===================================================================== *)

Module CollectorSpec.
Import Py NetworkPerf.

(** The healthy predicate of the data model. *)
Definition healthy_metrics (s : NetworkPerfStats) : Prop :=
  exists p, ping s = Some p
            /\ (loss_pct p <= 1)%Q /\ (avg_ms p <= 50)%Q /\ (mdev_ms p <= 20)%Q
            /\ (forall h, throughput_hot s = Some h -> (100 <= rate_mbps h)%Q).

(** The ping is present and lost less than 10% of the probes. *)
Definition low_loss (s : NetworkPerfStats) : Prop :=
  exists p, ping s = Some p /\ (loss_pct p < 10)%Q.

(** The transfers and the pauses among the events. *)
Definition is_run_or_sleep (e : event) : bool :=
  match e with
  | EvRun _ _ => true
  | EvSleep _ => true
  | _ => false
  end.

Definition runs_and_sleeps (new : list event) : list event :=
  filter is_run_or_sleep (rev new).

(** The result returned when the probe for pv raises. *)
Definition pv_missing : full_results :=
  mkFull None [] None None 0 (Some "pv not installed").

(** Successive readings of the wall clock never go backwards. *)
Definition clock_monotone (E : env) : Prop :=
  forall n m : nat, (n <= m)%nat -> (time_time E n <= time_time E m)%Q.

(** What iperf3 reports is a rate that is not negative and a duration
    that is positive. *)
Definition report_sane (E : env) : Prop :=
  forall out sent,
    iperf_json E out = Some (Some sent) ->
    (forall b, sent_bits_per_second sent = Some b -> (0 <= b)%Q)
    /\ (forall d, sent_seconds sent = Some d -> (0 < d)%Q).

(** A result with a rate that is not negative and a positive duration. *)
Definition measured (t : ThroughputStats) : Prop :=
  (0 <= rate_mbps t)%Q /\ (0 < duration_sec t)%Q.

Definition option_list {A} (o : option A) : list A :=
  match o with Some a => [a] | None => [] end.

(** Every throughput result that the full benchmark hands back. *)
Definition phase_results (r : full_results) : list ThroughputStats :=
  (option_list (cold_cache r) ++ hot_cache_runs r
   ++ option_list (hot_cache_avg r) ++ option_list (true_write r))%list.

(** An entry is collected when its [dest] is present and not empty. *)
Definition has_dest (t : test_config) : bool :=
  match tc_dest t with
  | Some d => negb (String.eqb d EmptyString)
  | None => false
  end.

Definition source_of (E : env) (t : test_config) : string :=
  opt_default (tc_source t) (gethostname E).

Definition path_type_of (t : test_config) : string :=
  opt_default (tc_path_type t) "unknown".

(** The two shapes of record that [collect] hands to [store]. *)
Inductive collected : Type :=
| Measured (s : NetworkPerfStats)
| Failed (source dest pt now : string).

Definition record_of (c : collected) : dict :=
  match c with
  | Measured s => to_dict s
  | Failed source dest pt now => error_record source dest pt now
  end.

Definition timestamped (c : collected) : Prop :=
  match c with
  | Measured s => timestamp s <> None
  | Failed _ _ _ _ => True
  end.

(** The throughput that ends up in the row: hot cache first, else cold
    cache, else nothing. *)
Definition stored_throughput (c : collected) : option ThroughputStats :=
  match c with
  | Measured s =>
      match throughput_hot s with
      | Some h => Some h
      | None => throughput_cold s
      end
  | Failed _ _ _ _ => None
  end.

Definition throughput_columns (r : row) : pyval * pyval * pyval :=
  (col_throughput_mbps r, col_bytes_transferred r, col_tcp_retrans r).

Definition columns_of (o : option ThroughputStats) : pyval * pyval * pyval :=
  match o with
  | Some t => (VFloat (rate_mbps t), VInt (bytes_transferred t),
               VInt (tcp_retrans t))
  | None => (VNone, VNone, VNone)
  end.

(** The same record with another true-write result. *)
Definition with_write (c : collected) (wr : option ThroughputStats)
  : collected :=
  match c with
  | Measured s =>
      Measured (mkStats (source_host s) (dest_host s) (path_type s)
                        (timestamp s) (ping s) (throughput_cold s)
                        (throughput_hot s) wr (status s))
  | Failed _ _ _ _ => c
  end.

End CollectorSpec.

Module DiagSpec.
Import Py Diag.

(** Index of the first occurrence of [x] in [l] (its length if none). *)
Fixpoint first_index (x : string) (l : list string) : nat :=
  match l with
  | [] => O
  | y :: l' => if String.eqb x y then O else S (first_index x l')
  end.

Definition differs (a x : string) : bool := negb (String.eqb x a).

(** The list of the first occurrences, written by recursion on the list:
    keep the head, drop its later copies. *)
Fixpoint first_occurrences (l : list string) : list string :=
  match l with
  | [] => []
  | a :: l' => a :: filter (differs a) (first_occurrences l')
  end.

(** The field [k] of the record holds a number equal to [q]. *)
Definition has_number (state : dict) (k : string) (q : Q) : Prop :=
  exists v x, dict_lookup k state = Some v /\ num_of v = Some x /\ (x == q)%Q.

(** The field [k], or 0 when it is missing, can be ordered against a
    number. *)
Definition comparable (state : dict) (k : string) : Prop :=
  num_of (dict_get_default k (VInt 0) state) <> None.

(** The throughput is missing, null, zero, or a number. *)
Definition throughput_usable (state : dict) : Prop :=
  let t := dict_get_default "throughput_mbps" (VInt 0) state in
  truthy t = true -> num_of t <> None.

(** The list has a cause of that name at that confidence. *)
Definition emitted (causes : list cause_entry) (name conf : string) : Prop :=
  exists c, In c causes /\ cause c = name /\ confidence c = conf.

(** The names of the causes that the checks of the current metrics can
    emit. *)
Definition metric_causes : list string :=
  [ "High Packet Loss"; "Elevated Packet Loss"; "High Latency";
    "Elevated Latency"; "High Jitter"; "Excessive TCP Retransmits";
    "Elevated TCP Retransmits"; "Low Throughput" ].

Definition named_in (names : list string) (l : list cause_entry) : Prop :=
  Forall (fun c => In (cause c) names) l.

(** The last step of the analysis (lines 339-344). *)
Definition or_no_issue (causes : list cause_entry) : list cause_entry :=
  match causes with
  | [] => [no_issue_cause]
  | _ :: _ => causes
  end.

(** The metrics of the record can all be compared. *)
Definition metrics_comparable (state : dict) : Prop :=
  comparable state "ping_loss_pct" /\ comparable state "ping_avg_ms"
  /\ comparable state "ping_mdev_ms" /\ comparable state "tcp_retrans"
  /\ throughput_usable state.

(** The names of the causes that do not come from the time patterns. *)
Definition other_causes : list string :=
  (metric_causes ++ [ "Declining Throughput Trend";
                      "Increasing Latency Trend";
                      "No obvious issues detected" ])%list.

(** Every sample is a number equal to [q]. *)
Definition all_equal (q : Q) (l : list pyval) : Prop :=
  Forall (fun v => exists x, num_of v = Some x /\ (x == q)%Q) l.

(** A sample taken on a weekday between 09:00 and 17:00, at rate 100. *)
Definition business_sample (fromisoformat : string -> option datetime)
           (r : dict) : Prop :=
  exists s dt v x,
    dict_lookup "timestamp" r = Some (VStr s)
    /\ fromisoformat s = Some dt
    /\ weekday dt < 5 /\ 9 <= hour dt < 17
    /\ dict_lookup "throughput_mbps" r = Some v
    /\ num_of v = Some x /\ (x == 100)%Q.

(** A sample taken on a Saturday or a Sunday, at rate 200. *)
Definition weekend_sample (fromisoformat : string -> option datetime)
           (r : dict) : Prop :=
  exists s dt v x,
    dict_lookup "timestamp" r = Some (VStr s)
    /\ fromisoformat s = Some dt
    /\ 5 <= weekday dt
    /\ dict_lookup "throughput_mbps" r = Some v
    /\ num_of v = Some x /\ (x == 200)%Q.

(** A history of such samples with at least one of each kind. *)
Definition synthetic (fromisoformat : string -> option datetime)
           (history : list dict) : Prop :=
  Forall (fun r => business_sample fromisoformat r
                   \/ weekend_sample fromisoformat r) history
  /\ Exists (business_sample fromisoformat) history
  /\ Exists (weekend_sample fromisoformat) history.

End DiagSpec.

(* ===================================================================== *)
(** ** Further vocabulary, and [diagnose_network]                        *)
(* ===================================================================== *)

Module MoreWorlds.
Import Py NetworkPerf.

(** A host on which every command completes with exit status 2 and
    prints nothing, as [ping] does for a name that does not resolve. *)
Definition silent_env : env :=
  mkEnv (fun _ _ _ => Completed 2 EmptyString)
        (fun n => inject_Z (Z.of_nat n))
        (fun _ => "2026-01-05T10:00:00")
        "node01"
        (fun _ _ => Ok "/tmp/nomad_nettest_abc")
        (fun _ _ _ => Ok tt)
        (fun _ => None).

(** A record of a healthy path, as [_collect_path] builds it. *)
Definition demo_stats : NetworkPerfStats :=
  mkStats "node01" "storage" "switch" (Some "2026-01-05T10:00:00")
          (Some (mkPing 1 2 3 1 0)) None
          (Some (mkThroughput 1000 940 8 12)) None "healthy".

End MoreWorlds.

Module CollectorSpec2.
Import Py NetworkPerf.

(** The command line of [measure_ping] (line 132). *)
Definition ping_command (host : string) (count : Z) : string :=
  "ping -c " ++ str_of_int count ++ " -q " ++ host.

(** The five fields of a ping result are not negative. *)
Definition ping_nonneg (p : PingStats) : Prop :=
  (0 <= min_ms p)%Q /\ (0 <= avg_ms p)%Q /\ (0 <= max_ms p)%Q
  /\ (0 <= mdev_ms p)%Q /\ (0 <= loss_pct p)%Q.

(** The command line of [get_tcp_retrans] (line 159). *)
Definition nstat_command : string :=
  "nstat -az TcpRetransSegs 2>/dev/null | grep TcpRetransSegs".

(** The identity that an entry of the configuration gives to its
    record: source, dest and path type. *)
Definition entry_identity (E : env) (t : test_config) : pyval * pyval * pyval :=
  (VStr (CollectorSpec.source_of E t),
   match tc_dest t with Some d => VStr d | None => VNone end,
   VStr (CollectorSpec.path_type_of t)).

Definition record_identity (r : dict) : pyval * pyval * pyval :=
  (dict_get "source_host" r, dict_get "dest_host" r, dict_get "path_type" r).

Definition known_status (r : dict) : Prop :=
  dict_get "status" r = VStr "healthy"
  \/ dict_get "status" r = VStr "degraded"
  \/ dict_get "status" r = VStr "error".

(** The columns of a row that do not hold a measurement, and the fields
    of a record under the same names. *)
Definition identity_columns (r : row) : list pyval :=
  [ col_timestamp r; col_source_host r; col_dest_host r; col_path_type r;
    col_status r ].

Definition identity_fields (record : dict) : list pyval :=
  map (fun k => dict_get k record)
      [ "timestamp"; "source_host"; "dest_host"; "path_type"; "status" ].

(** A record with a ping result and a throughput result to store. *)
Definition diagnosable (c : CollectorSpec.collected) : bool :=
  match c with
  | CollectorSpec.Measured s =>
      match ping s, CollectorSpec.stored_throughput c with
      | Some _, Some _ => true
      | _, _ => false
      end
  | CollectorSpec.Failed _ _ _ _ => false
  end.





(** A command or the reading of the date: the events that leave the file
    system, the wall clock and the scheduler alone. *)
Definition is_run_or_now (e : event) : bool :=
  match e with
  | EvRun _ _ => true
  | EvNow => true
  | _ => false
  end.

(** The computation adds at most [n] events, all of them commands or
    readings of the date, whatever the state it starts from. *)
Definition quiet {A} (n : nat) (c : M A) : Prop :=
  forall w, exists new,
    snd (c w) = (new ++ w)%list
    /\ forallb is_run_or_now new = true
    /\ (length new <= n)%nat.

End CollectorSpec2.

Module DiagSpec2.
Import Py Diag.

(** The causes that the checks of the retransmit counter, of the time
    patterns and of the trends can emit, and the placeholder. *)
Definition beyond_ping_and_rate : list string :=
  [ "Excessive TCP Retransmits"; "Elevated TCP Retransmits";
    "Business Hours Congestion"; "Mild Business Hours Impact";
    "Declining Throughput Trend"; "Increasing Latency Trend";
    "No obvious issues detected" ].

(** The throughput that the loops over the history read from a
    record. *)
Definition throughput_of (r : dict) : pyval :=
  dict_get_default "throughput_mbps" (VInt 0) r.

(** The loop of [analyze_time_patterns] passes over the record: its
    throughput is missing, null or zero, or its timestamp is a string
    that does not parse. *)
Definition skipped (fromisoformat : string -> option datetime) (r : dict)
  : bool :=
  negb (truthy (throughput_of r))
  || match dict_get "timestamp" r with
     | VStr s => match fromisoformat s with None => true | Some _ => false end
     | _ => false
     end.

(** A record with a throughput whose timestamp is not a string. *)
Definition unstamped (r : dict) : bool :=
  truthy (throughput_of r)
  && match dict_get "timestamp" r with VStr _ => false | _ => true end.

(** The sample that the loop takes from a record: when and how much. *)
Definition sample (fromisoformat : string -> option datetime) (r : dict)
  : option (datetime * pyval) :=
  if negb (truthy (throughput_of r)) then None
  else match dict_get "timestamp" r with
       | VStr s =>
           match fromisoformat s with
           | Some d => Some (d, throughput_of r)
           | None => None
           end
       | _ => None
       end.

Definition samples (fromisoformat : string -> option datetime)
           (history : list dict) : list (datetime * pyval) :=
  flat_map (fun r => match sample fromisoformat r with
                     | Some x => [x]
                     | None => []
                     end) history.

Definition on_weekday (d : datetime) : bool := weekday d <? 5.

Definition in_business_hours (d : datetime) : bool :=
  (9 <=? hour d) && (hour d <? 17) && (weekday d <? 5).

(** The values of the samples taken at a time that [p] accepts. *)
Definition values_where (p : datetime -> bool)
           (l : list (datetime * pyval)) : list pyval :=
  map snd (filter (fun x => p (fst x)) l).

(** The four lists of the loop after it has taken the samples [l]. *)
Definition add_samples (b : buckets) (l : list (datetime * pyval)) : buckets :=
  mkBuckets
    (weekday_samples b ++ values_where on_weekday l)
    (weekend_samples b ++ values_where (fun d => negb (on_weekday d)) l)
    (business_samples b ++ values_where in_business_hours l)
    (off_hours_samples b
       ++ values_where (fun d => negb (in_business_hours d)) l).

Definition numeric (v : pyval) : bool :=
  match num_of v with Some _ => true | None => false end.

(** The exception that ends a call, if any. *)
Definition raised {A} (r : res A) : option exn :=
  match r with Ok _ => None | Raise e => Some e end.

(** The number held by the field [k] of the record, 0 when the field is
    missing. *)
Definition metric (state : dict) (k : string) : option Q :=
  num_of (dict_get_default k (VInt 0) state).

(** The causes in the order of the checks; the names of one check are
    alternatives. *)
Definition cause_groups : list (list string) :=
  [ [ "High Packet Loss"; "Elevated Packet Loss" ];
    [ "High Latency"; "Elevated Latency" ];
    [ "High Jitter" ];
    [ "Excessive TCP Retransmits"; "Elevated TCP Retransmits" ];
    [ "Low Throughput" ];
    [ "Business Hours Congestion"; "Mild Business Hours Impact" ];
    [ "Declining Throughput Trend" ];
    [ "Increasing Latency Trend" ] ].

(** The check of a group emitted nothing, or one cause of the group. *)
Definition picked (g : list string) (l : list cause_entry) : Prop :=
  l = [] \/ exists c, l = [c] /\ In (cause c) g.

(** The names are taken from the groups in their order, at most one from
    each group. *)
Fixpoint one_per_group (groups : list (list string)) (names : list string)
  : Prop :=
  match groups with
  | [] => names = []
  | g :: groups' =>
      one_per_group groups' names
      \/ match names with
         | n :: names' => In n g /\ one_per_group groups' names'
         | [] => False
         end
  end.

Fixpoint distinct (l : list string) : bool :=
  match l with
  | [] => true
  | x :: l' => negb (mem_string x l') && distinct l'
  end.

(** The checks together with the names each of them can emit. *)
Definition names_of_part (p : list string * list cause_entry) : list string :=
  fst p.

Definition causes_of_part (p : list string * list cause_entry)
  : list cause_entry :=
  snd p.

Definition parts_named (n : string)
           (parts : list (list string * list cause_entry))
  : list (list string * list cause_entry) :=
  filter (fun p => mem_string n (names_of_part p)) parts.

(** The causes for which [generate_recommendations] has no advice. *)
Definition silent_causes : list string :=
  [ "No network data available"; "No obvious issues detected";
    "Mild Business Hours Impact"; "Declining Throughput Trend" ].

Definition healthy_message : string :=
  "Network appears healthy - no action required".

(** Every name that [analyze_potential_causes] can give to a cause. *)
Definition all_causes : list string :=
  ("No network data available" :: "No obvious issues detected"
     :: concat cause_groups)%list.

End DiagSpec2.

(** *** [diagnose_network] (lines 393-474) *)

Module Diagnose.
Import Py Diag.

(** The dataclass [NetworkDiagnostic] (lines 32-65).  The fields copied
    from a record hold whatever the record holds. *)
Record NetworkDiagnostic : Type := mkDiagnostic {
  source_host : pyval;
  dest_host : pyval;
  path_type : pyval;
  current_status : pyval;
  last_seen : pyval;
  latency_avg_ms : pyval;
  latency_jitter_ms : pyval;
  packet_loss_pct : pyval;
  throughput_mbps : pyval;
  tcp_retrans : pyval;
  samples_count : Z;
  avg_throughput_mbps : Q;
  min_throughput_mbps : pyval;
  max_throughput_mbps : pyval;
  weekday_avg_mbps : Q;
  weekend_avg_mbps : Q;
  business_hours_avg_mbps : Q;
  off_hours_avg_mbps : Q;
  trends : list (string * dict);
  potential_causes : list cause_entry;
  recommendations : list string
}.

(** [name or 'unknown'] for an optional host name. *)
Definition or_unknown (name : option string) : string :=
  match name with
  | Some s => if String.eqb s EmptyString then "unknown" else s
  | None => "unknown"
  end.

(** [state.get(k, 0) or 0] (lines 443-447). *)
Definition get_or_zero (k : string) (state : dict) : pyval :=
  py_or (dict_get_default k (VInt 0) state) (VInt 0).

(** The list comprehension of line 451. *)
Definition throughputs (history : list dict) : list pyval :=
  map (dict_get_default "throughput_mbps" (VInt 0))
      (filter (fun h => truthy (dict_get "throughput_mbps" h)) history).

(** [v < w] between two numbers.  [min] and [max] are reached only after
    [sum] has returned, which it does on numbers only, so no other
    operands are compared. *)
Definition num_lt (v w : pyval) : res bool :=
  match num_of v, num_of w with
  | Some a, Some b => Ok (Qltb a b)
  | _, _ => Raise TypeError
  end.

(** [min(l)] and [max(l)]: the first element is the candidate, a later
    one replaces it when it is strictly smaller (larger). *)
Fixpoint py_min (best : pyval) (l : list pyval) : res pyval :=
  match l with
  | [] => Ok best
  | v :: l' =>
      rbind (num_lt v best) (fun lt => py_min (if lt then v else best) l')
  end.

Fixpoint py_max (best : pyval) (l : list pyval) : res pyval :=
  match l with
  | [] => Ok best
  | v :: l' =>
      rbind (num_lt best v) (fun gt => py_max (if gt then v else best) l')
  end.

(** Lines 449-456: the sample count, the mean, the minimum and the
    maximum; the defaults of the dataclass when there is no sample. *)
Definition historical_stats (history : list dict)
  : res (Z * Q * pyval * pyval) :=
  match throughputs history with
  | [] => Ok (0, 0%Q, VFloat 0, VFloat 0)
  | t :: ts =>
      rbind (sum_values (t :: ts) 0%Q) (fun s =>
      rbind (py_min t ts) (fun mn =>
      rbind (py_max t ts) (fun mx =>
        Ok (Z.of_nat (length (t :: ts)),
            (s / inject_Z (Z.of_nat (length (t :: ts))))%Q, mn, mx))))
  end.

Section WithAnalysis.

Variable fromisoformat : string -> option datetime.

(** Whether [nomad.analysis.derivatives] could be imported (lines
    23-27). *)
Variable HAS_DERIVATIVES : bool.

(** The body of the two trend functions after their guard (lines
    125-146 and 154-175): it feeds the field of that name to a
    [DerivativeAnalyzer], a class that is not among the sources. *)
Variable derivative_analysis : string -> list dict -> res dict.

(** [analyze_throughput_trend] (lines 120-146). *)
Definition analyze_throughput_trend (history : list dict) : res dict :=
  match history with
  | [] => Ok []
  | _ => if negb HAS_DERIVATIVES then Ok []
         else derivative_analysis "throughput_mbps" history
  end.

(** [analyze_latency_trend] (lines 149-175). *)
Definition analyze_latency_trend (history : list dict) : res dict :=
  match history with
  | [] => Ok []
  | _ => if negb HAS_DERIVATIVES then Ok []
         else derivative_analysis "ping_avg_ms" history
  end.

(** [diagnose_network] after its two queries: [state] is what
    [get_network_state] returned and [history] what [get_state_history]
    returned (lines 414-417). *)
Definition diagnose_network (state : option dict) (history : list dict)
           (source dest : option string) : res (option NetworkDiagnostic) :=
  if negb (state_present state)
     && match history with [] => true | _ => false end
  then Ok None
  else
    let present := state_present state in
    let st := match state with Some s => s | None => [] end in
    let src :=
      if present
      then dict_get_default "source_host" (VStr (or_unknown source)) st
      else VStr (or_unknown source) in
    let dst :=
      if present
      then dict_get_default "dest_host" (VStr (or_unknown dest)) st
      else VStr (or_unknown dest) in
    let pt :=
      if present then dict_get_default "path_type" (VStr "unknown") st
      else VStr "unknown" in
    let status :=
      if present then dict_get_default "status" (VStr "unknown") st
      else VStr "no_data" in
    let seen := if present then dict_get "timestamp" st else VNone in
    let current k (default : pyval) :=
      if present then get_or_zero k st else default in
    rbind (historical_stats history) (fun stats =>
    let '(count, avg, mn, mx) := stats in
    rbind (analyze_time_patterns fromisoformat history) (fun time_patterns =>
    rbind (analyze_throughput_trend history) (fun t1 =>
    rbind (analyze_latency_trend history) (fun t2 =>
    let trends := [("throughput", t1); ("latency", t2)] in
    rbind (analyze_potential_causes state history trends time_patterns)
          (fun causes =>
      Ok (Some (mkDiagnostic
                  src dst pt status seen
                  (current "ping_avg_ms" (VFloat 0))
                  (current "ping_mdev_ms" (VFloat 0))
                  (current "ping_loss_pct" (VFloat 0))
                  (current "throughput_mbps" (VFloat 0))
                  (current "tcp_retrans" (VInt 0))
                  count avg mn mx
                  (match time_patterns with
                   | Some tp => weekday_avg tp | None => 0%Q end)
                  (match time_patterns with
                   | Some tp => weekend_avg tp | None => 0%Q end)
                  (match time_patterns with
                   | Some tp => business_hours_avg tp | None => 0%Q end)
                  (match time_patterns with
                   | Some tp => off_hours_avg tp | None => 0%Q end)
                  trends causes
                  (generate_recommendations causes)))))))).

End WithAnalysis.

End Diagnose.

Module DiagnoseSpec.
Import Py Diag.

(** The row was written by [store] for the record [c]. *)
Definition stored (c : CollectorSpec.collected) (r : NetworkPerf.row) : Prop :=
  CollectorSpec.timestamped c
  /\ exists ts, NetworkPerf.row_of_record ts (CollectorSpec.record_of c) = Ok r.

(** The number lies between the two numbers [lo] and [hi]. *)
Definition between (lo hi : pyval) (x : Q) : Prop :=
  exists a b, num_of lo = Some a /\ num_of hi = Some b
              /\ (a <= x)%Q /\ (x <= b)%Q.

End DiagnoseSpec.

(* ===================================================================== *)
(** ** Properties                                                        *)
(* ===================================================================== *)

Module PyFacts.
Import Py.

Lemma Qltb_true (x y : Q) : Qltb x y = true <-> (x < y)%Q.
Proof.
  unfold Qltb. rewrite negb_true_iff. split; intro H.
  - apply Qnot_le_lt. intro Hle. apply Qle_bool_iff in Hle. congruence.
  - destruct (Qle_bool y x) eqn:Hb; [|reflexivity].
    apply Qle_bool_iff in Hb. exfalso. exact (Qlt_not_le _ _ H Hb).
Qed.

Lemma Qltb_false (x y : Q) : Qltb x y = false <-> (y <= x)%Q.
Proof.
  unfold Qltb. rewrite negb_false_iff. apply Qle_bool_iff.
Qed.

Lemma Qeqb0_true (q : Q) : Qeqb0 q = true <-> (q == 0)%Q.
Proof.
  unfold Qeqb0, Qeq. simpl. rewrite Z.eqb_eq. split; intro H; lia.
Qed.

Lemma Qeqb0_false (q : Q) : Qeqb0 q = false <-> ~ (q == 0)%Q.
Proof.
  rewrite <- Qeqb0_true. destruct (Qeqb0 q); split; congruence.
Qed.

End PyFacts.

Module MonadFacts.
Import Py NetworkPerf CollectorSpec.

(** A computation that returns has run its first part to a value. *)
Lemma bind_ok {A B} (m : M A) (k : A -> M B) (w w' : world) (b : B) :
  bind m k w = (Ok b, w') ->
  exists a w1, m w = (Ok a, w1) /\ k a w1 = (Ok b, w').
Proof.
  unfold bind. destruct (m w) as [[a|e] w1]; intro H.
  - exists a, w1. auto.
  - discriminate.
Qed.

Lemma ret_ok {A} (a b : A) (w w' : world) :
  ret a w = (Ok b, w') -> a = b /\ w = w'.
Proof. unfold ret. intro H. inversion H. auto. Qed.

End MonadFacts.

Module CollectorFacts.
Import Py NetworkPerf CollectorSpec PyFacts MonadFacts.

Lemma is_healthy_iff (s : NetworkPerfStats) :
  is_healthy s = true <-> healthy_metrics s.
Proof.
  unfold is_healthy, healthy_metrics.
  destruct (ping s) as [p|].
  2:{ split; [discriminate | intros (p & Hp & _); discriminate]. }
  destruct (Qltb 1 (loss_pct p)) eqn:H1.
  { split; [discriminate|]. intros (p' & Hp & Hl & _). inversion Hp; subst p'.
    apply Qltb_true in H1. exfalso. exact (Qlt_not_le _ _ H1 Hl). }
  destruct (Qltb 50 (avg_ms p)) eqn:H2.
  { split; [discriminate|]. intros (p' & Hp & _ & Ha & _). inversion Hp; subst p'.
    apply Qltb_true in H2. exfalso. exact (Qlt_not_le _ _ H2 Ha). }
  destruct (Qltb 20 (mdev_ms p)) eqn:H3.
  { split; [discriminate|]. intros (p' & Hp & _ & _ & Hm & _).
    inversion Hp; subst p'.
    apply Qltb_true in H3. exfalso. exact (Qlt_not_le _ _ H3 Hm). }
  apply Qltb_false in H1, H2, H3.
  destruct (throughput_hot s) as [h|].
  - destruct (Qltb (rate_mbps h) 100) eqn:H4.
    + split; [discriminate|]. intros (p' & _ & _ & _ & _ & Hh).
      apply Qltb_true in H4. specialize (Hh h eq_refl).
      exfalso. exact (Qlt_not_le _ _ H4 Hh).
    + apply Qltb_false in H4. split; [|reflexivity]. intros _.
      exists p. repeat split; auto. intros h' Hh'. inversion Hh'; subst. exact H4.
  - split; [|reflexivity]. intros _. exists p. repeat split; auto.
    intros h Hh. discriminate.
Qed.

Lemma low_loss_iff (s : NetworkPerfStats) :
  match ping s with Some p => Qltb (loss_pct p) 10 | None => false end = true
  <-> low_loss s.
Proof.
  unfold low_loss. destruct (ping s) as [p|].
  - rewrite Qltb_true. split.
    + intro H. exists p. auto.
    + intros (p' & Hp & H). inversion Hp; subst. exact H.
  - split; [discriminate | intros (p & Hp & _); discriminate].
Qed.

(** The three values of [determine_status], read off the metrics. *)
Lemma determine_status_spec (s : NetworkPerfStats) :
  (determine_status s = "healthy" <-> healthy_metrics s)
  /\ (determine_status s = "degraded" <-> ~ healthy_metrics s /\ low_loss s)
  /\ (determine_status s = "error" <-> ~ healthy_metrics s /\ ~ low_loss s).
Proof.
  unfold determine_status.
  pose proof (is_healthy_iff s) as Hh. pose proof (low_loss_iff s) as Hl.
  destruct (is_healthy s).
  - assert (healthy_metrics s) by (apply Hh; reflexivity).
    repeat split; intros; try discriminate; tauto.
  - assert (~ healthy_metrics s) by (intro X; apply Hh in X; discriminate).
    destruct (match ping s with Some p => Qltb (loss_pct p) 10 | None => false end).
    + assert (low_loss s) by (apply Hl; reflexivity).
      repeat split; intros; try discriminate; tauto.
    + assert (~ low_loss s) by (intro X; apply Hl in X; discriminate).
      repeat split; intros; try discriminate; tauto.
Qed.

Lemma determine_status_with_status (s : NetworkPerfStats) (st : string) :
  determine_status (with_status s st) = determine_status s.
Proof. reflexivity. Qed.

(** What [_collect_path] returns: the ping is present, the identity is
    the one asked for, and the status is the one derived from the ping
    and the hot-cache throughput of the record itself. *)
Lemma collect_path_result (E : env) (self : collector)
      (source dest pt : string) (user : option string)
      (w w' : world) (s : NetworkPerfStats) :
  _collect_path E self source dest pt user w = (Ok s, w') ->
  status s = determine_status s
  /\ ping s <> None
  /\ source_host s = source /\ dest_host s = dest /\ path_type s = pt
  /\ timestamp s <> None.
Proof.
  unfold _collect_path. intro H.
  apply bind_ok in H as (now & w1 & _ & H).
  apply bind_ok in H as (p & w2 & _ & H).
  apply bind_ok in H as ([[cold hot] write] & w3 & _ & H).
  apply ret_ok in H as [H _]. subst s.
  rewrite determine_status_with_status. simpl.
  repeat split; congruence.
Qed.

End CollectorFacts.

Import Py NetworkPerf CollectorSpec PyFacts MonadFacts CollectorFacts.

(** C1. Every record returned by [_collect_path] carries the status that
    its own metrics determine: it is "healthy" exactly when the ping is
    present with loss at most 1, average latency at most 50, jitter at
    most 20 and, if a hot-cache throughput is present, a rate of at least
    100; otherwise it is "degraded" exactly when the loss is below 10;
    otherwise it is "error". *)
Theorem C1_status_derivation (E : env) (self : collector)
        (source dest pt : string) (user : option string)
        (w w' : world) (s : NetworkPerfStats) :
  _collect_path E self source dest pt user w = (Ok s, w') ->
  (status s = "healthy" <-> healthy_metrics s)
  /\ (status s = "degraded" <-> ~ healthy_metrics s /\ low_loss s)
  /\ (status s = "error" <-> ~ healthy_metrics s /\ ~ low_loss s).
Proof.
  intro H. apply collect_path_result in H as (Hs & _).
  rewrite Hs. apply determine_status_spec.
Qed.

Lemma C1_status_derivation_witness :
  let s := mkStats "localhost" "storage" "switch" (Some "2026-01-05T10:00:00")
                   (Some (mkPing (123 # 1000) (456 # 1000) (789 # 1000)
                                 (111 # 1000) 0))
                   None None None "healthy" in
  (status s = "healthy" <-> healthy_metrics s)
  /\ (status s = "degraded" <-> ~ healthy_metrics s /\ low_loss s)
  /\ (status s = "error" <-> ~ healthy_metrics s /\ ~ low_loss s).
Proof.
  apply (C1_status_derivation Demo.no_pv_env (Demo.full_collector [])
           "localhost" "storage" "switch" None []
           [EvRun "which pv" 60; EvRun "ping -c 10 -q storage" 20; EvNow]).
  vm_compute. reflexivity.
Defined.

(** The examples of the specification. *)
Example status_healthy_example :
  determine_status
    (mkStats "a" "b" "switch" None (Some (mkPing 0 10 0 5 (1 # 2))) None
             (Some (mkThroughput 0 500 1 0)) None "unknown") = "healthy".
Proof. reflexivity. Qed.

Example status_degraded_example :
  determine_status
    (mkStats "a" "b" "switch" None (Some (mkPing 0 10 0 0 3)) None None None
             "unknown") = "degraded".
Proof. reflexivity. Qed.

Example status_error_example :
  determine_status
    (mkStats "a" "b" "switch" None (Some (mkPing 0 0 0 0 20)) None None None
             "unknown") = "error".
Proof. reflexivity. Qed.

(** C5. When the ping command raises [CollectionError], [measure_ping]
    returns normally, with [loss_pct = 100] and the four round-trip
    fields at 0. *)
Theorem C5_ping_failure_sentinel (E : env) (host : string) (count : Z)
        (w : world) :
  fst (run_command E ("ping -c " ++ str_of_int count ++ " -q " ++ host)
                   (count + 10) w) = Raise CollectionError ->
  fst (measure_ping E host count w) = Ok (mkPing 0 0 0 0 100).
Proof.
  unfold measure_ping, try_except, bind.
  destruct (run_command E _ _ w) as [[out|e] w1]; simpl; intro H.
  - discriminate.
  - inversion H; subst e. reflexivity.
Qed.

Lemma C5_ping_failure_sentinel_witness :
  fst (measure_ping Demo.dead_env "storage" 10 []) = Ok (mkPing 0 0 0 0 100).
Proof.
  apply (C5_ping_failure_sentinel Demo.dead_env "storage" 10 []).
  reflexivity.
Defined.

Module BenchmarkFacts.
Import Py NetworkPerf CollectorSpec PyFacts MonadFacts.


(** A timed transfer never raises and runs its command exactly once. *)
Lemma timed_transfer_events (E : env) (cmd : string) (total : Z) (w : world) :
  exists r new,
    timed_transfer E cmd total w = (Ok r, new ++ w)%list
    /\ runs_and_sleeps new = [EvRun cmd 300].
Proof.
  unfold timed_transfer, bind, time_now, try_except, run_command.
  cbn -[Qeqb0 Qminus Qdiv].
  destruct (subprocess_run E (S (length w)) cmd 300) as [rc out| |].
  - match goal with |- context [Qeqb0 ?q] => destruct (Qeqb0 q) end.
    + exists None, [EvTime; EvRun cmd 300; EvTime]. split; reflexivity.
    + eexists. exists [EvTime; EvRun cmd 300; EvTime]. split; reflexivity.
  - exists None, [EvRun cmd 300; EvTime]. split; reflexivity.
  - exists None, [EvRun cmd 300; EvTime]. split; reflexivity.
Qed.





End BenchmarkFacts.

Import BenchmarkFacts.

Module FallbackFacts.
Import Py NetworkPerf CollectorSpec MonadFacts.

(** A [try] whose handler catches everything and returns a value never
    raises. *)
Lemma try_except_any_total {A} (body : M A) (x : A) (w : world) :
  exists a w', try_except body any_exception (fun _ => ret x) w = (Ok a, w').
Proof.
  unfold try_except. destruct (body w) as [[a|e] w1].
  - exists a, w1. reflexivity.
  - exists x, w1. reflexivity.
Qed.




(** The probe looks at exceptions only: when [which pv] exits with a
    non-zero status the benchmark is not skipped. *)
Example exit_status_of_probe_ignored :
  exists r w',
    measure_throughput_full Demo.absent_pv_env "storage" None 1 1 []
    = (Ok r, w')
    /\ error r = None
    /\ length (hot_cache_runs r) = 3%nat.
Proof. eexists. eexists. split; [reflexivity | split; reflexivity]. Qed.

End FallbackFacts.

Import FallbackFacts.


Module ParseFacts.
Import Py NetworkPerf CollectorSpec.

Lemma span_all (p : ascii -> bool) (s : string) :
  all_chars p (fst (span p s)) = true.
Proof.
  induction s as [|c s IH]; simpl; [reflexivity|].
  destruct (p c) eqn:Hc; [|reflexivity].
  destruct (span p s) as [a b]. simpl in *. rewrite Hc, IH. reflexivity.
Qed.

Lemma digit_val_nonneg (c : ascii) : is_digit c = true -> 0 <= digit_val c.
Proof.
  unfold is_digit, digit_val. intro H. apply andb_true_iff in H as [H _].
  apply Nat.leb_le in H. lia.
Qed.

Lemma digits_val_acc_nonneg (s : string) :
  all_chars is_digit s = true ->
  forall acc, 0 <= acc -> 0 <= digits_val_acc s acc.
Proof.
  induction s as [|c s IH]; cbn [digits_val_acc all_chars];
    intros H acc Hacc; [exact Hacc|].
  apply andb_true_iff in H as [Hc Hs].
  apply IH; [exact Hs|]. pose proof (digit_val_nonneg c Hc). lia.
Qed.

Lemma digits_val_nonneg (s : string) :
  all_chars is_digit s = true -> 0 <= digits_val s.
Proof. intro H. apply digits_val_acc_nonneg; [exact H | lia]. Qed.

Lemma inject_Z_nonneg (z : Z) : 0 <= z -> (0 <= inject_Z z)%Q.
Proof. intro H. unfold Qle; simpl. lia. Qed.

(** [float] of a string of digits and dots is never negative. *)
Lemma py_float_nonneg (s : string) (q : Q) :
  py_float s = Ok q -> (0 <= q)%Q.
Proof.
  unfold py_float.
  pose proof (span_all is_digit s) as Hip.
  destruct (span is_digit s) as [ip rest]. simpl in Hip.
  pose proof (digits_val_nonneg ip Hip) as Hipv.
  destruct rest as [|c fp].
  - destruct ip; intro H; inversion H. apply inject_Z_nonneg. exact Hipv.
  - destruct (Ascii.eqb c "." && all_chars is_digit fp) eqn:Hd;
      [|discriminate].
    apply andb_true_iff in Hd as [_ Hfp].
    pose proof (digits_val_nonneg fp Hfp) as Hfpv.
    destruct ip, fp; intro H; inversion H;
      try (apply inject_Z_nonneg; exact Hipv);
      unfold Qle; simpl; nia.
Qed.

Lemma multiplier_pos (u : string) : 0 < multiplier u.
Proof.
  unfold multiplier.
  repeat match goal with
         | |- context [if ?b then _ else _] => destruct b
         end; reflexivity.
Qed.

Lemma int_of_float_nonneg (q : Q) : (0 <= q)%Q -> 0 <= int_of_float q.
Proof.
  unfold int_of_float, Qle. simpl. intro H.
  apply Z.quot_pos; lia.
Qed.

End ParseFacts.

Module InvariantFacts.
Import Py NetworkPerf CollectorSpec PyFacts MonadFacts BenchmarkFacts ParseFacts.

Lemma try_except_ok_inv {A} (body : M A) (x : A) (w w' : world) (a : A) :
  try_except body any_exception (fun _ => ret x) w = (Ok a, w') ->
  body w = (Ok a, w') \/ a = x.
Proof.
  unfold try_except. destruct (body w) as [[a0|e] w1]; cbn; intro H.
  - left. exact H.
  - right. inversion H. reflexivity.
Qed.

Lemma lift_ok {A} (r : res A) (w w' : world) (a : A) :
  lift r w = (Ok a, w') -> r = Ok a /\ w = w'.
Proof. unfold lift. intro H. inversion H. auto. Qed.

Lemma Qdiv_nonneg (a b : Q) : (0 <= a)%Q -> (0 < b)%Q -> (0 <= a / b)%Q.
Proof.
  intros Ha Hb. apply Qle_shift_div_l; [exact Hb|].
  rewrite Qmult_0_l. exact Ha.
Qed.

(** The ssh measurement: the rate is not negative, the duration is the
    untouched default. *)
Lemma ssh_result (E : env) (host : string) (user : option string)
      (size : Z) (w w' : world) (t : ThroughputStats) :
  0 <= size ->
  measure_throughput_ssh E host user size w = (Ok (Some t), w') ->
  (0 <= rate_mbps t)%Q /\ duration_sec t = 0%Q.
Proof.
  intros Hsize H. unfold measure_throughput_ssh in H.
  apply try_except_ok_inv in H as [H|H]; [|discriminate].
  apply bind_ok in H as (_ & w1 & _ & H).
  apply bind_ok in H as (rb & w2 & _ & H).
  apply bind_ok in H as (out & w3 & _ & H).
  apply bind_ok in H as (ra & w4 & _ & H).
  apply bind_ok in H as (bytes & w5 & Hb & H).
  apply ret_ok in H as [H _]. inversion H; subst t; clear H. cbn.
  split; [|reflexivity].
  assert (0 <= bytes) as Hbytes.
  { destruct (search_bytes out) as [[g u]|].
    - apply bind_ok in Hb as (value & w6 & Hv & Hb).
      apply lift_ok in Hv as [Hv _]. apply ret_ok in Hb as [Hb _]. subst bytes.
      apply int_of_float_nonneg. apply Qmult_le_0_compat.
      + exact (py_float_nonneg _ _ Hv).
      + apply inject_Z_nonneg. pose proof (multiplier_pos (opt_default u "B")). lia.
    - apply ret_ok in Hb as [Hb _]. subst bytes. lia. }
  apply Qdiv_nonneg; [|reflexivity].
  apply Qdiv_nonneg; [|reflexivity].
  apply inject_Z_nonneg. lia.
Qed.

(** The iperf3 measurement copies the report. *)
Lemma iperf_result (E : env) (host : string) (d : Z) (w w' : world)
      (t : ThroughputStats) :
  0 < d -> report_sane E ->
  measure_throughput_iperf E host d w = (Ok (Some t), w') ->
  (0 <= rate_mbps t)%Q
  /\ (0 < bytes_transferred t -> (0 < duration_sec t)%Q).
Proof.
  intros Hd Hsane H. unfold measure_throughput_iperf in H.
  apply try_except_ok_inv in H as [H|H]; [|discriminate].
  apply bind_ok in H as (_ & w1 & _ & H).
  apply bind_ok in H as (rb & w2 & _ & H).
  apply bind_ok in H as (out & w3 & _ & H).
  apply bind_ok in H as (ra & w4 & _ & H).
  destruct (iperf_json E out) as [[sent|]|] eqn:Hj.
  - apply ret_ok in H as [H _]. inversion H; subst t; clear H. cbn.
    destruct (Hsane out sent Hj) as [Hb Hs]. split.
    + apply Qdiv_nonneg; [|reflexivity].
      destruct (sent_bits_per_second sent) as [b|]; cbn.
      * apply Hb. reflexivity.
      * apply Qle_refl.
    + intros _. destruct (sent_seconds sent) as [s|]; cbn.
      * apply Hs. reflexivity.
      * unfold Qlt; simpl. lia.
  - apply ret_ok in H as [H _]. inversion H; subst t; clear H. cbn.
    split; [apply Qle_refl | lia].
  - discriminate.
Qed.

(** One timed transfer of the full benchmark. *)
Lemma timed_transfer_measured (E : env) (cmd : string) (total : Z)
      (w w' : world) (t : ThroughputStats) :
  clock_monotone E -> 0 <= total ->
  timed_transfer E cmd total w = (Ok (Some t), w') ->
  measured t.
Proof.
  intros Hmono Htotal H. unfold timed_transfer in H.
  apply bind_ok in H as (start & w1 & Hstart & H).
  unfold time_now in Hstart. inversion Hstart; subst start w1; clear Hstart.
  apply try_except_ok_inv in H as [H|H]; [|discriminate].
  apply bind_ok in H as (out & w2 & Hrun & H).
  assert (w2 = EvRun cmd 300 :: EvTime :: w) as ->.
  { unfold run_command in Hrun.
    destruct (subprocess_run E _ cmd 300); inversion Hrun; reflexivity. }
  apply bind_ok in H as (stop & w3 & Hstop & H).
  unfold time_now in Hstop. inversion Hstop; subst stop w3; clear Hstop.
  destruct (Qeqb0 _) eqn:Hz; [discriminate|].
  apply ret_ok in H as [H _]. inversion H; subst t; clear H.
  apply Qeqb0_false in Hz.
  assert (0 < time_time E (length (EvRun cmd 300 :: EvTime :: w))
              - time_time E (length w))%Q as Hpos.
  { assert (time_time E (length w)
            <= time_time E (length (EvRun cmd 300 :: EvTime :: w)))%Q as Hle
      by (apply Hmono; simpl; lia).
    apply Qle_lt_or_eq in Hle as [Hlt|Heq].
    - rewrite <- (Qplus_opp_r (time_time E (length w))).
      apply Qplus_lt_l. exact Hlt.
    - exfalso. apply Hz. rewrite <- Heq. apply Qplus_opp_r. }
  split; cbn; [|exact Hpos].
  apply Qdiv_nonneg; [|reflexivity].
  apply Qdiv_nonneg; [|exact Hpos].
  apply inject_Z_nonneg. lia.
Qed.

Lemma hot_cache_loop_measured (E : env) (cmd : string) (total : Z) :
  clock_monotone E -> 0 <= total ->
  forall runs acc w res w',
    Forall measured acc ->
    hot_cache_loop E cmd total runs acc w = (Ok res, w') ->
    Forall measured res.
Proof.
  intros Hmono Htotal. induction runs as [|run runs IH];
    intros acc w res w' Hacc H.
  - apply ret_ok in H as [H _]. subst res. exact Hacc.
  - cbn [hot_cache_loop] in H.
    apply bind_ok in H as (r & w1 & Hr & H).
    apply bind_ok in H as (u & w2 & _ & H).
    apply IH in H; [exact H|].
    destruct r as [t|]; [|exact Hacc].
    apply Forall_app. split; [exact Hacc|].
    constructor; [|constructor].
    exact (timed_transfer_measured E cmd total w w1 t Hmono Htotal Hr).
Qed.

Lemma fold_Qplus_nonneg (l : list Q) :
  Forall (fun q => 0 <= q)%Q l ->
  forall acc, (0 <= acc)%Q -> (0 <= fold_left Qplus l acc)%Q.
Proof.
  induction 1 as [|x l Hx _ IH]; intros acc Hacc; simpl; [exact Hacc|].
  apply IH. rewrite <- (Qplus_0_l 0). apply Qplus_le_compat; assumption.
Qed.

Lemma fold_Qplus_pos (l : list Q) :
  Forall (fun q => 0 < q)%Q l ->
  forall acc, (0 < acc)%Q -> (0 < fold_left Qplus l acc)%Q.
Proof.
  induction 1 as [|x l Hx _ IH]; intros acc Hacc; simpl; [exact Hacc|].
  apply IH. rewrite <- (Qplus_0_l 0).
  apply Qplus_lt_le_compat; [exact Hacc | apply Qlt_le_weak; exact Hx].
Qed.

Lemma lenQ_pos {A} (x : A) (l : list A) : (0 < lenQ (x :: l))%Q.
Proof. unfold lenQ, Qlt. simpl. lia. Qed.

(** The average of measured runs is measured. *)
Lemma hot_cache_average_measured (runs : list ThroughputStats)
      (avg : ThroughputStats) :
  Forall measured runs ->
  hot_cache_average runs = Some avg ->
  measured avg.
Proof.
  intros Hall H. destruct runs as [|t runs]; [discriminate|].
  cbn [hot_cache_average] in H. inversion H; subst avg; clear H.
  rewrite Forall_forall in Hall.
  split; cbn [rate_mbps duration_sec].
  - apply Qdiv_nonneg; [|apply lenQ_pos].
    apply fold_Qplus_nonneg; [|apply Qle_refl].
    apply Forall_forall. intros q Hq.
    change (In q (map rate_mbps (t :: runs))) in Hq.
    apply in_map_iff in Hq as (a & <- & Ha). apply (Hall a Ha).
  - apply Qlt_shift_div_l; [apply lenQ_pos|]. rewrite Qmult_0_l.
    unfold sumQ. cbn [map fold_left].
    apply fold_Qplus_pos.
    + apply Forall_forall. intros q Hq.
      apply in_map_iff in Hq as (a & <- & Ha).
      apply (Hall a). right. exact Ha.
    + rewrite Qplus_0_l. apply (Hall t). left. reflexivity.
Qed.

Lemma try_finally_ok {A} (body : M A) (cleanup : M unit) (w w' : world)
      (a : A) :
  try_finally body cleanup w = (Ok a, w') ->
  exists w1, body w = (Ok a, w1).
Proof.
  unfold try_finally. destruct (body w) as [r w1]. intro H.
  inversion H; subst. exists w1. reflexivity.
Qed.

Lemma full_results_measured (E : env) (host : string) (user : option string)
      (nf fs : Z) (w w' : world) (r : full_results) :
  clock_monotone E -> 0 <= nf * fs ->
  measure_throughput_full E host user nf fs w = (Ok r, w') ->
  Forall measured (phase_results r).
Proof.
  intros Hmono Htotal H. unfold measure_throughput_full in H.
  apply bind_ok in H as (pv & w1 & _ & H).
  destruct pv; cbn [negb] in H.
  2:{ apply ret_ok in H as [H _]. subst r. constructor. }
  apply bind_ok in H as (test_dir & w2 & _ & H).
  apply try_finally_ok in H as (w3 & H).
  apply bind_ok in H as (files & w4 & _ & H).
  apply bind_ok in H as (tcp_start & w5 & _ & H).
  apply bind_ok in H as (f1 & w6 & _ & H).
  apply bind_ok in H as (f2 & w7 & _ & H).
  apply bind_ok in H as (cold & w8 & Hcold & H).
  apply bind_ok in H as (runs & w9 & Hruns & H).
  apply bind_ok in H as (f3 & w10 & _ & H).
  apply bind_ok in H as (f4 & w11 & _ & H).
  apply bind_ok in H as (lk & w12 & _ & H).
  apply bind_ok in H as (write & w13 & Hwrite & H).
  apply bind_ok in H as (tcp_end & w14 & _ & H).
  apply ret_ok in H as [H _]. subst r.
  assert (0 <= nf * fs * 1024 * 1024) as Htb by lia.
  assert (Forall measured runs) as Hr.
  { unfold hot_cache_phase in Hruns.
    apply bind_ok in Hruns as (lk0 & w15 & _ & Hruns).
    eapply hot_cache_loop_measured; eauto. }
  unfold phase_results. cbn [cold_cache hot_cache_runs hot_cache_avg true_write].
  apply Forall_app; split;
    [|apply Forall_app; split; [|apply Forall_app; split]].
  - destruct cold as [t|]; [|constructor].
    constructor; [|constructor]. eapply timed_transfer_measured; eauto.
  - exact Hr.
  - destruct (hot_cache_average runs) as [avg|] eqn:Ha; [|constructor].
    constructor; [|constructor].
    eapply hot_cache_average_measured; eauto.
  - destruct write as [t|]; [|constructor].
    constructor; [|constructor]. eapply timed_transfer_measured; eauto.
Qed.

End InvariantFacts.

Import InvariantFacts.

(** C4, as the code has it.  The ssh measurement returns a rate that is
    not negative and never sets the duration, which stays 0.  With a
    wall clock that does not go backwards and a test volume that is not
    negative, every result of the full benchmark (cold, each hot run,
    the hot average, true write) has a rate that is not negative and a
    positive duration.  The iperf3 measurement copies the report: with a
    sane report and a positive configured duration, its rate is not
    negative and its duration is positive whenever bytes were sent. *)
Theorem C4_throughput_invariants (E : env) (host : string) (w w' : world) :
  (forall user size t,
      0 <= size ->
      measure_throughput_ssh E host user size w = (Ok (Some t), w') ->
      (0 <= rate_mbps t)%Q /\ duration_sec t = 0%Q)
  /\ (forall user nf fs r,
         clock_monotone E -> 0 <= nf * fs ->
         measure_throughput_full E host user nf fs w = (Ok r, w') ->
         forall t, In t (phase_results r) ->
                   (0 <= rate_mbps t)%Q /\ (0 < duration_sec t)%Q)
  /\ (forall d t,
         0 < d -> report_sane E ->
         measure_throughput_iperf E host d w = (Ok (Some t), w') ->
         (0 <= rate_mbps t)%Q
         /\ (0 < bytes_transferred t -> (0 < duration_sec t)%Q)).
Proof.
  split; [|split].
  - intros user size t Hs H. exact (ssh_result E host user size w w' t Hs H).
  - intros user nf fs r Hm Ht H t Hin.
    pose proof (full_results_measured E host user nf fs w w' r Hm Ht H) as Hall.
    rewrite Forall_forall in Hall. exact (Hall t Hin).
  - intros d t Hd Hs H. exact (iperf_result E host d w w' t Hd Hs H).
Qed.

Lemma quiet_clock_monotone : clock_monotone Demo.quiet_env.
Proof.
  intros n m Hnm. unfold Demo.quiet_env, time_time, Qle. simpl. lia.
Qed.

Lemma C4_throughput_invariants_witness :
  exists r w',
    measure_throughput_full Demo.quiet_env "storage" None 3 10 [] = (Ok r, w')
    /\ length (phase_results r) = 6%nat
    /\ forall t, In t (phase_results r) ->
                 (0 <= rate_mbps t)%Q /\ (0 < duration_sec t)%Q.
Proof.
  eexists. eexists. split; [reflexivity|]. split; [reflexivity|].
  eapply (proj1 (proj2 (C4_throughput_invariants Demo.quiet_env "storage" []
                          _)) None 3 10).
  - exact quiet_clock_monotone.
  - lia.
  - reflexivity.
Defined.

(** C4 as stated fails on the ssh measurement: bytes were transferred
    and the duration is 0. *)
Lemma C4_counterexample :
  exists t,
    fst (measure_throughput_ssh Demo.quiet_env "storage" None 50 [])
    = Ok (Some t)
    /\ 0 < bytes_transferred t
    /\ ~ (0 < duration_sec t)%Q.
Proof.
  eexists. split; [reflexivity|]. split; [reflexivity|].
  cbn. intro H. discriminate.
Qed.

Module CollectFacts.
Import Py NetworkPerf CollectorSpec MonadFacts.

Lemma collect_one_skipped (E : env) (self : collector) (t : test_config)
      (w : world) :
  has_dest t = false -> collect_one E self t w = (Ok [], w).
Proof.
  unfold has_dest, collect_one. destruct (tc_dest t) as [d|]; [|reflexivity].
  destruct (String.eqb d EmptyString); [reflexivity | discriminate].
Qed.

Lemma collect_one_collected (E : env) (self : collector) (t : test_config)
      (w : world) :
  has_dest t = true ->
  exists dest r w',
    tc_dest t = Some dest
    /\ collect_one E self t w = (Ok [r], w')
    /\ match _collect_path E self (source_of E t) dest (path_type_of t)
                           (tc_user t) w with
       | (Ok stats, w1) => r = to_dict stats /\ w' = w1
       | (Raise _, w1) =>
           r = error_record (source_of E t) dest (path_type_of t)
                            (datetime_now E (length w1))
           /\ w' = EvNow :: w1
       end.
Proof.
  unfold has_dest, collect_one, source_of, path_type_of.
  destruct (tc_dest t) as [d|]; [|discriminate].
  destruct (String.eqb d EmptyString); [discriminate|]. intros _.
  exists d. unfold try_except, bind.
  destruct (_collect_path E self _ d _ (tc_user t) w) as [[stats|e] w1].
  - exists (to_dict stats), w1. repeat split; reflexivity.
  - eexists. eexists. repeat split; reflexivity.
Qed.

Lemma collect_one_total (E : env) (self : collector) (t : test_config)
      (w : world) :
  exists rs w',
    collect_one E self t w = (Ok rs, w')
    /\ length rs = if has_dest t then 1%nat else 0%nat.
Proof.
  destruct (has_dest t) eqn:Hd.
  - destruct (collect_one_collected E self t w Hd) as (d & r & w' & _ & H & _).
    exists [r], w'. split; [exact H | reflexivity].
  - exists [], w. split; [apply collect_one_skipped; exact Hd | reflexivity].
Qed.

(** The loop never raises, and what it appends does not depend on what
    was collected before. *)
Lemma collect_loop_appends (E : env) (self : collector)
      (tests : list test_config) :
  forall acc w,
  exists rs w',
    collect_loop E self tests [] w = (Ok rs, w')
    /\ collect_loop E self tests acc w = (Ok (acc ++ rs)%list, w')
    /\ length rs = length (filter has_dest tests).
Proof.
  induction tests as [|t tests IH]; intros acc w.
  - exists [], w. cbn. rewrite app_nil_r. repeat split; reflexivity.
  - destruct (collect_one_total E self t w) as (r1 & w1 & H1 & L1).
    destruct (IH r1 w1) as (rs & w' & Hnil & Hr1 & Hlen).
    destruct (IH (acc ++ r1)%list w1) as (rs' & w'' & Hnil' & Hacc & _).
    rewrite Hnil in Hnil'. inversion Hnil'; subst rs' w''.
    exists (r1 ++ rs)%list, w'. cbn [collect_loop filter]. unfold bind.
    rewrite H1. cbn [app]. rewrite Hr1, Hacc, app_assoc.
    repeat split; try reflexivity.
    rewrite length_app, L1, Hlen. destruct (has_dest t); reflexivity.
Qed.

End CollectFacts.

Import CollectFacts.

(** C9, as the code has it.  [collect] never raises.  An entry whose
    [dest] is missing or empty is skipped and gives no record; every
    other entry gives exactly one: the dictionary of the statistics when
    [_collect_path] returns, and when it raises a record with exactly the
    keys source_host, dest_host, path_type, status and timestamp, whose
    status is "error".  After any entry, failed or not, the loop goes on:
    the records of the remaining entries are those that collecting them
    alone yields from the world reached.  The number of records is the
    number of entries that have a [dest]. *)
Theorem C9_one_record_per_path (E : env) (self : collector) :
  (forall t w,
      has_dest t = true ->
      exists dest r w',
        tc_dest t = Some dest
        /\ collect_one E self t w = (Ok [r], w')
        /\ match _collect_path E self (source_of E t) dest (path_type_of t)
                               (tc_user t) w with
           | (Ok stats, w1) => r = to_dict stats /\ w' = w1
           | (Raise _, w1) =>
               r = error_record (source_of E t) dest (path_type_of t)
                                (datetime_now E (length w1))
               /\ dict_keys r = ["source_host"; "dest_host"; "path_type";
                                 "status"; "timestamp"]
               /\ dict_get "status" r = VStr "error"
           end)
  /\ (forall t w, has_dest t = false -> collect_one E self t w = (Ok [], w))
  /\ (forall t tests w,
         exists r1 w1 rs w',
           collect_one E self t w = (Ok r1, w1)
           /\ collect_loop E self tests [] w1 = (Ok rs, w')
           /\ collect_loop E self (t :: tests) [] w = (Ok (r1 ++ rs)%list, w'))
  /\ (forall w,
         exists rs w',
           collect E self w = (Ok rs, w')
           /\ length rs = length (filter has_dest (network_tests self))).
Proof.
  split; [|split; [|split]].
  - intros t w Hd.
    destruct (collect_one_collected E self t w Hd) as (d & r & w' & Hd' & H & Hr).
    exists d, r, w'. split; [exact Hd'|]. split; [exact H|].
    destruct (_collect_path E self _ d _ (tc_user t) w) as [[stats|e] w1].
    + exact Hr.
    + destruct Hr as [-> _]. repeat split; reflexivity.
  - intros t w Hd. apply collect_one_skipped. exact Hd.
  - intros t tests w.
    destruct (collect_one_total E self t w) as (r1 & w1 & H1 & _).
    destruct (collect_loop_appends E self tests r1 w1) as (rs & w' & Hn & Hr & _).
    exists r1, w1, rs, w'. split; [exact H1|]. split; [exact Hn|].
    cbn [collect_loop]. unfold bind. rewrite H1. cbn [app]. exact Hr.
  - intro w. unfold collect.
    destruct (collect_loop_appends E self (network_tests self) [] w)
      as (rs & w' & Hn & _ & Hlen).
    exists rs, w'. split; [exact Hn | exact Hlen].
Qed.

(** Three entries on a host whose disk is full: the first and the third
    give an error record each, the second has no [dest] and gives none. *)
Lemma C9_one_record_per_path_witness :
  exists rs w',
    collect Demo.full_disk_env
            (Demo.full_collector
               [Demo.storage_test; mkTest None None None None;
                Demo.storage_test]) [] = (Ok rs, w')
    /\ length rs = 2%nat
    /\ map (dict_get "status") rs = [VStr "error"; VStr "error"].
Proof.
  destruct (proj2 (proj2 (proj2
              (C9_one_record_per_path Demo.full_disk_env
                 (Demo.full_collector
                    [Demo.storage_test; mkTest None None None None;
                     Demo.storage_test])))) [])
    as (rs & w' & H & Hlen).
  exists rs, w'. split; [exact H|]. split; [exact Hlen|].
  vm_compute in H. inversion H. reflexivity.
Defined.

(** C9 as stated fails: a configured entry without [dest] gives no
    record at all. *)
Lemma C9_counterexample :
  let self := Demo.quick_collector [mkTest (Some "localhost") None
                                           (Some "switch") None] in
  length (network_tests self) = 1%nat
  /\ fst (collect Demo.quiet_env self []) = Ok [].
Proof. split; reflexivity. Qed.

Module StoreFacts.
Import Py NetworkPerf CollectorSpec.

Lemma row_of_collected (ts : string) (c : collected) :
  timestamped c ->
  exists r,
    row_of_record ts (record_of c) = Ok r
    /\ throughput_columns r = columns_of (stored_throughput c)
    /\ (forall wr, row_of_record ts (record_of (with_write c wr)) = Ok r)
    /\ (forall table, insert_row r table = Ok (table ++ [r])%list).
Proof.
  destruct c as [s|source dest pt now]; intro Hts.
  - destruct s as [src dst pt tstamp pg cold hot wr st]. cbn in Hts.
    destruct tstamp as [t|]; [|congruence].
    destruct pg, cold, hot; eexists; repeat split; reflexivity.
  - eexists. repeat split; reflexivity.
Qed.

Lemma insert_records_collected (ts : string) (cs : list collected) :
  Forall timestamped cs ->
  forall table,
  exists rows,
    insert_records ts (map record_of cs) table = Ok (table ++ rows)%list
    /\ Forall2 (fun c r =>
                  throughput_columns r = columns_of (stored_throughput c)
                  /\ forall wr,
                      row_of_record ts (record_of (with_write c wr)) = Ok r)
               cs rows.
Proof.
  induction 1 as [|c cs Hc _ IH]; intro table.
  - exists []. cbn. rewrite app_nil_r. split; [reflexivity | constructor].
  - destruct (row_of_collected ts c Hc) as (r & Hr & Hcols & Hwr & Hins).
    destruct (IH (table ++ [r])%list) as (rows & Hrows & Hall).
    exists (r :: rows). cbn [map insert_records]. rewrite Hr. cbn [rbind].
    rewrite Hins. cbn [rbind]. rewrite Hrows, <- app_assoc. split.
    + reflexivity.
    + constructor; [split; assumption | exact Hall].
Qed.

End StoreFacts.

Import StoreFacts.

(** C10. [store] appends one row per collected record, in order; the
    throughput_mbps, bytes_transferred and tcp_retrans columns of a row
    are those of the hot-cache result when the record has one, else
    those of the cold-cache result, else NULL; and the row is the same
    whatever the true-write result of the record is. *)
Theorem C10_stored_throughput_columns (ts : string) (cs : list collected)
        (table : list row) :
  Forall timestamped cs ->
  exists rows,
    store ts (map record_of cs) table = Ok (table ++ rows)%list
    /\ Forall2 (fun c r =>
                  throughput_columns r = columns_of (stored_throughput c)
                  /\ forall wr,
                      row_of_record ts (record_of (with_write c wr)) = Ok r)
               cs rows.
Proof.
  intro Hall. destruct cs as [|c cs].
  - exists []. cbn. rewrite app_nil_r. split; [reflexivity | constructor].
  - apply (insert_records_collected ts (c :: cs) Hall table).
Qed.

Lemma C10_stored_throughput_columns_witness :
  exists rows,
    store "2026-01-05T11:00:00"
          (map record_of
               [Measured (mkStats "a" "b" "switch" (Some "2026-01-05T10:00:00")
                                  (Some (mkPing 1 2 3 4 0))
                                  (Some (mkThroughput 10 20 30 0))
                                  (Some (mkThroughput 11 21 31 7))
                                  (Some (mkThroughput 12 22 32 0)) "healthy");
                Measured (mkStats "a" "c" "switch" (Some "2026-01-05T10:00:00")
                                  (Some (mkPing 1 2 3 4 0))
                                  (Some (mkThroughput 10 20 30 0))
                                  None
                                  (Some (mkThroughput 12 22 32 0)) "healthy");
                Failed "a" "d" "direct" "2026-01-05T10:00:05"]) []
    = Ok rows
    /\ map throughput_columns rows
       = [(VFloat 21, VInt 11, VInt 7); (VFloat 20, VInt 10, VInt 0);
          (VNone, VNone, VNone)].
Proof.
  edestruct (C10_stored_throughput_columns "2026-01-05T11:00:00"
               [Measured (mkStats "a" "b" "switch" (Some "2026-01-05T10:00:00")
                                  (Some (mkPing 1 2 3 4 0))
                                  (Some (mkThroughput 10 20 30 0))
                                  (Some (mkThroughput 11 21 31 7))
                                  (Some (mkThroughput 12 22 32 0)) "healthy");
                Measured (mkStats "a" "c" "switch" (Some "2026-01-05T10:00:00")
                                  (Some (mkPing 1 2 3 4 0))
                                  (Some (mkThroughput 10 20 30 0))
                                  None
                                  (Some (mkThroughput 12 22 32 0)) "healthy");
                Failed "a" "d" "direct" "2026-01-05T10:00:05"] [])
    as (rows & H & _).
  - repeat constructor; discriminate.
  - exists rows. split; [exact H|].
    vm_compute in H. inversion H. reflexivity.
Defined.

Module RecommendFacts.
Import Py Diag DiagSpec.

Lemma filter_filter (f g : string -> bool) (l : list string) :
  filter f (filter g l) = filter (fun x => g x && f x) l.
Proof.
  induction l as [|x l IH]; simpl; [reflexivity|].
  destruct (g x); simpl; [destruct (f x)|]; rewrite ?IH; reflexivity.
Qed.

Lemma mem_string_app (x : string) (l1 l2 : list string) :
  mem_string x (l1 ++ l2) = mem_string x l1 || mem_string x l2.
Proof. unfold mem_string. apply existsb_app. Qed.

Lemma mem_string_In (x : string) (l : list string) :
  mem_string x l = true <-> In x l.
Proof.
  unfold mem_string. rewrite existsb_exists. split.
  - intros (y & Hy & He). apply String.eqb_eq in He. subst. exact Hy.
  - intro H. exists x. split; [exact H | apply String.eqb_refl].
Qed.

(** The fold of [dict_fromkeys], from any dictionary built so far. *)
Lemma fromkeys_fold (l : list string) :
  forall keys,
    fold_left (fun keys k =>
                 if mem_string k keys then keys else (keys ++ [k])%list)
              l keys
    = (keys ++ filter (fun x => negb (mem_string x keys))
                      (first_occurrences l))%list.
Proof.
  induction l as [|a l IH]; intro keys; cbn [fold_left first_occurrences].
  - cbn. rewrite app_nil_r. reflexivity.
  - destruct (mem_string a keys) eqn:Ha.
    + rewrite IH. cbn [filter]. rewrite Ha. cbn [negb].
      rewrite filter_filter. f_equal. apply filter_ext_in. intros x _.
      unfold differs. destruct (String.eqb x a) eqn:Hx; [|reflexivity].
      apply String.eqb_eq in Hx. subst x. rewrite Ha. reflexivity.
    + rewrite IH. cbn [filter]. rewrite Ha. cbn [negb].
      rewrite <- app_assoc. cbn [app]. f_equal. f_equal.
      rewrite filter_filter. apply filter_ext. intro x.
      rewrite mem_string_app. unfold differs, mem_string at 2. cbn [existsb].
      rewrite orb_false_r, negb_orb. apply andb_comm.
Qed.

Lemma dict_fromkeys_first_occurrences (l : list string) :
  dict_fromkeys l = first_occurrences l.
Proof.
  unfold dict_fromkeys. rewrite fromkeys_fold. cbn [app].
  apply filter_true.
Qed.

Lemma first_occurrences_In (l : list string) (x : string) :
  In x (first_occurrences l) <-> In x l.
Proof.
  induction l as [|a l IH]; cbn [first_occurrences]; [tauto|].
  cbn [In]. rewrite filter_In, IH. unfold differs.
  destruct (String.eqb x a) eqn:Hx.
  - apply String.eqb_eq in Hx. subst. cbn. tauto.
  - apply String.eqb_neq in Hx. cbn. split.
    + intros [H|[H _]]; auto.
    + intros [H|H]; auto.
Qed.

Lemma first_occurrences_NoDup (l : list string) : NoDup (first_occurrences l).
Proof.
  induction l as [|a l IH]; cbn [first_occurrences]; constructor.
  - rewrite filter_In. unfold differs. rewrite String.eqb_refl.
    intros [_ H]. discriminate.
  - apply NoDup_filter. exact IH.
Qed.

(** Dropping the copies of [a] does not change the relative position of
    the other elements. *)
Lemma first_index_filter (a x y : string) (l : list string) :
  x <> a -> y <> a -> In x l -> In y l ->
  (first_index x (filter (differs a) l) < first_index y (filter (differs a) l)
   <-> first_index x l < first_index y l)%nat.
Proof.
  intros Hx Hy. induction l as [|b l IH]; intros Hxl Hyl; [destruct Hxl|].
  cbn [filter first_index].
  assert (forall z, z <> a -> differs a z = true) as Hkeep
      by (intros z Hz; unfold differs; apply negb_true_iff, String.eqb_neq;
          exact Hz).
  destruct (String.eqb x b) eqn:Hxb, (String.eqb y b) eqn:Hyb.
  - apply String.eqb_eq in Hxb. subst b. rewrite (Hkeep x Hx).
    cbn [first_index]. rewrite String.eqb_refl, Hyb. lia.
  - apply String.eqb_eq in Hxb. subst b. rewrite (Hkeep x Hx).
    cbn [first_index]. rewrite String.eqb_refl, Hyb. lia.
  - apply String.eqb_eq in Hyb. subst b. rewrite (Hkeep y Hy).
    cbn [first_index]. rewrite String.eqb_refl, Hxb. lia.
  - pose proof Hxb as Hxb'. pose proof Hyb as Hyb'.
    apply String.eqb_neq in Hxb', Hyb'.
    destruct Hxl as [Hxl|Hxl]; [congruence|].
    destruct Hyl as [Hyl|Hyl]; [congruence|].
    pose proof (IH Hxl Hyl) as IH'.
    destruct (differs a b); cbn [first_index]; rewrite ?Hxb, ?Hyb; lia.
Qed.

Lemma first_occurrences_order (l : list string) (x y : string) :
  In x l -> In y l ->
  (first_index x (first_occurrences l) < first_index y (first_occurrences l)
   <-> first_index x l < first_index y l)%nat.
Proof.
  induction l as [|a l IH]; intros Hx Hy; [destruct Hx|].
  cbn [first_occurrences first_index].
  destruct (String.eqb x a) eqn:Hxa, (String.eqb y a) eqn:Hya; try lia.
  apply String.eqb_neq in Hxa, Hya.
  destruct Hx as [Hx|Hx]; [congruence|].
  destruct Hy as [Hy|Hy]; [congruence|].
  pose proof (IH Hx Hy) as IH'.
  assert (In x (first_occurrences l)) as Hx'
      by (apply first_occurrences_In; exact Hx).
  assert (In y (first_occurrences l)) as Hy'
      by (apply first_occurrences_In; exact Hy).
  pose proof (first_index_filter a x y (first_occurrences l) Hxa Hya Hx' Hy')
    as Hf.
  lia.
Qed.

(** [dict.fromkeys]: no duplicates, the same elements, and the order of
    their first occurrences. *)
Lemma dict_fromkeys_spec (l : list string) :
  NoDup (dict_fromkeys l)
  /\ (forall x, In x (dict_fromkeys l) <-> In x l)
  /\ (forall x y, In x l -> In y l ->
        (first_index x (dict_fromkeys l) < first_index y (dict_fromkeys l)
         <-> first_index x l < first_index y l)%nat).
Proof.
  rewrite dict_fromkeys_first_occurrences. split; [|split].
  - apply first_occurrences_NoDup.
  - intro x. apply first_occurrences_In.
  - intros x y. apply first_occurrences_order.
Qed.

Lemma raw_recommendations_nonempty (causes : list cause_entry) :
  raw_recommendations causes <> [].
Proof.
  unfold raw_recommendations.
  destruct (flat_map _ causes); discriminate.
Qed.

(** The recommendation list: not empty, without duplicates, and in the
    order in which the recommendations were first appended. *)
Lemma generate_recommendations_spec (causes : list cause_entry) :
  let raw := raw_recommendations causes in
  let recs := generate_recommendations causes in
  recs <> []
  /\ NoDup recs
  /\ (forall x, In x recs <-> In x raw)
  /\ (forall x y, In x raw -> In y raw ->
        (first_index x recs < first_index y recs
         <-> first_index x raw < first_index y raw)%nat).
Proof.
  intros raw recs. subst recs. unfold generate_recommendations. fold raw.
  destruct (dict_fromkeys_spec raw) as (Hnd & Hin & Hord).
  split; [|split; [exact Hnd | split; [exact Hin | exact Hord]]].
  pose proof (raw_recommendations_nonempty causes) as Hne. fold raw in Hne.
  destruct raw as [|r raw']; [congruence|].
  intro Hempty. specialize (Hin r). rewrite Hempty in Hin.
  apply Hin. left. reflexivity.
Qed.

End RecommendFacts.

Module CauseFacts.
Import Py Diag DiagSpec PyFacts.

Lemma has_number_get (state : dict) (k : string) (q : Q) :
  has_number state k q ->
  exists x, num_of (dict_get_default k (VInt 0) state) = Some x /\ (x == q)%Q.
Proof.
  intros (v & x & Hl & Hn & Hq). exists x. unfold dict_get_default.
  rewrite Hl. auto.
Qed.

Lemma py_gt_above (v : pyval) (x c : Q) :
  num_of v = Some x -> (c < x)%Q -> py_gt v c = Ok true.
Proof.
  intros Hn Hc. unfold py_gt. rewrite Hn. f_equal. apply Qltb_true. exact Hc.
Qed.

Lemma check_loss_high (state : dict) :
  has_number state "ping_loss_pct" 7 ->
  exists d, check_loss state = Ok [mkCause "High Packet Loss" "high" d].
Proof.
  intro H. apply has_number_get in H as (x & Hn & Hq).
  unfold check_loss. rewrite (py_gt_above _ x 5 Hn).
  - eexists. reflexivity.
  - rewrite Hq. reflexivity.
Qed.

Lemma check_latency_high (state : dict) :
  has_number state "ping_avg_ms" 120 ->
  exists d, check_latency state = Ok [mkCause "High Latency" "high" d].
Proof.
  intro H. apply has_number_get in H as (x & Hn & Hq).
  unfold check_latency. rewrite (py_gt_above _ x 100 Hn).
  - eexists. reflexivity.
  - rewrite Hq. reflexivity.
Qed.

Lemma check_retrans_high (state : dict) :
  has_number state "tcp_retrans" 150 ->
  exists d,
    check_retrans state = Ok [mkCause "Excessive TCP Retransmits" "high" d].
Proof.
  intro H. apply has_number_get in H as (x & Hn & Hq).
  unfold check_retrans. rewrite (py_gt_above _ x 100 Hn).
  - eexists. reflexivity.
  - rewrite Hq. reflexivity.
Qed.

Ltac in_names :=
  cbn; repeat (first [left; reflexivity | right]).

Ltac name_check :=
  unfold named_in; repeat (apply Forall_cons; [in_names|]); apply Forall_nil.

Lemma check_loss_total (state : dict) :
  comparable state "ping_loss_pct" ->
  exists l, check_loss state = Ok l /\ named_in metric_causes l.
Proof.
  unfold comparable, check_loss, py_gt. intro H.
  destruct (num_of _) as [x|]; [|congruence]. cbn [rbind].
  destruct (Qltb 5 x); [|destruct (Qltb 1 x)];
    eexists; (split; [reflexivity | name_check]).
Qed.

Lemma check_latency_total (state : dict) :
  comparable state "ping_avg_ms" ->
  exists l, check_latency state = Ok l /\ named_in metric_causes l.
Proof.
  unfold comparable, check_latency, py_gt. intro H.
  destruct (num_of _) as [x|]; [|congruence]. cbn [rbind].
  destruct (Qltb 100 x); [|destruct (Qltb 50 x)];
    eexists; (split; [reflexivity | name_check]).
Qed.

Lemma check_jitter_total (state : dict) :
  comparable state "ping_mdev_ms" ->
  exists l, check_jitter state = Ok l /\ named_in metric_causes l.
Proof.
  unfold comparable, check_jitter, py_gt. intro H.
  destruct (num_of _) as [x|]; [|congruence]. cbn [rbind].
  destruct (Qltb 20 x); eexists; (split; [reflexivity | name_check]).
Qed.

Lemma check_retrans_total (state : dict) :
  comparable state "tcp_retrans" ->
  exists l, check_retrans state = Ok l /\ named_in metric_causes l.
Proof.
  unfold comparable, check_retrans, py_gt. intro H.
  destruct (num_of _) as [x|]; [|congruence]. cbn [rbind].
  destruct (Qltb 100 x); [|destruct (Qltb 10 x)];
    eexists; (split; [reflexivity | name_check]).
Qed.

Lemma check_throughput_total (state : dict) :
  throughput_usable state ->
  exists l, check_throughput state = Ok l /\ named_in metric_causes l.
Proof.
  unfold throughput_usable, check_throughput, py_lt. cbv zeta. intro H.
  destruct (truthy _).
  - destruct (num_of _) as [x|]; [|exfalso; apply H; reflexivity].
    cbn [rbind].
    destruct (Qltb x 100); eexists; (split; [reflexivity | name_check]).
  - eexists. split; [reflexivity | constructor].
Qed.

Lemma has_number_comparable (state : dict) (k : string) (q : Q) :
  has_number state k q -> comparable state k.
Proof.
  intro H. apply has_number_get in H as (x & Hn & _).
  unfold comparable. rewrite Hn. discriminate.
Qed.

Lemma has_number_present (state : dict) (k : string) (q : Q) :
  has_number state k q -> state <> [].
Proof. intros (v & x & Hl & _) ->. discriminate. Qed.

Lemma emitted_app_l (l1 l2 : list cause_entry) (n c : string) :
  emitted l1 n c -> emitted (l1 ++ l2) n c.
Proof.
  intros (e & He & H). exists e. split; [apply in_or_app; left|]; assumption.
Qed.

Lemma emitted_app_r (l1 l2 : list cause_entry) (n c : string) :
  emitted l2 n c -> emitted (l1 ++ l2) n c.
Proof.
  intros (e & He & H). exists e. split; [apply in_or_app; right|]; assumption.
Qed.

Lemma emitted_head (l : list cause_entry) (n c : string) (d : detail_text) :
  emitted (mkCause n c d :: l) n c.
Proof. exists (mkCause n c d). cbn. auto. Qed.

(** The result of the analysis for a record that is present, in terms
    of the results of the single checks. *)
Lemma analyze_present (state : dict) (history : list dict)
      (trends : list (string * dict)) (tp : option time_patterns)
      (c1 c2 c3 c4 c5 : list cause_entry) :
  state <> [] ->
  check_loss state = Ok c1 -> check_latency state = Ok c2 ->
  check_jitter state = Ok c3 -> check_retrans state = Ok c4 ->
  check_throughput state = Ok c5 ->
  analyze_potential_causes (Some state) history trends tp
  = Ok (or_no_issue
          (c1 ++ c2 ++ c3 ++ c4 ++ c5
              ++ check_business_hours tp ++ check_trends trends)%list).
Proof.
  intros Hne H1 H2 H3 H4 H5.
  destruct state as [|kv state]; [congruence|].
  unfold analyze_potential_causes. rewrite H1, H2, H3, H4, H5. cbn [rbind].
  unfold or_no_issue. destruct (c1 ++ _)%list; reflexivity.
Qed.

(** The rows that [store] writes are well typed for the analysis: when
    the loss of such a row is a number its latency and jitter are numbers
    too, when its retransmit count is a number so is its throughput, and
    its throughput is a number or NULL in any case. *)
Lemma stored_row_comparable (ts : string) (c : CollectorSpec.collected)
      (r : NetworkPerf.row) :
  NetworkPerf.row_of_record ts (CollectorSpec.record_of c) = Ok r ->
  let state := state_of_row r in
  throughput_usable state
  /\ (comparable state "ping_loss_pct" ->
      comparable state "ping_avg_ms" /\ comparable state "ping_mdev_ms")
  /\ (comparable state "tcp_retrans" ->
      comparable state "throughput_mbps").
Proof.
  destruct c as [s|source dest pt now].
  - destruct s as [src dst pt tstamp pg cold hot wr st].
    destruct pg, cold, hot; intro H; inversion H; subst r; clear H;
      unfold throughput_usable, comparable; cbn;
      repeat split; intros; congruence.
  - intro H; inversion H; subst r; clear H.
    unfold throughput_usable, comparable; cbn.
    repeat split; intros; congruence.
Qed.

End CauseFacts.

Import Diag DiagSpec RecommendFacts CauseFacts.

(** C8. Without a current record (absent or empty) the analysis returns
    the single cause "No network data available" at high confidence,
    whatever the history, the trends and the time patterns are, and the
    recommendations for that cause are the single fallback entry. *)
Theorem C8_no_current_state (state : option dict) (history : list dict)
        (trends : list (string * dict)) (tp : option time_patterns) :
  state_present state = false ->
  analyze_potential_causes state history trends tp = Ok [no_data_cause]
  /\ cause no_data_cause = "No network data available"
  /\ confidence no_data_cause = "high"
  /\ generate_recommendations [no_data_cause]
     = ["Network appears healthy - no action required"].
Proof.
  intro H. split; [|repeat split; reflexivity].
  destruct state as [[|kv state]|]; [reflexivity | discriminate | reflexivity].
Qed.

Lemma C8_no_current_state_witness :
  analyze_potential_causes (Some [])
    [[("timestamp", VStr "2026-01-05T10:00:00"); ("throughput_mbps", VInt 50)]]
    [("throughput", [("trend", VStr "decreasing")])]
    (Some (mkPatterns 100 200 100 200 1 1))
  = Ok [no_data_cause].
Proof.
  apply (C8_no_current_state (Some []) _ _ _). reflexivity.
Defined.

(** C7. For a current record whose ping_loss_pct is 7, ping_avg_ms is 120
    and tcp_retrans is 150 (and whose jitter and throughput fields are
    numbers or missing, as in any stored row with a ping), the analysis
    returns a list that has "High Packet Loss", "High Latency" and
    "Excessive TCP Retransmits", each at high confidence; the
    recommendations generated from it are not empty, have no duplicate
    and keep the order in which they were first appended. *)
Theorem C7_loss_latency_retransmits (state : dict) (history : list dict)
        (trends : list (string * dict)) (tp : option time_patterns) :
  has_number state "ping_loss_pct" 7 ->
  has_number state "ping_avg_ms" 120 ->
  has_number state "tcp_retrans" 150 ->
  comparable state "ping_mdev_ms" ->
  throughput_usable state ->
  exists causes,
    analyze_potential_causes (Some state) history trends tp = Ok causes
    /\ emitted causes "High Packet Loss" "high"
    /\ emitted causes "High Latency" "high"
    /\ emitted causes "Excessive TCP Retransmits" "high"
    /\ let raw := raw_recommendations causes in
       let recs := generate_recommendations causes in
       recs <> []
       /\ NoDup recs
       /\ (forall x, In x recs <-> In x raw)
       /\ (forall x y, In x raw -> In y raw ->
             (first_index x recs < first_index y recs
              <-> first_index x raw < first_index y raw)%nat).
Proof.
  intros Hloss Hlat Hret Hjit Hthr.
  destruct (check_loss_high state Hloss) as (d1 & H1).
  destruct (check_latency_high state Hlat) as (d2 & H2).
  destruct (check_jitter_total state Hjit) as (c3 & H3 & _).
  destruct (check_retrans_high state Hret) as (d4 & H4).
  destruct (check_throughput_total state Hthr) as (c5 & H5 & _).
  pose proof (analyze_present state history trends tp _ _ _ _ _
                (has_number_present _ _ _ Hloss) H1 H2 H3 H4 H5) as Ha.
  cbn [app or_no_issue] in Ha.
  eexists. split; [exact Ha|].
  split; [apply emitted_head|].
  split; [apply (emitted_app_r [_]), emitted_head|].
  split; [|apply generate_recommendations_spec].
  apply (emitted_app_r [_; _]), emitted_app_r, emitted_head.
Qed.

Lemma C7_loss_latency_retransmits_witness :
  exists causes,
    analyze_potential_causes
      (Some [("ping_loss_pct", VInt 7); ("ping_avg_ms", VInt 120);
             ("tcp_retrans", VInt 150)]) [] [] None = Ok causes
    /\ map cause causes
       = ["High Packet Loss"; "High Latency"; "Excessive TCP Retransmits"]
    /\ length (generate_recommendations causes) = 9%nat.
Proof.
  destruct (C7_loss_latency_retransmits
              [("ping_loss_pct", VInt 7); ("ping_avg_ms", VInt 120);
               ("tcp_retrans", VInt 150)] [] [] None)
    as (causes & H & _).
  - exists (VInt 7), (inject_Z 7). repeat split; reflexivity.
  - exists (VInt 120), (inject_Z 120). repeat split; reflexivity.
  - exists (VInt 150), (inject_Z 150). repeat split; reflexivity.
  - discriminate.
  - discriminate.
  - exists causes. split; [exact H|].
    vm_compute in H. inversion H. split; reflexivity.
Defined.

Module BusinessHoursFacts.
Import Py Diag DiagSpec PyFacts CauseFacts.

Lemma named_in_weaken (names names' : list string) (l : list cause_entry) :
  incl names names' -> named_in names l -> named_in names' l.
Proof.
  intros Hi H. unfold named_in in *. eapply Forall_impl; [|exact H].
  intros c Hc. apply Hi. exact Hc.
Qed.

Lemma metric_in_other : incl metric_causes other_causes.
Proof. unfold other_causes. apply incl_appl, incl_refl. Qed.

Lemma check_trends_names (trends : list (string * dict)) :
  named_in other_causes (check_trends trends).
Proof.
  unfold check_trends.
  destruct (trend_is trends "throughput" "decreasing"),
           (trend_is trends "latency" "increasing");
    cbn [app]; name_check.
Qed.

Lemma not_emitted (names : list string) (l : list cause_entry)
      (n c : string) :
  named_in names l -> ~ In n names -> ~ emitted l n c.
Proof.
  intros Hl Hn (e & He & Hname & _). unfold named_in in Hl.
  rewrite Forall_forall in Hl. apply Hn. rewrite <- Hname. apply Hl. exact He.
Qed.

Lemma emitted_app (l1 l2 : list cause_entry) (n c : string) :
  emitted (l1 ++ l2) n c <-> emitted l1 n c \/ emitted l2 n c.
Proof.
  split.
  - intros (e & He & H). apply in_app_or in He as [He|He];
      [left | right]; exists e; auto.
  - intros [H|H]; [apply emitted_app_l | apply emitted_app_r]; exact H.
Qed.

(** Among the causes returned, those named after the business hours are
    the ones that the business-hours check emitted. *)
Lemma emitted_only_business (others b tr : list cause_entry) (n c : string) :
  named_in other_causes others -> named_in other_causes tr ->
  ~ In n other_causes ->
  (emitted (or_no_issue (others ++ b ++ tr)) n c <-> emitted b n c).
Proof.
  intros Ho Ht Hn.
  assert (emitted (others ++ b ++ tr) n c <-> emitted b n c) as Hmain.
  { rewrite !emitted_app. split.
    - intros [H|[H|H]]; [|exact H|].
      + exfalso. exact (not_emitted _ _ n c Ho Hn H).
      + exfalso. exact (not_emitted _ _ n c Ht Hn H).
    - intro H. right. left. exact H. }
  unfold or_no_issue.
  destruct (others ++ b ++ tr)%list as [|e l] eqn:Hl; [|exact Hmain].
  rewrite <- Hmain. split.
  - intros (e & [He|[]] & Hname & _). subst e. exfalso. apply Hn.
    rewrite <- Hname. unfold other_causes. apply in_or_app. right.
    cbn. tauto.
  - intros (e & [] & _).
Qed.

(** What the business-hours check emits, by the ratio of the averages. *)
Lemma check_business_hours_cases (tp : time_patterns) :
  (0 < business_hours_avg tp)%Q -> (0 < off_hours_avg tp)%Q ->
  let ratio := (business_hours_avg tp / off_hours_avg tp)%Q in
  (emitted (check_business_hours (Some tp)) "Business Hours Congestion" "high"
   <-> (ratio < 7 # 10)%Q)
  /\ (emitted (check_business_hours (Some tp)) "Mild Business Hours Impact"
              "medium"
      <-> (7 # 10 <= ratio)%Q /\ (ratio < 85 # 100)%Q).
Proof.
  intros Hb Ho ratio. unfold check_business_hours.
  assert (Qeqb0 (business_hours_avg tp) = false) as ->
      by (apply Qeqb0_false; intro H; rewrite H in Hb; discriminate).
  assert (Qeqb0 (off_hours_avg tp) = false) as ->
      by (apply Qeqb0_false; intro H; rewrite H in Ho; discriminate).
  assert (Qltb 0 (off_hours_avg tp) = true) as -> by (apply Qltb_true; exact Ho).
  cbn [negb andb]. fold ratio.
  destruct (Qltb ratio (7 # 10)) eqn:H7.
  - apply Qltb_true in H7. split.
    + split; [intros _; exact H7 | intros _; apply emitted_head].
    + split.
      * intros (e & [He|[]] & Hn & _). subst e. discriminate.
      * intros [Hle _]. exfalso. exact (Qlt_not_le _ _ H7 Hle).
  - apply Qltb_false in H7.
    destruct (Qltb ratio (85 # 100)) eqn:H85.
    + apply Qltb_true in H85. split.
      * split.
        -- intros (e & [He|[]] & Hn & _). subst e. discriminate.
        -- intro Hlt. exfalso. exact (Qlt_not_le _ _ Hlt H7).
      * split; [intros _; split; assumption | intros _; apply emitted_head].
    + apply Qltb_false in H85. split.
      * split.
        -- intros (e & [] & _).
        -- intro Hlt. exfalso. exact (Qlt_not_le _ _ Hlt H7).
      * split.
        -- intros (e & [] & _).
        -- intros [_ Hlt]. exfalso. exact (Qlt_not_le _ _ Hlt H85).
Qed.

(** The analysis of a record whose metrics can be compared returns, and
    its business-hours causes are those of the check. *)
Lemma analyze_business_hours (state : dict) (history : list dict)
      (trends : list (string * dict)) (tp : option time_patterns) :
  state <> [] -> metrics_comparable state ->
  exists causes,
    analyze_potential_causes (Some state) history trends tp = Ok causes
    /\ forall n c, ~ In n other_causes ->
                   (emitted causes n c
                    <-> emitted (check_business_hours tp) n c).
Proof.
  intros Hne (H1 & H2 & H3 & H4 & H5).
  destruct (check_loss_total state H1) as (c1 & E1 & N1).
  destruct (check_latency_total state H2) as (c2 & E2 & N2).
  destruct (check_jitter_total state H3) as (c3 & E3 & N3).
  destruct (check_retrans_total state H4) as (c4 & E4 & N4).
  destruct (check_throughput_total state H5) as (c5 & E5 & N5).
  pose proof (analyze_present state history trends tp _ _ _ _ _
                              Hne E1 E2 E3 E4 E5) as Ha.
  assert ((c1 ++ c2 ++ c3 ++ c4 ++ c5
              ++ check_business_hours tp ++ check_trends trends)%list
          = ((c1 ++ c2 ++ c3 ++ c4 ++ c5)
               ++ check_business_hours tp ++ check_trends trends)%list)
    as Hassoc by (rewrite <- !app_assoc; reflexivity).
  rewrite Hassoc in Ha.
  eexists. split; [exact Ha|].
  intros n c Hn.
  apply emitted_only_business; [|apply check_trends_names|exact Hn].
  unfold named_in. repeat (apply Forall_app; split);
    apply (named_in_weaken _ _ _ metric_in_other); assumption.
Qed.

(** *** Histories of weekday business-hours samples and weekend samples *)

Lemma sum_values_all_equal (q : Q) (l : list pyval) :
  all_equal q l ->
  forall acc, exists s,
    sum_values l acc = Ok s
    /\ (s == acc + inject_Z (Z.of_nat (length l)) * q)%Q.
Proof.
  induction 1 as [|v l (x & Hn & Hx) _ IH]; intro acc.
  - exists acc. split; [reflexivity|]. cbn. ring.
  - cbn [sum_values]. rewrite Hn.
    destruct (IH (acc + x)%Q) as (s & Hs & Heq).
    exists s. split; [exact Hs|]. rewrite Heq, Hx.
    cbn [length]. rewrite Nat2Z.inj_succ. unfold Z.succ.
    rewrite inject_Z_plus. ring.
Qed.

Lemma average_all_equal (q : Q) (l : list pyval) :
  l <> [] -> all_equal q l ->
  exists a, average l = Ok a /\ (a == q)%Q.
Proof.
  intros Hne Hall. destruct l as [|v l]; [congruence|].
  unfold average.
  destruct (sum_values_all_equal q (v :: l) Hall 0%Q) as (s & Hs & Heq).
  rewrite Hs. cbn [rbind]. eexists. split; [reflexivity|].
  rewrite Heq. field.
  unfold Qeq. cbn. lia.
Qed.

Lemma nonzero_truthy (v : pyval) (x : Q) :
  num_of v = Some x -> ~ (x == 0)%Q -> truthy v = true.
Proof.
  destruct v as [| |z|q|]; cbn; intros H Hx; try discriminate;
    inversion H; subst x.
  - apply negb_true_iff, Z.eqb_neq. intro Hz. subst z.
    apply Hx. reflexivity.
  - apply negb_true_iff, Qeqb0_false. exact Hx.
Qed.

Section Synthetic.

Variable fromisoformat : string -> option datetime.

Lemma partition_synthetic (history : list dict) :
  Forall (fun r => business_sample fromisoformat r
                   \/ weekend_sample fromisoformat r) history ->
  forall b,
  exists A B,
    partition_samples fromisoformat history b
    = Ok (mkBuckets (weekday_samples b ++ A) (weekend_samples b ++ B)
                    (business_samples b ++ A) (off_hours_samples b ++ B))%list
    /\ all_equal 100 A /\ all_equal 200 B
    /\ (Exists (business_sample fromisoformat) history -> A <> [])
    /\ (Exists (weekend_sample fromisoformat) history -> B <> []).
Proof.
  induction 1 as [|r history Hr _ IH]; intro b.
  - exists [], []. cbn. rewrite !app_nil_r. destruct b.
    repeat split; try constructor; intro H; inversion H.
  - destruct Hr as [(s & dt & v & x & Hts & Hdt & Hwd & Hh & Hthr & Hn & Hx)
                   |(s & dt & v & x & Hts & Hdt & Hwd & Hthr & Hn & Hx)].
    + cbn [partition_samples]. unfold dict_get, dict_get_default.
      rewrite Hts, Hthr.
      rewrite (nonzero_truthy v x Hn)
        by (rewrite Hx; intro H; discriminate).
      cbn [negb]. rewrite Hdt.
      assert ((weekday dt <? 5) = true) as -> by (apply Z.ltb_lt; lia).
      assert ((9 <=? hour dt) = true) as -> by (apply Z.leb_le; lia).
      assert ((hour dt <? 17) = true) as -> by (apply Z.ltb_lt; lia).
      cbn [andb weekday_samples weekend_samples business_samples
           off_hours_samples].
      destruct (IH (mkBuckets (weekday_samples b ++ [v]) (weekend_samples b)
                              (business_samples b ++ [v])
                              (off_hours_samples b))%list)
        as (A & B & Hp & HA & HB & _ & HneB).
      exists (v :: A), B. rewrite Hp.
      cbn [weekday_samples weekend_samples business_samples off_hours_samples].
      rewrite <- !app_assoc. cbn [app].
      split; [reflexivity|]. split; [|split; [exact HB|split]].
      * constructor; [exists x; auto | exact HA].
      * intros _. discriminate.
      * intro H. inversion H as [? ? Hw|? ? Hrest]; subst.
        -- exfalso. destruct Hw as (s' & dt' & _ & _ & Hts' & Hdt' & Hwd' & _).
           rewrite Hts in Hts'. inversion Hts'; subst s'.
           rewrite Hdt in Hdt'. inversion Hdt'; subst dt'. lia.
        -- exact (HneB Hrest).
    + cbn [partition_samples]. unfold dict_get, dict_get_default.
      rewrite Hts, Hthr.
      rewrite (nonzero_truthy v x Hn)
        by (rewrite Hx; intro H; discriminate).
      cbn [negb]. rewrite Hdt.
      assert ((weekday dt <? 5) = false) as -> by (apply Z.ltb_ge; lia).
      rewrite andb_false_r.
      cbn [weekday_samples weekend_samples business_samples
           off_hours_samples].
      destruct (IH (mkBuckets (weekday_samples b) (weekend_samples b ++ [v])
                              (business_samples b)
                              (off_hours_samples b ++ [v]))%list)
        as (A & B & Hp & HA & HB & HneA & _).
      exists A, (v :: B). rewrite Hp.
      cbn [weekday_samples weekend_samples business_samples off_hours_samples].
      rewrite <- !app_assoc. cbn [app].
      split; [reflexivity|]. split; [exact HA|split; [|split]].
      * constructor; [exists x; auto | exact HB].
      * intro H. inversion H as [? ? Hw|? ? Hrest]; subst.
        -- exfalso. destruct Hw as (s' & dt' & _ & _ & Hts' & Hdt' & Hwd' & _).
           rewrite Hts in Hts'. inversion Hts'; subst s'.
           rewrite Hdt in Hdt'. inversion Hdt'; subst dt'. lia.
        -- exact (HneA Hrest).
      * intros _. discriminate.
Qed.

(** The averages of a synthetic history. *)
Lemma time_patterns_synthetic (history : list dict) :
  synthetic fromisoformat history ->
  exists tp,
    analyze_time_patterns fromisoformat history = Ok (Some tp)
    /\ (weekday_avg tp == 100)%Q /\ (weekend_avg tp == 200)%Q
    /\ (business_hours_avg tp == 100)%Q /\ (off_hours_avg tp == 200)%Q.
Proof.
  intros (Hall & Hb & Hw).
  destruct (partition_synthetic history Hall (mkBuckets [] [] [] []))
    as (A & B & Hp & HA & HB & HneA & HneB).
  cbn [weekday_samples weekend_samples business_samples off_hours_samples app]
    in Hp.
  destruct (average_all_equal 100 A (HneA Hb) HA) as (a & Ha & Haq).
  destruct (average_all_equal 200 B (HneB Hw) HB) as (b & Hbv & Hbq).
  unfold analyze_time_patterns.
  destruct history as [|r history]; [inversion Hb|].
  rewrite Hp. cbn [rbind weekday_samples weekend_samples business_samples
                   off_hours_samples].
  rewrite Ha, Hbv. cbn [rbind].
  eexists. split; [reflexivity|]. cbn. auto.
Qed.

End Synthetic.

End BusinessHoursFacts.

Import BusinessHoursFacts.

(** C6, as the code has it.  For a current record that is present and
    whose metrics can be compared, and time patterns with positive
    business-hours and off-hours averages: "Business Hours Congestion"
    is emitted at high confidence exactly when the business-hours average
    is more than 30% below the off-hours average (ratio below 0.7), and
    "Mild Business Hours Impact" at medium confidence exactly when the
    drop is more than 15% and at most 30% (ratio from 0.7 up to, not
    including, 0.85).  For a history made of weekday business-hours
    samples at rate 100 and weekend samples at rate 200, with at least one
    of each, the business-hours average is 100, the off-hours average is
    200 and the high-confidence cause is emitted. *)
Theorem C6_business_hours_congestion
        (fromisoformat : string -> option datetime)
        (state : dict) (history : list dict) (trends : list (string * dict)) :
  state <> [] -> metrics_comparable state ->
  (forall tp,
      (0 < business_hours_avg tp)%Q -> (0 < off_hours_avg tp)%Q ->
      let ratio := (business_hours_avg tp / off_hours_avg tp)%Q in
      exists causes,
        analyze_potential_causes (Some state) history trends (Some tp)
        = Ok causes
        /\ (emitted causes "Business Hours Congestion" "high"
            <-> (ratio < 7 # 10)%Q)
        /\ (emitted causes "Mild Business Hours Impact" "medium"
            <-> (7 # 10 <= ratio)%Q /\ (ratio < 85 # 100)%Q))
  /\ (synthetic fromisoformat history ->
      exists tp causes,
        analyze_time_patterns fromisoformat history = Ok (Some tp)
        /\ (business_hours_avg tp == 100)%Q
        /\ (off_hours_avg tp == 200)%Q
        /\ analyze_potential_causes (Some state) history trends (Some tp)
           = Ok causes
        /\ emitted causes "Business Hours Congestion" "high").
Proof.
  intros Hne Hcmp.
  assert (forall tp,
      (0 < business_hours_avg tp)%Q -> (0 < off_hours_avg tp)%Q ->
      let ratio := (business_hours_avg tp / off_hours_avg tp)%Q in
      exists causes,
        analyze_potential_causes (Some state) history trends (Some tp)
        = Ok causes
        /\ (emitted causes "Business Hours Congestion" "high"
            <-> (ratio < 7 # 10)%Q)
        /\ (emitted causes "Mild Business Hours Impact" "medium"
            <-> (7 # 10 <= ratio)%Q /\ (ratio < 85 # 100)%Q)) as Hgen.
  { intros tp Hb Ho ratio.
    destruct (analyze_business_hours state history trends (Some tp) Hne Hcmp)
      as (causes & Ha & Hem).
    destruct (check_business_hours_cases tp Hb Ho) as (Hhigh & Hmild).
    exists causes. split; [exact Ha|]. split.
    - rewrite Hem; [exact Hhigh|]. cbn. intuition discriminate.
    - rewrite Hem; [exact Hmild|]. cbn. intuition discriminate. }
  split; [exact Hgen|].
  intro Hsyn.
  destruct (time_patterns_synthetic fromisoformat history Hsyn)
    as (tp & Htp & _ & _ & Hbiz & Hoff).
  assert (0 < business_hours_avg tp)%Q as Hb by (rewrite Hbiz; reflexivity).
  assert (0 < off_hours_avg tp)%Q as Ho by (rewrite Hoff; reflexivity).
  destruct (Hgen tp Hb Ho) as (causes & Ha & Hhigh & _).
  exists tp, causes. repeat split; try assumption.
  apply Hhigh. rewrite Hbiz, Hoff. reflexivity.
Qed.

Lemma C6_business_hours_congestion_witness :
  exists tp causes,
    analyze_time_patterns Demo.two_days
                          [Demo.monday_sample; Demo.saturday_sample]
    = Ok (Some tp)
    /\ (business_hours_avg tp == 100)%Q
    /\ (off_hours_avg tp == 200)%Q
    /\ analyze_potential_causes
         (Some [("status", VStr "healthy"); ("ping_loss_pct", VFloat 0)])
         [Demo.monday_sample; Demo.saturday_sample] [] (Some tp)
       = Ok causes
    /\ emitted causes "Business Hours Congestion" "high".
Proof.
  apply (C6_business_hours_congestion Demo.two_days
           [("status", VStr "healthy"); ("ping_loss_pct", VFloat 0)]
           [Demo.monday_sample; Demo.saturday_sample] []).
  - discriminate.
  - unfold metrics_comparable, comparable, throughput_usable.
    cbn. repeat split; discriminate.
  - split; [|split].
    + constructor; [|constructor; [|constructor]].
      * left. exists "2026-01-05T10:00:00", (mkDatetime 0 10), (VInt 100),
                     (inject_Z 100).
        cbn. repeat split; try reflexivity; lia.
      * right. exists "2026-01-10T12:00:00", (mkDatetime 5 12), (VFloat 200),
                      200%Q.
        cbn. repeat split; try reflexivity; lia.
    + apply Exists_cons_hd.
      exists "2026-01-05T10:00:00", (mkDatetime 0 10), (VInt 100),
             (inject_Z 100).
      cbn. repeat split; try reflexivity; lia.
    + apply Exists_cons_tl, Exists_cons_hd.
      exists "2026-01-10T12:00:00", (mkDatetime 5 12), (VFloat 200), 200%Q.
      cbn. repeat split; try reflexivity; lia.
Defined.

(** C6 as stated fails at a drop of exactly 30%: with a business-hours
    average of 70 and an off-hours average of 100 the only cause is
    "Mild Business Hours Impact" at medium confidence. *)
Lemma C6_counterexample :
  let tp := mkPatterns 70 100 70 100 5 2 in
  let state := [("status", VStr "healthy")] in
  (0 < business_hours_avg tp)%Q
  /\ (0 < off_hours_avg tp)%Q
  /\ (business_hours_avg tp <= (1 - (30 # 100)) * off_hours_avg tp)%Q
  /\ analyze_potential_causes (Some state) [] [] (Some tp)
     = Ok [mkCause "Mild Business Hours Impact" "medium"
             (Fixed0 ((1 - 70 / 100) * 100)%Q
                     "% throughput drop during business hours")]
  /\ ~ emitted [mkCause "Mild Business Hours Impact" "medium"
                  (Fixed0 ((1 - 70 / 100) * 100)%Q
                          "% throughput drop during business hours")]
               "Business Hours Congestion" "high".
Proof.
  cbv zeta. split; [reflexivity|]. split; [reflexivity|].
  split; [cbn; discriminate|]. split; [reflexivity|].
  intros (c & [Hc|[]] & Hn & _). subst c. discriminate.
Qed.

(* ===================================================================== *)
(** ** Further properties of the collector and of the diagnostics        *)
(* ===================================================================== *)

Import Py NetworkPerf Diag CollectorSpec CollectorSpec2 DiagSpec DiagSpec2
       PyFacts MonadFacts CollectorFacts ParseFacts BenchmarkFacts
       FallbackFacts InvariantFacts CollectFacts StoreFacts RecommendFacts
       CauseFacts BusinessHoursFacts.

Module ProbeFacts.
Import Py NetworkPerf CollectorSpec CollectorSpec2 PyFacts MonadFacts
       CollectorFacts ParseFacts.

Lemma py_float_raises (s : string) (e : exn) :
  py_float s = Raise e -> e = ValueError.
Proof.
  unfold py_float. destruct (span is_digit s) as [ip rest].
  destruct rest as [|c fp].
  - destruct ip; intro H; inversion H; reflexivity.
  - destruct (Ascii.eqb c "." && all_chars is_digit fp);
      [|intro H; inversion H; reflexivity].
    destruct ip, fp; intro H; inversion H; reflexivity.
Qed.

(** The parse of the packet-loss figure (lines 136-138). *)
Lemma parse_loss_cases (out : string) (w : world) :
  match search_loss out with
  | Some g =>
      lift (rbind (py_float g) (fun l => Ok (mkPing 0 0 0 0 l)))
  | None => ret PingStats_default
  end w
  = (match search_loss out with
     | Some g => rbind (py_float g) (fun l => Ok (mkPing 0 0 0 0 l))
     | None => Ok PingStats_default
     end, w).
Proof. destruct (search_loss out); reflexivity. Qed.

(** A [try] whose handler only returns a value: the world is the one the
    body leaves. *)
Lemma try_except_ret {A} (body : M A) (handles : exn -> bool) (x : A)
      (w : world) :
  try_except body handles (fun _ => ret x) w
  = (match fst (body w) with
     | Ok a => Ok a
     | Raise e => if handles e then Ok x else Raise e
     end, snd (body w)).
Proof.
  unfold try_except. destruct (body w) as [[a|e] w1]; cbn; [reflexivity|].
  destruct (handles e); reflexivity.
Qed.

Ltac split_floats :=
  repeat match goal with
         | |- context [py_float ?g] =>
             let H := fresh "Hf" in
             destruct (py_float g) eqn:H; cbn [rbind lift ret fst snd]
         end.

Lemma measure_ping_world (E : env) (host : string) (count : Z) (w : world) :
  snd (measure_ping E host count w)
  = EvRun (ping_command host count) (count + 10) :: w.
Proof.
  unfold measure_ping. rewrite try_except_ret. cbn [snd].
  unfold bind, run_command, ping_command.
  destruct (subprocess_run E (length w) _ (count + 10)) as [rc out| |];
    cbn [fst snd]; try reflexivity.
  destruct (search_loss (strip out)) as [g|],
           (search_rtt (strip out)) as [[[[g1 g2] g3] g4]|];
    cbn [lift ret]; split_floats; reflexivity.
Qed.

Lemma measure_ping_value (E : env) (host : string) (count : Z) (w : world) :
  match fst (measure_ping E host count w) with
  | Ok p => ping_nonneg p
  | Raise e => e = ValueError
  end.
Proof.
  assert (forall s q, py_float s = Ok q -> (0 <= q)%Q) as Hpos
      by exact py_float_nonneg.
  assert (forall s e, py_float s = Raise e -> e = ValueError) as Hval
      by exact py_float_raises.
  unfold measure_ping. rewrite try_except_ret. cbn [fst].
  unfold bind, run_command, ping_nonneg.
  destruct (subprocess_run E (length w) _ (count + 10)) as [rc out| |];
    cbn [fst snd only_CollectionError];
    try (cbn; repeat split; discriminate).
  destruct (search_loss (strip out)) as [g|],
           (search_rtt (strip out)) as [[[[g1 g2] g3] g4]|];
    cbn [lift ret]; split_floats;
    repeat match goal with
           | H : py_float _ = Ok _ |- _ => apply Hpos in H
           | H : py_float _ = Raise _ |- _ => apply Hval in H; subst
           end;
    cbn; repeat split; auto; discriminate.
Qed.

(** A ping that ran and printed nothing that matches leaves every field
    at its default. *)
Lemma measure_ping_unparsed (E : env) (host : string) (count : Z)
      (w : world) (rc : Z) (out : string) :
  subprocess_run E (length w) (ping_command host count) (count + 10)
  = Completed rc out ->
  search_loss (strip out) = None -> search_rtt (strip out) = None ->
  measure_ping E host count w
  = (Ok PingStats_default,
     EvRun (ping_command host count) (count + 10) :: w).
Proof.
  intros Hrun Hl Hr. unfold measure_ping, try_except, bind, run_command.
  fold (ping_command host count). rewrite Hrun, Hl.
  cbn [ret]. rewrite Hr. reflexivity.
Qed.

(** The retransmit counter never raises and runs one command. *)
Lemma get_tcp_retrans_total (E : env) (w : world) :
  exists n, get_tcp_retrans E w = (Ok n, EvRun nstat_command 60 :: w).
Proof.
  unfold get_tcp_retrans, try_except, bind, run_command, nstat_command.
  destruct (subprocess_run E (length w) _ 60) as [rc out| |];
    cbn [any_exception ret]; try (eexists; reflexivity).
  destruct (2 <=? length (split_ws (strip out)))%nat.
  - unfold lift. destruct (py_int _); eexists; reflexivity.
  - eexists; reflexivity.
Qed.

End ProbeFacts.

Import CollectorSpec2 ProbeFacts.

(** X1. [measure_ping] runs exactly one command, the ping; it either
    returns statistics whose five fields are all non-negative or raises
    [ValueError] (from a malformed number in the round-trip line), and
    never lets a [CollectionError] through. *)
Theorem X1_ping_outcomes (E : env) (host : string) (count : Z) (w : world) :
  snd (measure_ping E host count w)
  = EvRun (ping_command host count) (count + 10) :: w
  /\ match fst (measure_ping E host count w) with
     | Ok p => ping_nonneg p
     | Raise e => e = ValueError
     end.
Proof.
  split; [apply measure_ping_world | apply measure_ping_value].
Qed.

(** X2. When the ping command completes, whatever its exit status, and
    prints nothing that matches the two patterns, the record that
    [_collect_path] returns has a ping with every field 0, loss
    included, and its status is "healthy" or "degraded", never
    "error". *)
Theorem X2_unparsed_ping_is_not_an_error (E : env) (self : collector)
        (source dest pt : string) (user : option string)
        (w w' : world) (s : NetworkPerfStats) (rc : Z) (out : string) :
  subprocess_run E (length (EvNow :: w)) (ping_command dest (ping_count self))
                 (ping_count self + 10) = Completed rc out ->
  search_loss (strip out) = None -> search_rtt (strip out) = None ->
  _collect_path E self source dest pt user w = (Ok s, w') ->
  ping s = Some PingStats_default
  /\ (status s = "healthy" \/ status s = "degraded").
Proof.
  intros Hrun Hl Hr H.
  pose proof (collect_path_result E self source dest pt user w w' s H)
    as (Hst & _).
  unfold _collect_path in H.
  apply bind_ok in H as (now & w1 & Hnow & H).
  unfold datetime_now_iso in Hnow. inversion Hnow; subst now w1; clear Hnow.
  apply bind_ok in H as (p & w2 & Hp & H).
  rewrite (measure_ping_unparsed E dest (ping_count self) (EvNow :: w) rc out
             Hrun Hl Hr) in Hp.
  inversion Hp; subst p w2; clear Hp.
  apply bind_ok in H as ([[cold hot] write] & w3 & _ & H).
  apply ret_ok in H as [H _]. subst s. cbn [ping with_status].
  split; [reflexivity|].
  rewrite Hst. cbn [ping with_status].
  unfold determine_status.
  destruct (is_healthy _); [left; reflexivity|].
  right. reflexivity.
Qed.

Lemma X2_unparsed_ping_is_not_an_error_witness :
  exists s w',
    _collect_path MoreWorlds.silent_env (Demo.quick_collector []) "localhost"
                  "nowhere" "switch" None [] = (Ok s, w')
    /\ ping s = Some PingStats_default
    /\ (status s = "healthy" \/ status s = "degraded").
Proof.
  eexists. eexists. split; [vm_compute; reflexivity|].
  eapply (X2_unparsed_ping_is_not_an_error MoreWorlds.silent_env
            (Demo.quick_collector []) "localhost" "nowhere" "switch" None []
            _ _ 2 EmptyString); vm_compute; reflexivity.
Defined.

(** X3. [get_tcp_retrans] never raises and runs exactly one command; a
    result other than 0 is the integer read from the second
    whitespace-separated token of what that command printed. *)
Theorem X3_retransmit_counter (E : env) (w : world) :
  exists n,
    get_tcp_retrans E w = (Ok n, EvRun nstat_command 60 :: w)
    /\ (n <> 0 ->
        exists rc out,
          subprocess_run E (length w) nstat_command 60 = Completed rc out
          /\ py_int (nth 1 (split_ws (strip out)) EmptyString) = Ok n).
Proof.
  unfold get_tcp_retrans, try_except, bind, run_command, nstat_command.
  destruct (subprocess_run E (length w) _ 60) as [rc out| |];
    cbn [any_exception ret];
    try (exists 0; split; [reflexivity | congruence]).
  destruct (2 <=? length (split_ws (strip out)))%nat.
  - unfold lift. destruct (py_int _) as [n|e] eqn:Hn.
    + exists n. split; [reflexivity|]. intros _. exists rc, out. auto.
    + exists 0. split; [reflexivity | congruence].
  - exists 0. split; [reflexivity | congruence].
Qed.

Module PhaseFacts.
Import Py NetworkPerf CollectorSpec CollectorSpec2 PyFacts MonadFacts
       BenchmarkFacts FallbackFacts InvariantFacts ProbeFacts.

Lemma bind_run {A B} (m : M A) (k : A -> M B) (w w1 : world) (a : A) :
  m w = (Ok a, w1) -> bind m k w = k a w1.
Proof. intro H. unfold bind. rewrite H. reflexivity. Qed.

Lemma bind_raise {A B} (m : M A) (k : A -> M B) (w w1 : world) (e : exn) :
  m w = (Raise e, w1) -> bind m k w = (Raise e, w1).
Proof. intro H. unfold bind. rewrite H. reflexivity. Qed.

(** A successful timed transfer reports the planned volume and no
    retransmit. *)
Lemma timed_transfer_fields (E : env) (cmd : string) (total : Z)
      (w w' : world) (t : ThroughputStats) :
  timed_transfer E cmd total w = (Ok (Some t), w') ->
  bytes_transferred t = total /\ tcp_retrans t = 0.
Proof.
  intro H. unfold timed_transfer in H.
  apply bind_ok in H as (start & w1 & _ & H).
  apply try_except_ok_inv in H as [H|H]; [|discriminate].
  apply bind_ok in H as (out & w2 & _ & H).
  apply bind_ok in H as (stop & w3 & _ & H).
  destruct (Qeqb0 _); [discriminate|].
  apply ret_ok in H as [H _]. inversion H. split; reflexivity.
Qed.

Lemma timed_transfer_total (E : env) (cmd : string) (total : Z) (w : world) :
  exists r w', timed_transfer E cmd total w = (Ok r, w').
Proof.
  destruct (timed_transfer_events E cmd total w) as (r & new & H & _).
  exists r, (new ++ w)%list. exact H.
Qed.

(** The hot-cache loop appends at most one result per run, each with the
    planned volume and no retransmit. *)
Lemma hot_cache_loop_shape (E : env) (cmd : string) (total : Z) :
  forall runs acc w,
  exists new w',
    hot_cache_loop E cmd total runs acc w = (Ok (acc ++ new)%list, w')
    /\ (length new <= length runs)%nat
    /\ Forall (fun t => bytes_transferred t = total /\ tcp_retrans t = 0) new.
Proof.
  induction runs as [|run runs IH]; intros acc w.
  - exists [], w. cbn. rewrite app_nil_r. repeat split; constructor.
  - cbn [hot_cache_loop].
    destruct (timed_transfer_total E cmd total w) as (r & w1 & Hr).
    rewrite (bind_run _ _ _ _ _ Hr).
    assert (exists w2, (if run <? 2 then sleep 5 else ret tt) w1 = (Ok tt, w2))
      as (w2 & Hs) by (destruct (run <? 2); eexists; reflexivity).
    rewrite (bind_run _ _ _ _ _ Hs).
    destruct r as [t|].
    + destruct (IH (acc ++ [t])%list w2) as (new & w' & H & Hlen & Hall).
      exists (t :: new), w'. rewrite H, <- app_assoc. split; [reflexivity|].
      split; [cbn; lia|]. constructor; [|exact Hall].
      exact (timed_transfer_fields E cmd total w w1 t Hr).
    + destruct (IH acc w2) as (new & w' & H & Hlen & Hall).
      exists new, w'. split; [exact H|]. split; [cbn; lia | exact Hall].
Qed.

Lemma flush_caches_total (E : env) (host user : option string) (w : world) :
  exists b w', flush_caches E host user w = (Ok b, w').
Proof. apply try_except_any_total. Qed.

Lemma lock_in_cache_total (E : env) (files : list string) (w : world) :
  exists b w', lock_in_cache E files w = (Ok b, w').
Proof.
  unfold lock_in_cache, try_except at 1.
  destruct (bind _ _ w) as [[b|e] w1].
  - exists b, w1. reflexivity.
  - cbn [any_exception]. apply try_except_any_total.
Qed.

Lemma hot_cache_phase_total (E : env) (files : list string) (dest : string)
      (total : Z) (w : world) :
  exists runs w', hot_cache_phase E files dest total w = (Ok runs, w').
Proof.
  unfold hot_cache_phase.
  destruct (lock_in_cache_total E files w) as (b & w1 & Hl).
  rewrite (bind_run _ _ _ _ _ Hl).
  destruct (hot_cache_loop_shape E (discard_cmd files dest) total (range 3)
              [] w1) as (runs & w2 & H & _).
  exists runs, w2. exact H.
Qed.

Lemma generate_files_total (E : env) (directory : string) (size_mb : Z) :
  (forall n path size, write_file E n path size = Ok tt) ->
  forall idx files w,
  exists fs w', generate_files_loop E directory size_mb idx files w = (Ok fs, w').
Proof.
  intro Hw. induction idx as [|i idx IH]; intros files w.
  - exists files, w. reflexivity.
  - cbn [generate_files_loop]. unfold bind at 1. rewrite Hw. apply IH.
Qed.

Lemma sumZ_constant (total : Z) (l : list ThroughputStats) :
  Forall (fun t => bytes_transferred t = total /\ tcp_retrans t = 0) l ->
  forall acc,
    fold_left Z.add (map bytes_transferred l) acc
    = acc + Z.of_nat (length l) * total.
Proof.
  induction 1 as [|t l [Ht _] _ IH]; intro acc; cbn [map fold_left length].
  - lia.
  - rewrite IH, Ht. lia.
Qed.

Lemma int_of_float_exact (k : positive) (total : Z) :
  int_of_float (inject_Z (Zpos k * total) / inject_Z (Zpos k))%Q = total.
Proof.
  unfold int_of_float, Qdiv, Qmult, Qinv, inject_Z.
  cbn [Qnum Qden]. rewrite Z.mul_1_r, Pos.mul_1_l.
  rewrite Z.mul_comm. apply Z.quot_mul. discriminate.
Qed.

(** The average of runs that all moved the planned volume reports that
    volume and no retransmit. *)
Lemma hot_cache_average_fields (total : Z) (runs : list ThroughputStats)
      (avg : ThroughputStats) :
  Forall (fun t => bytes_transferred t = total /\ tcp_retrans t = 0) runs ->
  hot_cache_average runs = Some avg ->
  bytes_transferred avg = total /\ tcp_retrans avg = 0.
Proof.
  intros Hall H. destruct runs as [|t runs]; [discriminate|].
  unfold hot_cache_average in H. inversion H; subst avg; clear H.
  cbn [bytes_transferred tcp_retrans]. split; [|reflexivity].
  unfold sumZ. rewrite (sumZ_constant total _ Hall).
  unfold lenQ. cbn [length]. rewrite Z.add_0_l.
  destruct (Z.of_nat (S (length runs))) as [|k|k] eqn:Hk; try lia.
  apply int_of_float_exact.
Qed.

(** The parts of a result of the full benchmark that ran its phases. *)
Lemma full_results_inv (E : env) (host : string) (user : option string)
      (nf fs : Z) (w w' : world) (r : full_results) :
  measure_throughput_full E host user nf fs w = (Ok r, w') ->
  r = pv_missing
  \/ exists cold runs write w1 w2 w3 w4 w5 w6 cmd1 cmd2 tcp_start tcp_end,
       timed_transfer E cmd1 (nf * fs * 1024 * 1024) w1 = (Ok cold, w2)
       /\ hot_cache_loop E cmd1 (nf * fs * 1024 * 1024) (range 3) [] w3
          = (Ok runs, w4)
       /\ timed_transfer E cmd2 (nf * fs * 1024 * 1024) w5 = (Ok write, w6)
       /\ r = mkFull cold runs (hot_cache_average runs) write
                     (Z.max 0 (tcp_end - tcp_start)) None.
Proof.
  intro H. unfold measure_throughput_full in H.
  apply bind_ok in H as (pv & w1 & _ & H).
  destruct pv; cbn [negb] in H.
  2:{ apply ret_ok in H as [H _]. left. symmetry. exact H. }
  right.
  apply bind_ok in H as (test_dir & w2 & _ & H).
  apply try_finally_ok in H as (w3 & H).
  apply bind_ok in H as (files & w4 & _ & H).
  apply bind_ok in H as (tcp_start & w5 & _ & H).
  apply bind_ok in H as (f1 & w6 & _ & H).
  apply bind_ok in H as (f2 & w7 & _ & H).
  apply bind_ok in H as (cold & w8 & Hcold & H).
  apply bind_ok in H as (runs & w9 & Hruns & H).
  apply bind_ok in H as (f3 & w10 & _ & H).
  apply bind_ok in H as (f4 & w11 & _ & H).
  apply bind_ok in H as (lk & w12 & _ & H).
  apply bind_ok in H as (write & w13 & Hwrite & H).
  apply bind_ok in H as (tcp_end & w14 & _ & H).
  apply ret_ok in H as [H _].
  unfold hot_cache_phase in Hruns.
  apply bind_ok in Hruns as (lk0 & w15 & _ & Hruns).
  exists cold, runs, write, w7, w8, w15, w9, w12, w13.
  eexists. eexists. exists tcp_start, tcp_end.
  split; [exact Hcold|]. split; [exact Hruns|]. split; [exact Hwrite|].
  symmetry. exact H.
Qed.

(** The shape of a result of the full benchmark. *)
Lemma benchmark_result_shape (E : env) (host : string)
        (user : option string) (nf fs : Z) (w w' : world) (r : full_results) :
  measure_throughput_full E host user nf fs w = (Ok r, w') ->
  (length (hot_cache_runs r) <= 3)%nat
  /\ (hot_cache_avg r = None <-> hot_cache_runs r = [])
  /\ (forall t, In t (phase_results r) ->
        bytes_transferred t = nf * fs * 1024 * 1024 /\ tcp_retrans t = 0)
  /\ 0 <= tcp_retrans_total r.
Proof.
  intro H. apply full_results_inv in H as [->|H].
  { cbn. repeat split; intros; auto; try lia; try contradiction. }
  destruct H as (cold & runs & write & w1 & w2 & w3 & w4 & w5 & w6 & cmd1
                 & cmd2 & t0 & t1 & Hcold & Hruns & Hwrite & ->).
  destruct (hot_cache_loop_shape E cmd1 (nf * fs * 1024 * 1024) (range 3) [] w3)
    as (new & w4' & Hloop & Hlen & Hall).
  rewrite Hruns in Hloop. inversion Hloop; subst runs w4'; clear Hloop.
  cbn [app] in *.
  cbn [hot_cache_runs hot_cache_avg tcp_retrans_total].
  split; [exact Hlen|]. split; [|split; [|lia]].
  - destruct new; cbn; split; intro; congruence.
  - intros t Hin. unfold phase_results in Hin.
    cbn [cold_cache hot_cache_runs hot_cache_avg true_write] in Hin.
    rewrite Forall_forall in Hall.
    apply in_app_or in Hin as [Hin|Hin].
    { destruct cold as [c|]; [|destruct Hin].
      destruct Hin as [<-|[]]. eapply timed_transfer_fields; eauto. }
    apply in_app_or in Hin as [Hin|Hin]; [exact (Hall t Hin)|].
    apply in_app_or in Hin as [Hin|Hin].
    { destruct (hot_cache_average new) as [avg|] eqn:Ha; [|destruct Hin].
      destruct Hin as [<-|[]].
      apply (hot_cache_average_fields _ new avg); [|exact Ha].
      apply Forall_forall. exact Hall. }
    destruct write as [c|]; [|destruct Hin].
    destruct Hin as [<-|[]]. eapply timed_transfer_fields; eauto.
Qed.

End PhaseFacts.

Import PhaseFacts.

(** X4. Once the scratch directory exists, [measure_throughput_full]
    removes it as its last action whether it returns or raises; and when
    the directory cannot be created the exception goes to the caller and
    no file is written. *)
Theorem X4_scratch_directory_removed (E : env) (host : string)
        (user : option string) (nf fs : Z) (w : world) (out : string) :
  fst (run_command E "which pv" 60 w) = Ok out ->
  let w1 := EvMkdtemp "nomad_nettest_" :: EvRun "which pv" 60 :: w in
  match mkdtemp E (S (length w)) "nomad_nettest_" with
  | Ok test_dir =>
      exists r w2,
        measure_throughput_full E host user nf fs w
        = (r, EvRmtree test_dir :: w2)
  | Raise e => measure_throughput_full E host user nf fs w = (Raise e, w1)
  end.
Proof.
  intros Hpv w1. subst w1.
  unfold measure_throughput_full.
  assert (try_except (bind (run_command E "which pv" 60) (fun _ => ret true))
                     any_exception (fun _ => ret false) w
          = (Ok true, EvRun "which pv" 60 :: w)) as Hprobe.
  { unfold try_except, bind, run_command in *.
    destruct (subprocess_run E (length w) "which pv" 60);
      cbn in Hpv; try discriminate; reflexivity. }
  rewrite (bind_run _ _ _ _ _ Hprobe). cbn [negb].
  destruct (mkdtemp E (S (length w)) "nomad_nettest_") as [d|e] eqn:Hd.
  2:{ apply bind_raise. cbn [length]. rewrite Hd. reflexivity. }
  erewrite bind_run; [|cbn [length]; rewrite Hd; reflexivity].
  unfold try_finally.
  match goal with |- context [let (r, w') := ?b in _] =>
    destruct b as [r w2] end.
  exists r, w2. reflexivity.
Qed.

Lemma X4_scratch_directory_removed_witness :
  exists r w2,
    measure_throughput_full Demo.full_disk_env "storage" None 3 10 []
    = (r, EvRmtree "/tmp/nomad_nettest_abc" :: w2).
Proof.
  apply (X4_scratch_directory_removed Demo.full_disk_env "storage" None 3 10
           [] EmptyString).
  reflexivity.
Defined.

(** X5. [measure_throughput_full] can raise only from the file system:
    when the scratch directory can be created and the test files can be
    written, it returns a result whatever the commands of the benchmark
    do (time out, fail to run, or print anything). *)
Theorem X5_benchmark_survives_commands (E : env) (host : string)
        (user : option string) (nf fs : Z) (w : world) :
  (forall n pfx, exists d, mkdtemp E n pfx = Ok d) ->
  (forall n path size, write_file E n path size = Ok tt) ->
  exists r w', measure_throughput_full E host user nf fs w = (Ok r, w').
Proof.
  intros Hmk Hwr. unfold measure_throughput_full.
  destruct (try_except_any_total
              (bind (run_command E "which pv" 60) (fun _ => ret true)) false w)
    as (pv & w1 & Hpv).
  rewrite (bind_run _ _ _ _ _ Hpv).
  destruct pv; cbn [negb]; [|eexists; eexists; reflexivity].
  destruct (Hmk (length w1) "nomad_nettest_") as (d & Hd).
  erewrite bind_run; [|rewrite Hd; reflexivity].
  unfold try_finally.
  destruct (generate_files_total E d fs Hwr (range nf) []
              (EvMkdtemp "nomad_nettest_" :: w1)) as (files & w2 & Hg).
  unfold generate_random_files. rewrite (bind_run _ _ _ _ _ Hg).
  destruct (get_tcp_retrans_total E w2) as (t0 & H0).
  rewrite (bind_run _ _ _ _ _ H0).
  destruct (flush_caches_total E None None (EvRun nstat_command 60 :: w2))
    as (b1 & w3 & H1).
  rewrite (bind_run _ _ _ _ _ H1).
  destruct (flush_caches_total E (Some host) user w3) as (b2 & w4 & H2).
  rewrite (bind_run _ _ _ _ _ H2).
  destruct (timed_transfer_total E (discard_cmd files (dest_of user host))
              (nf * fs * 1024 * 1024) w4) as (cold & w5 & H3).
  rewrite (bind_run _ _ _ _ _ H3).
  destruct (hot_cache_phase_total E files (dest_of user host)
              (nf * fs * 1024 * 1024) w5) as (runs & w7 & H5).
  rewrite (bind_run _ _ _ _ _ H5).
  destruct (flush_caches_total E None None w7) as (b4 & w8 & H6).
  rewrite (bind_run _ _ _ _ _ H6).
  destruct (flush_caches_total E (Some host) user w8) as (b5 & w9 & H7).
  rewrite (bind_run _ _ _ _ _ H7).
  destruct (lock_in_cache_total E files w9) as (b6 & w10 & H8).
  rewrite (bind_run _ _ _ _ _ H8).
  destruct (timed_transfer_total E (write_cmd files (dest_of user host))
              (nf * fs * 1024 * 1024) w10) as (wr & w11 & H9).
  rewrite (bind_run _ _ _ _ _ H9).
  destruct (get_tcp_retrans_total E w11) as (t1 & H10).
  rewrite (bind_run _ _ _ _ _ H10).
  eexists. eexists. reflexivity.
Qed.

Lemma dead_env_writes : forall n path size,
    write_file Demo.dead_env n path size = Ok tt.
Proof. reflexivity. Qed.

Lemma X5_benchmark_survives_commands_witness :
  exists r w',
    measure_throughput_full Demo.dead_env "storage" None 3 10 [] = (Ok r, w').
Proof.
  apply (X5_benchmark_survives_commands Demo.dead_env "storage" None 3 10 []).
  - intros n pfx. eexists. reflexivity.
  - exact dead_env_writes.
Defined.

(** X6. In a result of the full benchmark: at most three hot runs are
    kept; the hot average is present exactly when at least one hot run
    succeeded; every result that is present, the average included,
    reports num_files * file_size_mb * 1024 * 1024 bytes and 0
    retransmits; and the total retransmit count is not negative. *)
Theorem X6_benchmark_result_shape (E : env) (host : string)
        (user : option string) (nf fs : Z) (w w' : world) (r : full_results) :
  measure_throughput_full E host user nf fs w = (Ok r, w') ->
  (length (hot_cache_runs r) <= 3)%nat
  /\ (hot_cache_avg r = None <-> hot_cache_runs r = [])
  /\ (forall t, In t (phase_results r) ->
        bytes_transferred t = nf * fs * 1024 * 1024 /\ tcp_retrans t = 0)
  /\ 0 <= tcp_retrans_total r.
Proof. apply benchmark_result_shape. Qed.

Lemma X6_benchmark_result_shape_witness :
  exists r w',
    measure_throughput_full Demo.quiet_env "storage" None 3 10 [] = (Ok r, w')
    /\ length (hot_cache_runs r) = 3%nat
    /\ forall t, In t (phase_results r) ->
                 bytes_transferred t = 31457280 /\ tcp_retrans t = 0.
Proof.
  eexists. eexists. split; [vm_compute; reflexivity|].
  split; [reflexivity|].
  eapply (X6_benchmark_result_shape Demo.quiet_env "storage" None 3 10 []).
  vm_compute. reflexivity.
Defined.

Module RecordFacts.
Import Py NetworkPerf CollectorSpec CollectorSpec2 PyFacts MonadFacts
       CollectorFacts FallbackFacts InvariantFacts CollectFacts StoreFacts
       ProbeFacts PhaseFacts.

Lemma iperf_retrans (E : env) (host : string) (d : Z) (w w' : world)
      (t : ThroughputStats) :
  measure_throughput_iperf E host d w = (Ok (Some t), w') ->
  0 <= tcp_retrans t.
Proof.
  intro H. unfold measure_throughput_iperf in H.
  apply try_except_ok_inv in H as [H|H]; [|discriminate].
  apply bind_ok in H as (_ & w1 & _ & H).
  apply bind_ok in H as (rb & w2 & _ & H).
  apply bind_ok in H as (out & w3 & _ & H).
  apply bind_ok in H as (ra & w4 & _ & H).
  destruct (iperf_json E out) as [[sent|]|]; try discriminate;
    apply ret_ok in H as [H _]; inversion H; cbn; lia.
Qed.

Lemma ssh_retrans (E : env) (host : string) (user : option string)
      (size : Z) (w w' : world) (t : ThroughputStats) :
  measure_throughput_ssh E host user size w = (Ok (Some t), w') ->
  0 <= tcp_retrans t.
Proof.
  intro H. unfold measure_throughput_ssh in H.
  apply try_except_ok_inv in H as [H|H]; [|discriminate].
  apply bind_ok in H as (_ & w1 & _ & H).
  apply bind_ok in H as (rb & w2 & _ & H).
  apply bind_ok in H as (out & w3 & _ & H).
  apply bind_ok in H as (ra & w4 & _ & H).
  apply bind_ok in H as (bytes & w5 & _ & H).
  apply ret_ok in H as [H _]. inversion H. cbn. lia.
Qed.

(** What [collect_one] appends for an entry that has a [dest]. *)
Lemma collect_one_record (E : env) (self : collector) (t : test_config)
      (w w' : world) (rs : list dict) :
  collect_one E self t w = (Ok rs, w') ->
  if has_dest t then
    exists c dest,
      rs = [record_of c] /\ timestamped c /\ tc_dest t = Some dest
      /\ dict_get "source_host" (record_of c) = VStr (source_of E t)
      /\ dict_get "dest_host" (record_of c) = VStr dest
      /\ dict_get "path_type" (record_of c) = VStr (path_type_of t)
      /\ (dict_get "status" (record_of c) = VStr "healthy"
          \/ dict_get "status" (record_of c) = VStr "degraded"
          \/ dict_get "status" (record_of c) = VStr "error")
  else rs = [].
Proof.
  intro H. destruct (has_dest t) eqn:Hd.
  - destruct (collect_one_collected E self t w Hd)
      as (dest & r & w1 & Hdest & Hone & Hr).
    rewrite Hone in H. inversion H; subst rs w'; clear H.
    destruct (_collect_path E self (source_of E t) dest (path_type_of t)
                            (tc_user t) w) as [[stats|e] w2] eqn:Hp.
    + destruct Hr as [-> _].
      destruct (collect_path_result E self _ _ _ _ _ _ _ Hp)
        as (Hst & _ & Hsrc & Hdst & Hpt & Hts).
      exists (Measured stats), dest. cbn [record_of timestamped].
      split; [reflexivity|]. split; [exact Hts|]. split; [exact Hdest|].
      unfold dict_get, to_dict. cbn. rewrite Hsrc, Hdst, Hpt.
      repeat split. rewrite Hst. unfold determine_status.
      destruct (is_healthy stats); [auto|].
      destruct (match ping stats with
                | Some p => Qltb (loss_pct p) 10
                | None => false
                end); auto.
    + destruct Hr as [-> _].
      exists (Failed (source_of E t) dest (path_type_of t)
                     (datetime_now E (length w2))), dest.
      cbn. repeat split; auto.
  - rewrite (collect_one_skipped E self t w Hd) in H. inversion H. reflexivity.
Qed.

Lemma collect_loop_step (E : env) (self : collector) (t : test_config)
      (tests : list test_config) (w : world) :
  exists r1 w1 rest w2,
    collect_one E self t w = (Ok r1, w1)
    /\ collect_loop E self tests [] w1 = (Ok rest, w2)
    /\ collect_loop E self (t :: tests) [] w = (Ok (r1 ++ rest)%list, w2).
Proof.
  destruct (collect_one_total E self t w) as (r1 & w1 & H1 & _).
  destruct (collect_loop_appends E self tests r1 w1) as (rs & w' & Hn & Hr & _).
  exists r1, w1, rs, w'. split; [exact H1|]. split; [exact Hn|].
  cbn [collect_loop]. unfold bind. rewrite H1. cbn [app]. exact Hr.
Qed.

Lemma collect_loop_records (E : env) (self : collector)
      (tests : list test_config) :
  forall w rs w',
    collect_loop E self tests [] w = (Ok rs, w') ->
    exists cs,
      rs = map record_of cs
      /\ Forall timestamped cs
      /\ map record_identity rs
         = map (entry_identity E) (filter has_dest tests)
      /\ Forall known_status rs.
Proof.
  induction tests as [|t tests IH]; intros w rs w' H.
  - apply ret_ok in H as [<- _]. exists []. repeat split; constructor.
  - destruct (collect_loop_step E self t tests w)
      as (r1 & w1 & rest & w2 & H1 & Hrest & Hall).
    rewrite Hall in H. inversion H; subst rs w'; clear H.
    destruct (IH w1 rest w2 Hrest) as (cs & -> & Hts & Hid & Hst).
    pose proof (collect_one_record E self t w w1 r1 H1) as Hone.
    cbn [filter]. destruct (has_dest t).
    + destruct Hone as (c & dest & -> & Hc & Hdest & Hsrc & Hdst & Hpt & Hs).
      exists (c :: cs). cbn [map app]. split; [reflexivity|].
      split; [constructor; assumption|]. split.
      * f_equal; [|exact Hid].
        unfold record_identity, entry_identity.
        rewrite Hsrc, Hdst, Hpt, Hdest. reflexivity.
      * constructor; assumption.
    + subst r1. exists cs. cbn [app]. repeat split; assumption.
Qed.

End RecordFacts.

Import RecordFacts.

(** X8. In a record returned by [_collect_path] the retransmit count is
    carried by the hot-cache slot alone: the cold-cache and true-write
    results always have [tcp_retrans = 0], the hot-cache result has a
    count that is never negative, and in quick mode the cold and write
    slots are empty. *)
Theorem X8_retransmits_on_hot_slot (E : env) (self : collector)
        (source dest pt : string) (user : option string)
        (w w' : world) (s : NetworkPerfStats) :
  _collect_path E self source dest pt user w = (Ok s, w') ->
  (forall t, throughput_cold s = Some t -> tcp_retrans t = 0)
  /\ (forall t, throughput_write s = Some t -> tcp_retrans t = 0)
  /\ (forall t, throughput_hot s = Some t -> 0 <= tcp_retrans t)
  /\ (full_test self = false ->
      throughput_cold s = None /\ throughput_write s = None).
Proof.
  intro H. unfold _collect_path in H.
  apply bind_ok in H as (now & w1 & _ & H).
  apply bind_ok in H as (p & w2 & _ & H).
  apply bind_ok in H as ([[cold hot] write] & w3 & Hthr & H).
  apply ret_ok in H as [H _]. subst s.
  cbn [throughput_cold throughput_hot throughput_write with_status].
  destruct (full_test self).
  - apply bind_ok in Hthr as (full & w4 & Hfull & Hthr).
    apply ret_ok in Hthr as [Hthr _]. inversion Hthr; subst; clear Hthr.
    destruct (benchmark_result_shape E dest user (num_files self) (file_size_mb self)
                        w2 w4 full Hfull) as (_ & _ & Hall & Htot).
    unfold phase_results in Hall.
    split; [|split; [|split; [|discriminate]]].
    + intros t Ht. apply Hall. rewrite Ht. cbn. auto.
    + intros t Ht. apply Hall. rewrite Ht.
      apply in_or_app. right. apply in_or_app. right.
      apply in_or_app. right. cbn. auto.
    + intros t Ht.
      destruct (negb (tcp_retrans_total full =? 0)).
      * destruct (hot_cache_avg full); inversion Ht. cbn. exact Htot.
      * assert (tcp_retrans t = 0) as ->; [|lia].
        apply Hall. rewrite Ht.
        apply in_or_app. right. apply in_or_app. right.
        apply in_or_app. left. cbn. auto.
  - apply bind_ok in Hthr as (h1 & w4 & Hi & Hthr).
    apply bind_ok in Hthr as (h2 & w5 & Hs & Hthr).
    apply ret_ok in Hthr as [Hthr _]. inversion Hthr; subst; clear Hthr.
    split; [discriminate|]. split; [discriminate|]. split; [|auto].
    intros t Ht. subst hot. destruct h1 as [t1|].
    + apply ret_ok in Hs as [Hs _]. inversion Hs; subst.
      exact (iperf_retrans E dest _ w2 w4 t Hi).
    + exact (ssh_retrans E dest user 50 w4 w5 t Hs).
Qed.

Lemma X8_retransmits_on_hot_slot_witness :
  exists s w',
    _collect_path Demo.quiet_env (Demo.quick_collector []) "localhost"
                  "storage" "switch" None [] = (Ok s, w')
    /\ throughput_cold s = None /\ throughput_write s = None
    /\ forall t, throughput_hot s = Some t -> 0 <= tcp_retrans t.
Proof.
  eexists. eexists. split; [vm_compute; reflexivity|].
  split; [reflexivity|]. split; [reflexivity|].
  eapply (X8_retransmits_on_hot_slot Demo.quiet_env (Demo.quick_collector [])
            "localhost" "storage" "switch" None []).
  vm_compute. reflexivity.
Defined.

(** X9. The records of [collect] follow the configuration: in the order
    of the entries that have a [dest], each record carries the source
    (the local host name when the entry names none), the dest and the
    path type ("unknown" when the entry names none) of its entry, and
    its status is "healthy", "degraded" or "error", never "unknown". *)
Theorem X9_records_follow_configuration (E : env) (self : collector)
        (w w' : world) (rs : list dict) :
  collect E self w = (Ok rs, w') ->
  map record_identity rs
  = map (entry_identity E) (filter has_dest (network_tests self))
  /\ Forall known_status rs.
Proof.
  intro H. unfold collect in H.
  destruct (collect_loop_records E self (network_tests self) w rs w' H)
    as (cs & _ & _ & Hid & Hst).
  split; assumption.
Qed.

Lemma X9_records_follow_configuration_witness :
  exists rs w',
    collect Demo.full_disk_env
            (Demo.full_collector
               [Demo.storage_test; mkTest None None None None;
                mkTest None (Some "nas") None None]) [] = (Ok rs, w')
    /\ map record_identity rs
       = map (entry_identity Demo.full_disk_env)
             [Demo.storage_test; mkTest None (Some "nas") None None]
    /\ Forall known_status rs.
Proof.
  eexists. eexists. split; [vm_compute; reflexivity|].
  eapply (X9_records_follow_configuration Demo.full_disk_env
            (Demo.full_collector
               [Demo.storage_test; mkTest None None None None;
                mkTest None (Some "nas") None None]) []).
  vm_compute. reflexivity.
Defined.

Module RowFacts.
Import Py NetworkPerf Diag CollectorSpec CollectorSpec2 DiagSpec DiagSpec2
       PyFacts MonadFacts CollectorFacts CollectFacts StoreFacts CauseFacts
       BusinessHoursFacts RecordFacts.

Lemma with_write_same (c : collected) :
  exists wr, with_write c wr = c.
Proof.
  destruct c as [s|source dest pt now].
  - exists (throughput_write s). destruct s; reflexivity.
  - exists None. reflexivity.
Qed.

Lemma row_identity (ts : string) (c : collected) (r : row) :
  timestamped c ->
  row_of_record ts (record_of c) = Ok r ->
  identity_columns r = identity_fields (record_of c).
Proof.
  destruct c as [s|source dest pt now]; intros Hts H.
  - destruct s as [src dst pt tstamp pg cold hot wr st]. cbn in Hts.
    destruct tstamp as [t|]; [|congruence].
    destruct pg, cold, hot; inversion H; reflexivity.
  - inversion H. reflexivity.
Qed.

Lemma insert_records_identity (ts : string) (cs : list collected) :
  Forall timestamped cs ->
  forall table,
  exists rows,
    insert_records ts (map record_of cs) table = Ok (table ++ rows)%list
    /\ map identity_columns rows = map identity_fields (map record_of cs).
Proof.
  intros Hts table.
  destruct (insert_records_collected ts cs Hts table) as (rows & Hins & Hall).
  exists rows. split; [exact Hins|]. clear Hins.
  induction Hall as [|c r cs rows [_ Hwr] _ IH]; [reflexivity|].
  inversion Hts; subst. cbn [map]. f_equal; [|apply IH; assumption].
  destruct (with_write_same c) as (wr & Hsame).
  specialize (Hwr wr). rewrite Hsame in Hwr.
  exact (row_identity ts c r H1 Hwr).
Qed.

(** The row of a record without a ping result or without a throughput
    result cannot be analysed. *)
Lemma undiagnosable_row (ts : string) (c : collected) (r : row)
      (history : list dict) (trends : list (string * dict))
      (tp : option time_patterns) :
  row_of_record ts (record_of c) = Ok r ->
  diagnosable c = false ->
  analyze_potential_causes (Some (state_of_row r)) history trends tp
  = Raise TypeError.
Proof.
  destruct c as [s|source dest pt now].
  - destruct s as [src dst pt tstamp pg cold hot wr st].
    destruct pg, cold, hot; intros H Hd; try discriminate;
      inversion H; subst r; clear H.
    + unfold analyze_potential_causes, state_of_row. cbn -[Qltb].
      repeat match goal with
             | |- context [Qltb ?a ?b] => destruct (Qltb a b); cbn -[Qltb]
             end; reflexivity.
    + reflexivity.
    + reflexivity.
    + reflexivity.
    + reflexivity.
  - intros H _. inversion H. reflexivity.
Qed.

Lemma diagnosable_row (ts : string) (c : collected) (r : row) :
  row_of_record ts (record_of c) = Ok r ->
  diagnosable c = true ->
  state_of_row r <> [] /\ metrics_comparable (state_of_row r).
Proof.
  destruct c as [s|source dest pt now]; [|discriminate].
  destruct s as [src dst pt tstamp pg cold hot wr st].
  destruct pg, cold, hot; intros H Hd; try discriminate;
    inversion H; subst r; clear H;
    (split; [discriminate|]);
    unfold metrics_comparable, comparable, throughput_usable; cbn;
    repeat split; intros; discriminate.
Qed.

Lemma Qltb_weaken (a b x : Q) :
  (a <= b)%Q -> Qltb a x = false -> Qltb b x = false.
Proof.
  intros Hab H. apply Qltb_false in H. apply Qltb_false.
  eapply Qle_trans; eassumption.
Qed.

Lemma named_in_app (names : list string) (l1 l2 : list cause_entry) :
  named_in names l1 -> named_in names l2 -> named_in names (l1 ++ l2).
Proof. intros H1 H2. apply Forall_app. split; assumption. Qed.

Lemma check_retrans_names (state : dict) (l : list cause_entry) :
  check_retrans state = Ok l -> named_in beyond_ping_and_rate l.
Proof.
  unfold check_retrans.
  destruct (py_gt _ 100) as [[|]|]; cbn [rbind]; try discriminate.
  - intro H. inversion H. name_check.
  - destruct (py_gt _ 10) as [[|]|]; cbn [rbind]; try discriminate;
      intro H; inversion H; name_check.
Qed.

Lemma check_business_hours_names (tp : option time_patterns) :
  named_in beyond_ping_and_rate (check_business_hours tp).
Proof.
  destruct tp as [tp|]; [|constructor]. unfold check_business_hours.
  destruct (_ && _); [|constructor].
  destruct (Qltb _ (7 # 10)); [name_check|].
  destruct (Qltb _ (85 # 100)); [name_check|constructor].
Qed.

Lemma check_trends_beyond (trends : list (string * dict)) :
  named_in beyond_ping_and_rate (check_trends trends).
Proof.
  unfold check_trends.
  destruct (trend_is trends "throughput" "decreasing");
    destruct (trend_is trends "latency" "increasing"); name_check.
Qed.

Lemma or_no_issue_beyond (l : list cause_entry) :
  named_in beyond_ping_and_rate l ->
  named_in beyond_ping_and_rate (or_no_issue l).
Proof. destruct l; [intros _; name_check | auto]. Qed.

End RowFacts.

Import RowFacts.

(** X10. When [store] returns for the records of [collect], it has
    appended, after the rows already in the table, one row per record in
    the same order, and each row carries the timestamp, source, dest,
    path type and status of its record: the stored timestamp is the time
    of the collection, and the time of the call of [store] is not used
    for these records. *)
Theorem X10_collect_then_store (E : env) (self : collector) (w w' : world)
        (rs : list dict) (ts : string) (table table' : list row) :
  collect E self w = (Ok rs, w') ->
  store ts rs table = Ok table' ->
  exists rows,
    table' = (table ++ rows)%list
    /\ map identity_columns rows = map identity_fields rs.
Proof.
  intros H Hstore. unfold collect in H.
  destruct (collect_loop_records E self (network_tests self) w rs w' H)
    as (cs & -> & Hts & _ & _).
  destruct (insert_records_identity ts cs Hts table) as (rows & Hins & Hall).
  exists rows. split; [|exact Hall].
  assert (store ts (map record_of cs) table = Ok (table ++ rows)%list) as Hs
      by (destruct cs as [|c cs]; exact Hins).
  rewrite Hs in Hstore. inversion Hstore. reflexivity.
Qed.

Lemma X10_collect_then_store_witness :
  exists rs w' table' rows,
    collect Demo.full_disk_env (Demo.full_collector [Demo.storage_test]) []
    = (Ok rs, w')
    /\ store "2026-01-05T11:00:00" rs [] = Ok table'
    /\ table' = ([] ++ rows)%list
    /\ map identity_columns rows = map identity_fields rs.
Proof.
  assert (exists rs w' table',
             collect Demo.full_disk_env
                     (Demo.full_collector [Demo.storage_test]) []
             = (Ok rs, w')
             /\ store "2026-01-05T11:00:00" rs [] = Ok table')
    as (rs & w' & table' & Hc & Hs)
      by (eexists; eexists; eexists; split; vm_compute; reflexivity).
  destruct (X10_collect_then_store Demo.full_disk_env
              (Demo.full_collector [Demo.storage_test]) [] w' rs
              "2026-01-05T11:00:00" [] table' Hc Hs) as (rows & Ht & Hl).
  exists rs, w', table', rows.
  split; [exact Hc|]. split; [exact Hs|]. split; assumption.
Defined.

(** X11. A stored row can be analysed exactly when its record had a ping
    result and a throughput result (hot cache, else cold cache).  For the
    row of any other record, an error record among them, the columns that
    are NULL come back as [None] and [analyze_potential_causes] raises
    [TypeError] on the first comparison that meets one. *)
Theorem X11_analysis_of_stored_rows (ts : string) (c : collected) (r : row)
        (history : list dict) (trends : list (string * dict))
        (tp : option time_patterns) :
  row_of_record ts (record_of c) = Ok r ->
  if diagnosable c
  then exists causes,
         analyze_potential_causes (Some (state_of_row r)) history trends tp
         = Ok causes
  else analyze_potential_causes (Some (state_of_row r)) history trends tp
       = Raise TypeError.
Proof.
  intro H. destruct (diagnosable c) eqn:Hd.
  - destruct (diagnosable_row ts c r H Hd) as [Hne Hcmp].
    destruct (analyze_business_hours _ history trends tp Hne Hcmp)
      as (causes & Hc & _).
    exists causes. exact Hc.
  - exact (undiagnosable_row ts c r history trends tp H Hd).
Qed.

Lemma X11_analysis_of_stored_rows_witness :
  exists r,
    row_of_record "2026-01-05T11:00:00"
      (record_of (Failed "node01" "storage" "switch" "2026-01-05T10:00:00"))
    = Ok r
    /\ analyze_potential_causes (Some (state_of_row r)) [] [] None
       = Raise TypeError.
Proof.
  eexists. split; [reflexivity|].
  apply (X11_analysis_of_stored_rows "2026-01-05T11:00:00"
           (Failed "node01" "storage" "switch" "2026-01-05T10:00:00")
           _ [] [] None).
  reflexivity.
Defined.

(** X12. The collector and the diagnostic agree on what is healthy: for a
    record that [is_healthy] accepts and that has a hot-cache result, the
    analysis of its stored row succeeds and names no cause about packet
    loss, latency, jitter or low throughput; what it can still name comes
    from the retransmit counter, the time patterns or the trends. *)
Theorem X12_healthy_row_has_no_metric_cause (ts : string)
        (s : NetworkPerfStats) (h : ThroughputStats) (r : row)
        (history : list dict) (trends : list (string * dict))
        (tp : option time_patterns) :
  is_healthy s = true ->
  throughput_hot s = Some h ->
  row_of_record ts (to_dict s) = Ok r ->
  exists causes,
    analyze_potential_causes (Some (state_of_row r)) history trends tp
    = Ok causes
    /\ named_in beyond_ping_and_rate causes.
Proof.
  intros Hh Hhot H.
  destruct s as [src dst pt tstamp pg cold hot wr st]. cbn in Hhot. subst hot.
  unfold is_healthy in Hh. cbn [ping throughput_hot] in Hh.
  destruct pg as [p|]; [|discriminate].
  destruct (Qltb 1 (loss_pct p)) eqn:H1; [discriminate|].
  destruct (Qltb 50 (avg_ms p)) eqn:H2; [discriminate|].
  destruct (Qltb 20 (mdev_ms p)) eqn:H3; [discriminate|].
  destruct (Qltb (rate_mbps h) 100) eqn:H4; [discriminate|].
  assert (Qltb 5 (loss_pct p) = false) as H1'
      by (apply (Qltb_weaken 1 5); [discriminate | exact H1]).
  assert (Qltb 100 (avg_ms p) = false) as H2'
      by (apply (Qltb_weaken 50 100); [discriminate | exact H2]).
  assert (exists c4, check_retrans (state_of_row r) = Ok c4) as (c4 & Hc4).
  { inversion H; subst r. unfold check_retrans. cbn -[Qltb].
    repeat match goal with
           | |- context [Qltb ?a ?b] => destruct (Qltb a b)
           end; eexists; reflexivity. }
  exists (or_no_issue
            ([] ++ [] ++ [] ++ c4 ++ []
                ++ check_business_hours tp ++ check_trends trends)%list).
  split.
  - apply analyze_present; try exact Hc4;
      inversion H; subst r; try discriminate.
    + unfold check_loss. cbn -[Qltb]. rewrite H1'. cbn -[Qltb].
      rewrite H1. reflexivity.
    + unfold check_latency. cbn -[Qltb]. rewrite H2'. cbn -[Qltb].
      rewrite H2. reflexivity.
    + unfold check_jitter. cbn -[Qltb]. rewrite H3. reflexivity.
    + unfold check_throughput. cbn -[Qltb Qeqb0].
      destruct (negb (Qeqb0 (rate_mbps h))); [|reflexivity].
      cbn -[Qltb]. rewrite H4. reflexivity.
  - apply or_no_issue_beyond. cbn [app].
    apply named_in_app; [exact (check_retrans_names _ _ Hc4)|].
    apply named_in_app;
      [apply check_business_hours_names | apply check_trends_beyond].
Qed.

Lemma X12_healthy_row_has_no_metric_cause_witness :
  exists r causes,
    row_of_record "2026-01-05T11:00:00"
      (to_dict (mkStats "node01" "storage" "switch"
                        (Some "2026-01-05T10:00:00")
                        (Some (mkPing 1 2 3 1 0)) None
                        (Some (mkThroughput 1000 940 8 12)) None "healthy"))
    = Ok r
    /\ analyze_potential_causes (Some (state_of_row r)) [] [] None = Ok causes
    /\ named_in beyond_ping_and_rate causes.
Proof.
  eexists.
  destruct (X12_healthy_row_has_no_metric_cause "2026-01-05T11:00:00"
              (mkStats "node01" "storage" "switch"
                       (Some "2026-01-05T10:00:00")
                       (Some (mkPing 1 2 3 1 0)) None
                       (Some (mkThroughput 1000 940 8 12)) None "healthy")
              (mkThroughput 1000 940 8 12) _ [] [] None
              eq_refl eq_refl eq_refl) as (causes & Hc & Hn).
  exists causes. split; [reflexivity|]. split; assumption.
Defined.

Module TimePatternFacts.
Import Py Diag DiagSpec DiagSpec2 PyFacts.

Section Parser.

Variable fromisoformat : string -> option datetime.

Lemma partition_app (h1 h2 : list dict) :
  forall b,
    partition_samples fromisoformat (h1 ++ h2) b
    = rbind (partition_samples fromisoformat h1 b)
            (fun b' => partition_samples fromisoformat h2 b').
Proof.
  induction h1 as [|r h1 IH]; intro b; [reflexivity|].
  cbn [app partition_samples].
  destruct (negb (truthy _)); [apply IH|].
  destruct (dict_get "timestamp" r); try reflexivity.
  destruct (fromisoformat s); apply IH.
Qed.

Lemma partition_skipped (r : dict) (h : list dict) (b : buckets) :
  skipped fromisoformat r = true ->
  partition_samples fromisoformat (r :: h) b
  = partition_samples fromisoformat h b.
Proof.
  unfold skipped, throughput_of. intro H. cbn [partition_samples].
  destruct (negb (truthy _)); [reflexivity|]. cbn [orb] in H.
  destruct (dict_get "timestamp" r); try discriminate.
  destruct (fromisoformat s); [discriminate | reflexivity].
Qed.

Lemma add_samples_nil (b : buckets) : add_samples b [] = b.
Proof. destruct b. unfold add_samples. cbn. rewrite !app_nil_r. reflexivity. Qed.

Lemma add_samples_cons (b : buckets) (d : datetime) (v : pyval)
      (l : list (datetime * pyval)) :
  add_samples b ((d, v) :: l)
  = add_samples
      (let b1 :=
         if weekday d <? 5
         then mkBuckets (weekday_samples b ++ [v]) (weekend_samples b)
                        (business_samples b) (off_hours_samples b)
         else mkBuckets (weekday_samples b) (weekend_samples b ++ [v])
                        (business_samples b) (off_hours_samples b) in
       if (9 <=? hour d) && (hour d <? 17) && (weekday d <? 5)
       then mkBuckets (weekday_samples b1) (weekend_samples b1)
                      (business_samples b1 ++ [v]) (off_hours_samples b1)
       else mkBuckets (weekday_samples b1) (weekend_samples b1)
                      (business_samples b1) (off_hours_samples b1 ++ [v]))%list
      l.
Proof.
  unfold add_samples, values_where, on_weekday, in_business_hours.
  cbn [filter fst snd map].
  destruct (weekday d <? 5);
    destruct ((9 <=? hour d) && (hour d <? 17)); cbn;
    rewrite <- ?app_assoc; reflexivity.
Qed.

(** The loop of [analyze_time_patterns], told by the samples it takes. *)
Lemma partition_spec (h : list dict) :
  forall b,
    partition_samples fromisoformat h b
    = if existsb unstamped h then Raise AttributeError
      else Ok (add_samples b (samples fromisoformat h)).
Proof.
  induction h as [|r h IH]; intro b.
  - cbn. rewrite add_samples_nil. reflexivity.
  - cbn [partition_samples existsb samples flat_map].
    unfold unstamped at 1, sample, throughput_of.
    destruct (truthy (dict_get_default "throughput_mbps" (VInt 0) r)) eqn:Ht;
      cbn [negb andb orb app].
    + destruct (dict_get "timestamp" r) as [|s| | |] eqn:Hs;
        cbn [orb]; try reflexivity.
      destruct (fromisoformat s) as [d|]; cbn [orb app].
      * rewrite IH. fold (samples fromisoformat h).
        destruct (existsb unstamped h); [reflexivity|].
        rewrite add_samples_cons. reflexivity.
      * apply IH.
    + apply IH.
Qed.

Lemma sum_values_numeric (l : list pyval) :
  forall acc,
    raised (sum_values l acc)
    = if forallb numeric l then None else Some TypeError.
Proof.
  induction l as [|v l IH]; intro acc; [reflexivity|].
  cbn [sum_values forallb]. unfold numeric at 1.
  destruct (num_of v); [apply IH | reflexivity].
Qed.

Lemma average_numeric (l : list pyval) :
  raised (average l) = if forallb numeric l then None else Some TypeError.
Proof.
  destruct l as [|v l]; [reflexivity|].
  unfold average. pose proof (sum_values_numeric (v :: l) 0%Q) as H.
  destruct (sum_values (v :: l) 0%Q); cbn [rbind raised] in *; exact H.
Qed.

Lemma average_ok (l : list pyval) :
  forallb numeric l = true -> exists a, average l = Ok a.
Proof.
  intro H. pose proof (average_numeric l) as Ha. rewrite H in Ha.
  destruct (average l) as [a|e]; [exists a; reflexivity | discriminate].
Qed.

Lemma average_raises (l : list pyval) :
  forallb numeric l = false -> average l = Raise TypeError.
Proof.
  intro H. pose proof (average_numeric l) as Ha. rewrite H in Ha.
  destruct (average l) as [a|e]; [discriminate|].
  cbn in Ha. inversion Ha. reflexivity.
Qed.

Lemma numeric_split (p : datetime -> bool) (l : list (datetime * pyval)) :
  forallb numeric (map snd l)
  = forallb numeric (values_where p l)
    && forallb numeric (values_where (fun d => negb (p d)) l).
Proof.
  unfold values_where. induction l as [|[d v] l IH]; [reflexivity|].
  cbn [map snd filter fst forallb]. rewrite IH.
  destruct (p d); cbn [negb map snd forallb];
    destruct (numeric v); cbn [andb]; try reflexivity.
  rewrite andb_false_r. reflexivity.
Qed.

Lemma numeric_where (p : datetime -> bool) (l : list (datetime * pyval)) :
  forallb numeric (map snd l) = true ->
  forallb numeric (values_where p l) = true.
Proof.
  intro H. rewrite (numeric_split p) in H.
  apply andb_true_iff in H as [H _]. exact H.
Qed.

Lemma values_where_all (p : datetime -> bool) (l : list (datetime * pyval)) :
  values_where (fun d => negb (p d)) l = [] ->
  values_where p l = map snd l.
Proof.
  unfold values_where. induction l as [|[d v] l IH]; [reflexivity|].
  cbn [filter fst map snd]. destruct (p d); cbn [negb map snd].
  - intro H. rewrite (IH H). reflexivity.
  - discriminate.
Qed.

Lemma values_where_none (p q : datetime -> bool)
      (l : list (datetime * pyval)) :
  (forall d, q d = true -> p d = true) ->
  values_where p l = [] -> values_where q l = [].
Proof.
  intro Hpq. unfold values_where.
  induction l as [|[d v] l IH]; [reflexivity|].
  cbn [filter fst map snd]. destruct (p d) eqn:Hp; [discriminate|].
  destruct (q d) eqn:Hq; [rewrite (Hpq d Hq) in Hp; discriminate|].
  exact IH.
Qed.

Lemma values_where_complement (p : datetime -> bool)
      (l : list (datetime * pyval)) :
  (length (values_where p l)
   + length (values_where (fun d => negb (p d)) l) = length l)%nat.
Proof.
  unfold values_where. induction l as [|[d v] l IH]; [reflexivity|].
  cbn [filter fst]. destruct (p d); cbn [negb map length]; lia.
Qed.

Lemma values_where_ext (p q : datetime -> bool)
      (l : list (datetime * pyval)) :
  (forall d, p d = q d) -> values_where p l = values_where q l.
Proof.
  intro H. unfold values_where. f_equal. apply filter_ext.
  intros [d v]. apply H.
Qed.

(** What [analyze_time_patterns] returns for a history that is not
    empty, told by the samples. *)
Lemma analyze_time_patterns_spec (r : dict) (h : list dict) :
  let l := samples fromisoformat (r :: h) in
  analyze_time_patterns fromisoformat (r :: h)
  = if existsb unstamped (r :: h) then Raise AttributeError
    else
      rbind (average (values_where on_weekday l)) (fun wd =>
      rbind (average (values_where (fun d => negb (on_weekday d)) l))
            (fun we =>
      rbind (average (values_where in_business_hours l)) (fun biz =>
      rbind (average (values_where (fun d => negb (in_business_hours d)) l))
            (fun off =>
        Ok (Some (mkPatterns wd we biz off
                    (Z.of_nat (length (values_where on_weekday l)))
                    (Z.of_nat (length (values_where
                                         (fun d => negb (on_weekday d))
                                         l))))))))).
Proof.
  intro l. unfold analyze_time_patterns. rewrite partition_spec.
  destruct (existsb unstamped (r :: h)); [reflexivity|].
  cbn [rbind add_samples weekday_samples weekend_samples business_samples
       off_hours_samples app].
  reflexivity.
Qed.

(** The ways in which [analyze_time_patterns] can fail. *)
Lemma time_pattern_failures (history : list dict) :
  raised (analyze_time_patterns fromisoformat history)
  = if existsb unstamped history then Some AttributeError
    else if forallb numeric (map snd (samples fromisoformat history))
         then None
         else Some TypeError.
Proof.
  destruct history as [|r h]; [reflexivity|].
  rewrite analyze_time_patterns_spec.
  destruct (existsb unstamped (r :: h)); [reflexivity|].
  set (l := samples fromisoformat (r :: h)).
  rewrite (numeric_split on_weekday l).
  destruct (forallb numeric (values_where on_weekday l)) eqn:Hwd.
  - destruct (average_ok _ Hwd) as (wd & ->). cbn [rbind andb].
    destruct (forallb numeric
                (values_where (fun d => negb (on_weekday d)) l)) eqn:Hwe.
    + destruct (average_ok _ Hwe) as (we & ->). cbn [rbind].
      assert (forallb numeric (map snd l) = true) as Hall
          by (rewrite (numeric_split on_weekday l), Hwd, Hwe; reflexivity).
      destruct (average_ok _ (numeric_where in_business_hours l Hall))
        as (biz & ->).
      destruct (average_ok _ (numeric_where
                                (fun d => negb (in_business_hours d)) l Hall))
        as (off & ->).
      reflexivity.
    + rewrite (average_raises _ Hwe). reflexivity.
  - rewrite (average_raises _ Hwd). reflexivity.
Qed.

End Parser.

End TimePatternFacts.

Import TimePatternFacts.

(** X13. A record whose throughput is missing, null or zero, or whose
    timestamp is a string that does not parse, has no influence on the
    time patterns: with the record removed the result is the same, except
    that a history made of that record alone gives the all-zero patterns
    where the empty history gives none. *)
Theorem X13_skipped_records_do_not_count
        (fromisoformat : string -> option datetime)
        (h1 h2 : list dict) (r : dict) :
  skipped fromisoformat r = true ->
  analyze_time_patterns fromisoformat (h1 ++ r :: h2)
  = match (h1 ++ h2)%list with
    | [] => Ok (Some (mkPatterns 0 0 0 0 0 0))
    | _ => analyze_time_patterns fromisoformat (h1 ++ h2)
    end.
Proof.
  intro Hs.
  assert (forall b,
             partition_samples fromisoformat (h1 ++ r :: h2) b
             = partition_samples fromisoformat (h1 ++ h2) b) as Hp.
  { intro b. rewrite !partition_app.
    destruct (partition_samples fromisoformat h1 b) as [b'|e];
      [|reflexivity].
    cbn [rbind]. apply partition_skipped. exact Hs. }
  unfold analyze_time_patterns.
  destruct h1 as [|r1 h1]; cbn [app] in *.
  - rewrite Hp. destruct h2 as [|r2 h2]; reflexivity.
  - rewrite Hp. reflexivity.
Qed.

Lemma X13_skipped_records_do_not_count_witness :
  analyze_time_patterns (fun _ => Some (mkDatetime 0 10))
    ([[("timestamp", VStr "2026-01-05T10:00:00");
       ("throughput_mbps", VInt 100)]]
       ++ [("timestamp", VNone); ("throughput_mbps", VNone)] :: [])
  = analyze_time_patterns (fun _ => Some (mkDatetime 0 10))
      [[("timestamp", VStr "2026-01-05T10:00:00");
        ("throughput_mbps", VInt 100)]].
Proof.
  apply (X13_skipped_records_do_not_count
           (fun _ => Some (mkDatetime 0 10))
           [[("timestamp", VStr "2026-01-05T10:00:00");
             ("throughput_mbps", VInt 100)]] []
           [("timestamp", VNone); ("throughput_mbps", VNone)]).
  reflexivity.
Defined.

(** X14. How [analyze_time_patterns] can fail.  It raises
    [AttributeError] exactly when some record with a throughput has a
    timestamp that is not a string; otherwise it raises [TypeError]
    exactly when some sample it takes is not a number; otherwise it
    returns. *)
Theorem X14_time_pattern_failures
        (fromisoformat : string -> option datetime) (history : list dict) :
  raised (analyze_time_patterns fromisoformat history)
  = if existsb unstamped history then Some AttributeError
    else if forallb numeric (map snd (samples fromisoformat history))
         then None
         else Some TypeError.
Proof. apply time_pattern_failures. Qed.

(** X15. The weekday and weekend counts add up to the number of samples
    taken.  A history without a weekday sample has a zero weekday average
    and a zero business-hours average, its off-hours average is its
    weekend average, and it yields no business-hours cause. *)
Theorem X15_weekend_only_history
        (fromisoformat : string -> option datetime) (history : list dict)
        (tp : time_patterns) :
  analyze_time_patterns fromisoformat history = Ok (Some tp) ->
  weekday_count tp + weekend_count tp
  = Z.of_nat (length (samples fromisoformat history))
  /\ (weekday_count tp = 0 ->
      weekday_avg tp = 0%Q /\ business_hours_avg tp = 0%Q
      /\ off_hours_avg tp = weekend_avg tp
      /\ check_business_hours (Some tp) = []).
Proof.
  destruct history as [|r h]; [discriminate|].
  rewrite analyze_time_patterns_spec.
  destruct (existsb unstamped (r :: h)); [discriminate|].
  set (l := samples fromisoformat (r :: h)).
  destruct (average (values_where on_weekday l)) as [wd|] eqn:Hwd;
    [|discriminate].
  destruct (average (values_where (fun d => negb (on_weekday d)) l))
    as [we|] eqn:Hwe; [|discriminate].
  destruct (average (values_where in_business_hours l)) as [biz|] eqn:Hbiz;
    [|discriminate].
  destruct (average (values_where (fun d => negb (in_business_hours d)) l))
    as [off|] eqn:Hoff; [|discriminate].
  cbn [rbind]. intro H. inversion H; subst tp; clear H.
  cbn [weekday_count weekend_count weekday_avg weekend_avg
       business_hours_avg off_hours_avg].
  split.
  - rewrite <- Nat2Z.inj_add, values_where_complement. reflexivity.
  - intro H0.
    assert (values_where on_weekday l = []) as Hnil.
    { destruct (values_where on_weekday l); [reflexivity|].
      cbn [length] in H0. lia. }
    assert (values_where in_business_hours l = []) as Hbnil.
    { apply (values_where_none on_weekday); [|exact Hnil].
      intros d Hd. unfold in_business_hours in Hd. unfold on_weekday.
      apply andb_true_iff in Hd as [_ Hd]. exact Hd. }
    rewrite Hnil in Hwd. rewrite Hbnil in Hbiz.
    cbn in Hwd, Hbiz. inversion Hwd; subst wd. inversion Hbiz; subst biz.
    assert (off = we) as ->.
    { assert (values_where (fun d => negb (in_business_hours d)) l
              = values_where (fun d => negb (on_weekday d)) l) as Heq.
      { rewrite (values_where_all (fun d => negb (in_business_hours d)) l).
        - rewrite (values_where_all (fun d => negb (on_weekday d)) l);
            [reflexivity|].
          rewrite <- Hnil. apply values_where_ext.
          intro d. apply negb_involutive.
        - rewrite <- Hbnil. apply values_where_ext.
          intro d. apply negb_involutive. }
      rewrite Heq in Hoff. rewrite Hoff in Hwe. inversion Hwe. reflexivity. }
    repeat split; reflexivity.
Qed.

Lemma X15_weekend_only_history_witness :
  exists tp,
    analyze_time_patterns (fun _ => Some (mkDatetime 5 10))
      [[("timestamp", VStr "2026-01-10T10:00:00");
        ("throughput_mbps", VInt 200)]] = Ok (Some tp)
    /\ weekday_count tp + weekend_count tp = 1
    /\ (weekday_count tp = 0 -> check_business_hours (Some tp) = []).
Proof.
  eexists. split; [reflexivity|].
  destruct (X15_weekend_only_history (fun _ => Some (mkDatetime 5 10))
              [[("timestamp", VStr "2026-01-10T10:00:00");
                ("throughput_mbps", VInt 200)]] _ eq_refl) as [Hc Hz].
  split; [exact Hc|]. intro H0. apply Hz. exact H0.
Defined.

Module CauseListFacts.
Import Py Diag DiagSpec DiagSpec2 PyFacts RecommendFacts CauseFacts
       BusinessHoursFacts.

Lemma analyze_ok_inv (state : dict) (history : list dict)
      (trends : list (string * dict)) (tp : option time_patterns)
      (causes : list cause_entry) :
  state <> [] ->
  analyze_potential_causes (Some state) history trends tp = Ok causes ->
  exists c1 c2 c3 c4 c5,
    check_loss state = Ok c1 /\ check_latency state = Ok c2
    /\ check_jitter state = Ok c3 /\ check_retrans state = Ok c4
    /\ check_throughput state = Ok c5
    /\ causes = or_no_issue
                  (c1 ++ c2 ++ c3 ++ c4 ++ c5
                      ++ check_business_hours tp ++ check_trends trends)%list.
Proof.
  intros Hne H.
  destruct (check_loss state) as [c1|e] eqn:H1;
    [|destruct state; [congruence | cbn in H; rewrite H1 in H; discriminate]].
  destruct (check_latency state) as [c2|e] eqn:H2;
    [|destruct state; [congruence
                      | cbn in H; rewrite H1, H2 in H; discriminate]].
  destruct (check_jitter state) as [c3|e] eqn:H3;
    [|destruct state; [congruence
                      | cbn in H; rewrite H1, H2, H3 in H; discriminate]].
  destruct (check_retrans state) as [c4|e] eqn:H4;
    [|destruct state; [congruence
                      | cbn in H; rewrite H1, H2, H3, H4 in H; discriminate]].
  destruct (check_throughput state) as [c5|e] eqn:H5;
    [|destruct state;
      [congruence
      | cbn in H; rewrite H1, H2, H3, H4, H5 in H; discriminate]].
  rewrite (analyze_present state history trends tp c1 c2 c3 c4 c5
             Hne H1 H2 H3 H4 H5) in H.
  inversion H. exists c1, c2, c3, c4, c5. repeat split; reflexivity.
Qed.

Lemma emitted_nil (n c : string) : ~ emitted [] n c.
Proof. intros (x & [] & _). Qed.

Lemma emitted_single (n' c' : string) (d : detail_text) (n c : string) :
  emitted [mkCause n' c' d] n c <-> n' = n /\ c' = c.
Proof.
  split.
  - intros (x & [<-|[]] & Hn & Hc). cbn in *. auto.
  - intros [<- <-]. apply emitted_head.
Qed.

Lemma picked_named (g : list string) (l : list cause_entry) :
  picked g l -> named_in g l.
Proof.
  intros [->|(c & -> & Hc)]; [constructor|].
  constructor; [exact Hc | constructor].
Qed.

Lemma picked_nil (g : list string) : picked g [].
Proof. left. reflexivity. Qed.

Lemma picked_one (g : list string) (c : cause_entry) :
  mem_string (cause c) g = true -> picked g [c].
Proof.
  intro H. right. exists c. split; [reflexivity|].
  apply mem_string_In. exact H.
Qed.

Create HintDb causes.

#[local] Hint Resolve picked_nil : causes.
#[local] Hint Extern 1 (picked _ [_]) =>
  (apply picked_one; reflexivity) : causes.

(** The two-level checks and the one-level checks, case by case. *)
Ltac cases_of_check :=
  repeat match goal with
         | |- context [Qltb ?a ?b] =>
             let H := fresh "Hlt" in destruct (Qltb a b) eqn:H
         end;
  cbn [rbind];
  (let Hok := fresh "Hok" in intro Hok; inversion Hok; subst; try clear Hok);
  repeat match goal with
         | H : Qltb _ _ = true |- _ => apply Qltb_true in H
         | H : Qltb _ _ = false |- _ => apply Qltb_false in H
         end.

Lemma check_loss_cases (state : dict) (l : list cause_entry) :
  check_loss state = Ok l ->
  exists q,
    metric state "ping_loss_pct" = Some q
    /\ picked ["High Packet Loss"; "Elevated Packet Loss"] l
    /\ (emitted l "High Packet Loss" "high" <-> (5 < q)%Q)
    /\ (emitted l "Elevated Packet Loss" "medium"
        <-> (1 < q)%Q /\ (q <= 5)%Q).
Proof.
  unfold check_loss, metric, py_gt.
  destruct (num_of _) as [q|]; [|discriminate]. cbn [rbind].
  cases_of_check; exists q; (split; [reflexivity|]);
    (split; [auto with causes|]); split; split;
    rewrite ?emitted_single;
    try (intros [Hn Hc]; discriminate);
    try (intro Hn; exfalso; exact (emitted_nil _ _ Hn));
    intros; auto.
  - exfalso. destruct H as [_ H]. apply (Qlt_not_le _ _ Hlt H).
  - exfalso. apply (Qlt_not_le _ _ H Hlt).
  - exfalso. apply (Qlt_not_le _ _ H Hlt).
  - exfalso. destruct H as [H _]. apply (Qlt_not_le _ _ H Hlt0).
Qed.

Lemma check_latency_cases (state : dict) (l : list cause_entry) :
  check_latency state = Ok l ->
  exists q,
    metric state "ping_avg_ms" = Some q
    /\ picked ["High Latency"; "Elevated Latency"] l
    /\ (emitted l "High Latency" "high" <-> (100 < q)%Q)
    /\ (emitted l "Elevated Latency" "medium"
        <-> (50 < q)%Q /\ (q <= 100)%Q).
Proof.
  unfold check_latency, metric, py_gt.
  destruct (num_of _) as [q|]; [|discriminate]. cbn [rbind].
  cases_of_check; exists q; (split; [reflexivity|]);
    (split; [auto with causes|]); split; split;
    rewrite ?emitted_single;
    try (intros [Hn Hc]; discriminate);
    try (intro Hn; exfalso; exact (emitted_nil _ _ Hn));
    intros; auto.
  - exfalso. destruct H as [_ H]. apply (Qlt_not_le _ _ Hlt H).
  - exfalso. apply (Qlt_not_le _ _ H Hlt).
  - exfalso. apply (Qlt_not_le _ _ H Hlt).
  - exfalso. destruct H as [H _]. apply (Qlt_not_le _ _ H Hlt0).
Qed.

Lemma check_jitter_cases (state : dict) (l : list cause_entry) :
  check_jitter state = Ok l ->
  exists q,
    metric state "ping_mdev_ms" = Some q
    /\ picked ["High Jitter"] l
    /\ (emitted l "High Jitter" "high" <-> (20 < q)%Q).
Proof.
  unfold check_jitter, metric, py_gt.
  destruct (num_of _) as [q|]; [|discriminate]. cbn [rbind].
  cases_of_check; exists q; (split; [reflexivity|]);
    (split; [auto with causes|]); split;
    rewrite ?emitted_single;
    try (intros [Hn Hc]; discriminate);
    try (intro Hn; exfalso; exact (emitted_nil _ _ Hn));
    intros; auto.
  exfalso. apply (Qlt_not_le _ _ H Hlt).
Qed.

Lemma check_retrans_cases (state : dict) (l : list cause_entry) :
  check_retrans state = Ok l ->
  exists q,
    metric state "tcp_retrans" = Some q
    /\ picked ["Excessive TCP Retransmits"; "Elevated TCP Retransmits"] l
    /\ (emitted l "Excessive TCP Retransmits" "high" <-> (100 < q)%Q)
    /\ (emitted l "Elevated TCP Retransmits" "medium"
        <-> (10 < q)%Q /\ (q <= 100)%Q).
Proof.
  unfold check_retrans, metric, py_gt.
  destruct (num_of _) as [q|]; [|discriminate]. cbn [rbind].
  cases_of_check; exists q; (split; [reflexivity|]);
    (split; [auto with causes|]); split; split;
    rewrite ?emitted_single;
    try (intros [Hn Hc]; discriminate);
    try (intro Hn; exfalso; exact (emitted_nil _ _ Hn));
    intros; auto.
  - exfalso. destruct H as [_ H]. apply (Qlt_not_le _ _ Hlt H).
  - exfalso. apply (Qlt_not_le _ _ H Hlt).
  - exfalso. apply (Qlt_not_le _ _ H Hlt).
  - exfalso. destruct H as [H _]. apply (Qlt_not_le _ _ H Hlt0).
Qed.

Lemma truthy_number (v : pyval) (q : Q) :
  num_of v = Some q -> (truthy v = true <-> ~ (q == 0)%Q).
Proof.
  destruct v; cbn; intro H; inversion H; subst.
  - rewrite negb_true_iff, Z.eqb_neq. unfold Qeq. cbn. split; intro; lia.
  - rewrite negb_true_iff. apply Qeqb0_false.
Qed.

Lemma check_throughput_cases (state : dict) (l : list cause_entry) :
  check_throughput state = Ok l ->
  picked ["Low Throughput"] l
  /\ (emitted l "Low Throughput" "medium"
      <-> exists q, metric state "throughput_mbps" = Some q
                    /\ ~ (q == 0)%Q /\ (q < 100)%Q).
Proof.
  unfold check_throughput, metric, py_lt.
  destruct (truthy _) eqn:Ht.
  - destruct (num_of _) as [q|] eqn:Hq; [|discriminate]. cbn [rbind].
    pose proof (proj1 (truthy_number _ q Hq) Ht) as Hnz.
    cases_of_check; (split; [auto with causes|]); split;
      rewrite ?emitted_single;
      try (intro Hn; exfalso; exact (emitted_nil _ _ Hn)).
    + intros _. exists q. auto.
    + auto.
    + intros (q' & Hq' & _ & Hlt'). inversion Hq'; subst q'.
      exfalso. apply (Qlt_not_le _ _ Hlt' Hlt).
  - intro H. inversion H; subst; clear H. split; [auto with causes|].
    split; [intro Hn; exfalso; exact (emitted_nil _ _ Hn)|].
    intros (q & Hq & Hnz & _). exfalso.
    apply (truthy_number _ q Hq) in Hnz. congruence.
Qed.

Lemma check_business_hours_picked (tp : option time_patterns) :
  picked ["Business Hours Congestion"; "Mild Business Hours Impact"]
         (check_business_hours tp).
Proof.
  destruct tp as [tp|]; [|auto with causes]. unfold check_business_hours.
  destruct (_ && _); [|auto with causes].
  destruct (Qltb _ (7 # 10)); [auto with causes|].
  destruct (Qltb _ (85 # 100)); auto with causes.
Qed.

Lemma check_trends_picked (trends : list (string * dict)) :
  exists t1 t2,
    check_trends trends = (t1 ++ t2)%list
    /\ picked ["Declining Throughput Trend"] t1
    /\ picked ["Increasing Latency Trend"] t2
    /\ (emitted t1 "Declining Throughput Trend" "medium"
        <-> trend_is trends "throughput" "decreasing" = true)
    /\ (emitted t2 "Increasing Latency Trend" "medium"
        <-> trend_is trends "latency" "increasing" = true).
Proof.
  unfold check_trends. eexists. eexists. split; [reflexivity|].
  destruct (trend_is trends "throughput" "decreasing");
    destruct (trend_is trends "latency" "increasing");
    (split; [auto with causes|]); (split; [auto with causes|]);
    split; split; rewrite ?emitted_single; auto;
    try discriminate;
    intro Hn; exfalso; exact (emitted_nil _ _ Hn).
Qed.

(** *** At most one cause from each group *)

Lemma one_per_group_pick (g : list string) (groups : list (list string))
      (l rest : list cause_entry) :
  picked g l ->
  one_per_group groups (map cause rest) ->
  one_per_group (g :: groups) (map cause (l ++ rest)).
Proof.
  intros [->|(c & -> & Hc)] H; cbn [one_per_group app map]; auto.
Qed.

Lemma one_per_group_length (groups : list (list string)) :
  forall names,
    one_per_group groups names -> (length names <= length groups)%nat.
Proof.
  induction groups as [|g groups IH]; intros names H; cbn in H.
  - subst. cbn. lia.
  - destruct H as [H|H].
    + specialize (IH names H). cbn. lia.
    + destruct names as [|n names]; [contradiction|].
      destruct H as [_ H]. specialize (IH names H). cbn. lia.
Qed.

Lemma one_per_group_incl (groups : list (list string)) :
  forall names,
    one_per_group groups names -> incl names (concat groups).
Proof.
  induction groups as [|g groups IH]; intros names H; cbn in H.
  - subst. intros x [].
  - cbn [concat]. destruct H as [H|H].
    + intros x Hx. apply in_or_app. right. exact (IH names H x Hx).
    + destruct names as [|n names]; [contradiction|].
      destruct H as [Hn H]. intros x [<-|Hx]; apply in_or_app;
        [left; exact Hn | right; exact (IH names H x Hx)].
Qed.

Lemma NoDup_app_disjoint (g l : list string) (n : string) :
  NoDup (g ++ l) -> In n g -> In n l -> False.
Proof.
  induction g as [|a g IH]; intros Hnd Hn Hin; [contradiction|].
  cbn [app] in Hnd. inversion Hnd; subst. destruct Hn as [->|Hn].
  - apply H1. apply in_or_app. right. exact Hin.
  - exact (IH H2 Hn Hin).
Qed.

Lemma one_per_group_NoDup (groups : list (list string)) :
  NoDup (concat groups) ->
  forall names, one_per_group groups names -> NoDup names.
Proof.
  induction groups as [|g groups IH]; intros Hnd names H; cbn in H.
  - subst. constructor.
  - cbn [concat] in Hnd.
    assert (NoDup (concat groups)) as Hnd'
        by (apply NoDup_app_remove_l in Hnd; exact Hnd).
    destruct H as [H|H]; [exact (IH Hnd' names H)|].
    destruct names as [|n names]; [contradiction|].
    destruct H as [Hn H]. constructor; [|exact (IH Hnd' names H)].
    intro Hin. apply (one_per_group_incl groups names H) in Hin.
    exact (NoDup_app_disjoint g (concat groups) n Hnd Hn Hin).
Qed.

Lemma distinct_NoDup (l : list string) : distinct l = true -> NoDup l.
Proof.
  induction l as [|x l IH]; cbn [distinct]; intro H; [constructor|].
  apply andb_true_iff in H as [Hx Hl]. constructor; [|exact (IH Hl)].
  intro Hin. apply mem_string_In in Hin. rewrite Hin in Hx. discriminate.
Qed.

(** The shape of the list that the checks of a present record build. *)
Lemma checks_one_per_group (c1 c2 c3 c4 c5 cb t1 t2 : list cause_entry) :
  picked ["High Packet Loss"; "Elevated Packet Loss"] c1 ->
  picked ["High Latency"; "Elevated Latency"] c2 ->
  picked ["High Jitter"] c3 ->
  picked ["Excessive TCP Retransmits"; "Elevated TCP Retransmits"] c4 ->
  picked ["Low Throughput"] c5 ->
  picked ["Business Hours Congestion"; "Mild Business Hours Impact"] cb ->
  picked ["Declining Throughput Trend"] t1 ->
  picked ["Increasing Latency Trend"] t2 ->
  one_per_group cause_groups
    (map cause (c1 ++ c2 ++ c3 ++ c4 ++ c5 ++ cb ++ t1 ++ t2)%list).
Proof.
  intros P1 P2 P3 P4 P5 P6 P7 P8. unfold cause_groups.
  apply one_per_group_pick; [exact P1|].
  apply one_per_group_pick; [exact P2|].
  apply one_per_group_pick; [exact P3|].
  apply one_per_group_pick; [exact P4|].
  apply one_per_group_pick; [exact P5|].
  apply one_per_group_pick; [exact P6|].
  apply one_per_group_pick; [exact P7|].
  rewrite <- (app_nil_r t2).
  apply one_per_group_pick; [exact P8|]. reflexivity.
Qed.

Lemma analyze_shape (state : dict) (history : list dict)
      (trends : list (string * dict)) (tp : option time_patterns)
      (causes : list cause_entry) :
  state <> [] ->
  analyze_potential_causes (Some state) history trends tp = Ok causes ->
  causes = [no_issue_cause]
  \/ (causes <> [] /\ one_per_group cause_groups (map cause causes)).
Proof.
  intros Hne H.
  destruct (analyze_ok_inv state history trends tp causes Hne H)
    as (c1 & c2 & c3 & c4 & c5 & H1 & H2 & H3 & H4 & H5 & ->).
  destruct (check_loss_cases _ _ H1) as (_ & _ & P1 & _).
  destruct (check_latency_cases _ _ H2) as (_ & _ & P2 & _).
  destruct (check_jitter_cases _ _ H3) as (_ & _ & P3 & _).
  destruct (check_retrans_cases _ _ H4) as (_ & _ & P4 & _).
  destruct (check_throughput_cases _ _ H5) as (P5 & _).
  pose proof (check_business_hours_picked tp) as P6.
  destruct (check_trends_picked trends) as (t1 & t2 & -> & P7 & P8 & _).
  pose proof (checks_one_per_group c1 c2 c3 c4 c5 _ t1 t2
                P1 P2 P3 P4 P5 P6 P7 P8) as Hall.
  destruct (c1 ++ c2 ++ c3 ++ c4 ++ c5 ++ check_business_hours tp
               ++ t1 ++ t2)%list as [|c l]; [left; reflexivity|].
  right. cbn [or_no_issue]. split; [discriminate | exact Hall].
Qed.

(** *** Selecting the check that can emit a name *)

Lemma emitted_or_no_issue (l : list cause_entry) (n c : string) :
  n <> "No obvious issues detected" ->
  (emitted (or_no_issue l) n c <-> emitted l n c).
Proof.
  intro Hn. destruct l as [|x l]; [|reflexivity]. cbn [or_no_issue]. split.
  - intros (y & [<-|[]] & Hy & _). cbn in Hy. congruence.
  - intro H. exfalso. exact (emitted_nil _ _ H).
Qed.

Lemma emitted_parts (parts : list (list string * list cause_entry))
      (n c : string) :
  Forall (fun p => named_in (names_of_part p) (causes_of_part p)) parts ->
  (emitted (concat (map causes_of_part parts)) n c
   <-> emitted (concat (map causes_of_part (parts_named n parts))) n c).
Proof.
  induction 1 as [|[g l] parts Hp _ IH]; [reflexivity|].
  cbn [map concat parts_named filter names_of_part causes_of_part fst snd]
    in *.
  fold (parts_named n parts).
  destruct (mem_string n g) eqn:Hm.
  - cbn [map concat causes_of_part snd]. rewrite !emitted_app, IH.
    reflexivity.
  - rewrite emitted_app, IH. split; [|auto].
    intros [H|H]; [|exact H]. exfalso.
    apply (not_emitted g l n c Hp); [|exact H].
    intro Hin. apply mem_string_In in Hin. congruence.
Qed.

Lemma parts_named_yes (n : string) (g : list string) (l : list cause_entry)
      (parts : list (list string * list cause_entry)) :
  mem_string n g = true ->
  parts_named n ((g, l) :: parts) = (g, l) :: parts_named n parts.
Proof.
  intro H. unfold parts_named. cbn [filter names_of_part fst].
  rewrite H. reflexivity.
Qed.

Lemma parts_named_no (n : string) (g : list string) (l : list cause_entry)
      (parts : list (list string * list cause_entry)) :
  mem_string n g = false ->
  parts_named n ((g, l) :: parts) = parts_named n parts.
Proof.
  intro H. unfold parts_named. cbn [filter names_of_part fst].
  rewrite H. reflexivity.
Qed.

(** Reduce a statement about the whole list to the check that can emit
    the name. *)
Ltac band Hsel lem :=
  rewrite Hsel by discriminate;
  repeat first [ rewrite parts_named_yes by reflexivity
               | rewrite parts_named_no by reflexivity ];
  cbn [parts_named filter map concat causes_of_part snd];
  rewrite app_nil_r; exact lem.

(** The thresholds of the analysis, band by band. *)
Lemma threshold_table (state : dict) (history : list dict)
        (trends : list (string * dict)) (tp : option time_patterns)
        (causes : list cause_entry) :
  state <> [] ->
  analyze_potential_causes (Some state) history trends tp = Ok causes ->
  exists loss latency jitter retrans,
    metric state "ping_loss_pct" = Some loss
    /\ metric state "ping_avg_ms" = Some latency
    /\ metric state "ping_mdev_ms" = Some jitter
    /\ metric state "tcp_retrans" = Some retrans
    /\ (emitted causes "High Packet Loss" "high" <-> (5 < loss)%Q)
    /\ (emitted causes "Elevated Packet Loss" "medium"
        <-> (1 < loss)%Q /\ (loss <= 5)%Q)
    /\ (emitted causes "High Latency" "high" <-> (100 < latency)%Q)
    /\ (emitted causes "Elevated Latency" "medium"
        <-> (50 < latency)%Q /\ (latency <= 100)%Q)
    /\ (emitted causes "High Jitter" "high" <-> (20 < jitter)%Q)
    /\ (emitted causes "Excessive TCP Retransmits" "high"
        <-> (100 < retrans)%Q)
    /\ (emitted causes "Elevated TCP Retransmits" "medium"
        <-> (10 < retrans)%Q /\ (retrans <= 100)%Q)
    /\ (emitted causes "Low Throughput" "medium"
        <-> exists q, metric state "throughput_mbps" = Some q
                      /\ ~ (q == 0)%Q /\ (q < 100)%Q)
    /\ (emitted causes "Declining Throughput Trend" "medium"
        <-> trend_is trends "throughput" "decreasing" = true)
    /\ (emitted causes "Increasing Latency Trend" "medium"
        <-> trend_is trends "latency" "increasing" = true).
Proof.
  intros Hne H.
  destruct (analyze_ok_inv state history trends tp causes Hne H)
    as (c1 & c2 & c3 & c4 & c5 & H1 & H2 & H3 & H4 & H5 & ->).
  destruct (check_loss_cases _ _ H1) as (loss & Hloss & P1 & L1 & L2).
  destruct (check_latency_cases _ _ H2) as (lat & Hlat & P2 & A1 & A2).
  destruct (check_jitter_cases _ _ H3) as (jit & Hjit & P3 & J1).
  destruct (check_retrans_cases _ _ H4) as (ret & Hret & P4 & R1 & R2).
  destruct (check_throughput_cases _ _ H5) as (P5 & T1).
  pose proof (check_business_hours_picked tp) as P6.
  destruct (check_trends_picked trends)
    as (t1 & t2 & -> & P7 & P8 & D1 & D2).
  exists loss, lat, jit, ret.
  split; [exact Hloss|]. split; [exact Hlat|]. split; [exact Hjit|].
  split; [exact Hret|].
  assert (forall n c,
             n <> "No obvious issues detected" ->
             (emitted (or_no_issue
                         (c1 ++ c2 ++ c3 ++ c4 ++ c5
                             ++ check_business_hours tp ++ t1 ++ t2)%list)
                      n c
              <-> emitted
                    (concat
                       (map causes_of_part
                          (parts_named n
                             [ (["High Packet Loss"; "Elevated Packet Loss"],
                                c1);
                               (["High Latency"; "Elevated Latency"], c2);
                               (["High Jitter"], c3);
                               (["Excessive TCP Retransmits";
                                 "Elevated TCP Retransmits"], c4);
                               (["Low Throughput"], c5);
                               (["Business Hours Congestion";
                                 "Mild Business Hours Impact"],
                                check_business_hours tp);
                               (["Declining Throughput Trend"], t1);
                               (["Increasing Latency Trend"], t2) ])))
                    n c)) as Hsel.
  { intros n c Hn. rewrite (emitted_or_no_issue _ n c Hn).
    rewrite <- emitted_parts.
    - cbn [map concat causes_of_part snd]. rewrite app_nil_r. reflexivity.
    - repeat (apply Forall_cons; [apply picked_named; assumption|]).
      apply Forall_nil. }
  split; [band Hsel L1|]. split; [band Hsel L2|].
  split; [band Hsel A1|]. split; [band Hsel A2|].
  split; [band Hsel J1|].
  split; [band Hsel R1|]. split; [band Hsel R2|].
  split; [band Hsel T1|].
  split; [band Hsel D1 | band Hsel D2].
Qed.

(** *** The names that have no advice *)

Lemma no_healthy_advice (n : string) :
  ~ In healthy_message (recommendations_for n).
Proof.
  unfold recommendations_for.
  repeat match goal with
         | |- context [if ?b then _ else _] => destruct b
         end;
    intro H; apply mem_string_In in H; vm_compute in H; discriminate.
Qed.

Lemma advice_of_known (n : string) :
  In n all_causes ->
  (recommendations_for n = [] <-> In n silent_causes).
Proof.
  intro H. unfold all_causes, cause_groups in H. cbn [concat app] in H.
  repeat (destruct H as [<-|H];
          [split;
           [intro Hr; first [vm_compute in Hr; discriminate
                            | apply mem_string_In; reflexivity]
           |intro Hs; first [reflexivity
                            | apply mem_string_In in Hs;
                              vm_compute in Hs; discriminate]]|]).
  contradiction.
Qed.

Lemma analyze_names (state : option dict) (history : list dict)
      (trends : list (string * dict)) (tp : option time_patterns)
      (causes : list cause_entry) :
  analyze_potential_causes state history trends tp = Ok causes ->
  named_in all_causes causes.
Proof.
  intro H. destruct state as [[|p state]|].
  - inversion H. constructor; [in_names | constructor].
  - destruct (analyze_shape (p :: state) history trends tp causes
                            ltac:(discriminate) H) as [->|[_ Hg]].
    + constructor; [in_names | constructor].
    + apply one_per_group_incl in Hg. apply Forall_forall. intros c Hc.
      right. right. apply Hg. apply in_map. exact Hc.
  - inversion H. constructor; [in_names | constructor].
Qed.

Lemma flat_map_nil {A B} (f : A -> list B) (l : list A) :
  flat_map f l = [] <-> Forall (fun x => f x = []) l.
Proof.
  induction l as [|x l IH]; cbn [flat_map].
  - split; [constructor | reflexivity].
  - split.
    + intro H. apply app_eq_nil in H as [Hx Hl].
      constructor; [exact Hx | apply IH; exact Hl].
    + intro H. inversion H; subst. rewrite H2. apply IH. exact H3.
Qed.

Lemma healthy_message_cases (causes : list cause_entry) :
  (Forall (fun c => recommendations_for (cause c) = []) causes ->
   generate_recommendations causes = [healthy_message])
  /\ (In healthy_message (generate_recommendations causes) ->
      Forall (fun c => recommendations_for (cause c) = []) causes).
Proof.
  unfold generate_recommendations, raw_recommendations. split.
  - intro H. apply (flat_map_nil (fun c => recommendations_for (cause c)))
      in H.
    rewrite H. reflexivity.
  - intro H.
    apply (proj1 (proj1 (proj2 (dict_fromkeys_spec _)) _)) in H.
    apply (flat_map_nil (fun c => recommendations_for (cause c))).
    destruct (flat_map (fun c => recommendations_for (cause c)) causes)
      as [|x l] eqn:Hf; [reflexivity|].
    exfalso. rewrite <- Hf in H. apply in_flat_map in H as (c & _ & Hc).
    exact (no_healthy_advice _ Hc).
Qed.

End CauseListFacts.

Import CauseListFacts.

(** X16. For a record that is present, the causes come in the order of
    the checks with at most one cause from each check: a loss cause, a
    latency cause, the jitter cause, a retransmit cause, the throughput
    cause, a business-hours cause and the two trend causes.  The list is
    never empty, holds at most eight causes with distinct names, and the
    placeholder "No obvious issues detected" only ever stands alone. *)
Theorem X16_one_cause_per_check (state : dict) (history : list dict)
        (trends : list (string * dict)) (tp : option time_patterns)
        (causes : list cause_entry) :
  state <> [] ->
  analyze_potential_causes (Some state) history trends tp = Ok causes ->
  causes <> []
  /\ (length causes <= 8)%nat
  /\ NoDup (map cause causes)
  /\ (causes = [no_issue_cause]
      \/ one_per_group cause_groups (map cause causes)).
Proof.
  intros Hne H.
  destruct (analyze_shape state history trends tp causes Hne H)
    as [->|[Hc Hg]].
  - split; [discriminate|]. split; [cbn; lia|].
    split; [repeat constructor; intros []|]. left. reflexivity.
  - split; [exact Hc|]. split; [|split; [|right; exact Hg]].
    + rewrite <- (length_map cause).
      exact (one_per_group_length _ _ Hg).
    + apply (one_per_group_NoDup cause_groups); [|exact Hg].
      apply distinct_NoDup. reflexivity.
Qed.

Lemma X16_one_cause_per_check_witness :
  exists causes,
    analyze_potential_causes
      (Some [("ping_loss_pct", VInt 3); ("ping_avg_ms", VInt 120);
             ("tcp_retrans", VInt 150)]) [] [] None = Ok causes
    /\ causes <> [] /\ (length causes <= 8)%nat /\ NoDup (map cause causes)
    /\ (causes = [no_issue_cause]
        \/ one_per_group cause_groups (map cause causes)).
Proof.
  eexists. split; [reflexivity|].
  apply (X16_one_cause_per_check
           [("ping_loss_pct", VInt 3); ("ping_avg_ms", VInt 120);
            ("tcp_retrans", VInt 150)] [] [] None).
  - discriminate.
  - reflexivity.
Defined.

(** X17. The thresholds of the analysis are strict.  When the analysis of
    a present record returns, the four compared fields hold numbers (0
    when missing) and each cause is emitted exactly in its band: loss
    above 5 / above 1 up to 5; latency above 100 / above 50 up to 100;
    jitter above 20; retransmits above 100 / above 10 up to 100;
    throughput not zero and below 100; and each trend cause exactly when
    the trend of that name has the named direction. *)
Theorem X17_threshold_table (state : dict) (history : list dict)
        (trends : list (string * dict)) (tp : option time_patterns)
        (causes : list cause_entry) :
  state <> [] ->
  analyze_potential_causes (Some state) history trends tp = Ok causes ->
  exists loss latency jitter retrans,
    metric state "ping_loss_pct" = Some loss
    /\ metric state "ping_avg_ms" = Some latency
    /\ metric state "ping_mdev_ms" = Some jitter
    /\ metric state "tcp_retrans" = Some retrans
    /\ (emitted causes "High Packet Loss" "high" <-> (5 < loss)%Q)
    /\ (emitted causes "Elevated Packet Loss" "medium"
        <-> (1 < loss)%Q /\ (loss <= 5)%Q)
    /\ (emitted causes "High Latency" "high" <-> (100 < latency)%Q)
    /\ (emitted causes "Elevated Latency" "medium"
        <-> (50 < latency)%Q /\ (latency <= 100)%Q)
    /\ (emitted causes "High Jitter" "high" <-> (20 < jitter)%Q)
    /\ (emitted causes "Excessive TCP Retransmits" "high"
        <-> (100 < retrans)%Q)
    /\ (emitted causes "Elevated TCP Retransmits" "medium"
        <-> (10 < retrans)%Q /\ (retrans <= 100)%Q)
    /\ (emitted causes "Low Throughput" "medium"
        <-> exists q, metric state "throughput_mbps" = Some q
                      /\ ~ (q == 0)%Q /\ (q < 100)%Q)
    /\ (emitted causes "Declining Throughput Trend" "medium"
        <-> trend_is trends "throughput" "decreasing" = true)
    /\ (emitted causes "Increasing Latency Trend" "medium"
        <-> trend_is trends "latency" "increasing" = true).
Proof. apply threshold_table. Qed.

Lemma X17_threshold_table_witness :
  exists causes,
    analyze_potential_causes
      (Some [("ping_loss_pct", VInt 5); ("ping_avg_ms", VInt 50);
             ("throughput_mbps", VInt 100)]) [] [] None = Ok causes
    /\ (emitted causes "Elevated Packet Loss" "medium"
        <-> (1 < 5)%Q /\ (5 <= 5)%Q)
    /\ (emitted causes "High Packet Loss" "high" <-> (5 < 5)%Q).
Proof.
  eexists. split; [reflexivity|].
  destruct (X17_threshold_table
              [("ping_loss_pct", VInt 5); ("ping_avg_ms", VInt 50);
               ("throughput_mbps", VInt 100)] [] [] None _
              ltac:(discriminate) eq_refl)
    as (loss & lat & jit & ret & Hl & _ & _ & _ & L1 & L2 & _).
  inversion Hl; subst loss. split; assumption.
Defined.

(** X18. The message "Network appears healthy - no action required" is
    returned exactly when every cause of the analysis is one the code has
    no advice for: the two placeholders, "Mild Business Hours Impact" and
    "Declining Throughput Trend".  It then stands alone, and it never
    appears beside a real recommendation. *)
Theorem X18_healthy_message (state : option dict) (history : list dict)
        (trends : list (string * dict)) (tp : option time_patterns)
        (causes : list cause_entry) :
  analyze_potential_causes state history trends tp = Ok causes ->
  (named_in silent_causes causes
   -> generate_recommendations causes = [healthy_message])
  /\ (In healthy_message (generate_recommendations causes)
      -> named_in silent_causes causes).
Proof.
  intro H. pose proof (analyze_names state history trends tp causes H) as Hk.
  destruct (healthy_message_cases causes) as [Hto Hfrom].
  assert (named_in silent_causes causes
          <-> Forall (fun c => recommendations_for (cause c) = []) causes)
    as Hiff.
  { unfold named_in. rewrite !Forall_forall. split; intros Hs c Hc.
    - apply advice_of_known; [|exact (Hs c Hc)].
      unfold named_in in Hk. rewrite Forall_forall in Hk. exact (Hk c Hc).
    - apply advice_of_known; [|exact (Hs c Hc)].
      unfold named_in in Hk. rewrite Forall_forall in Hk. exact (Hk c Hc). }
  split.
  - intro Hs. apply Hto. apply Hiff. exact Hs.
  - intro Hin. apply Hiff. apply Hfrom. exact Hin.
Qed.

Lemma X18_healthy_message_witness :
  exists causes,
    analyze_potential_causes
      (Some [("ping_loss_pct", VInt 0)]) [] []
      (Some (mkPatterns 80 100 80 100 5 2)) = Ok causes
    /\ map cause causes = ["Mild Business Hours Impact"]
    /\ generate_recommendations causes = [healthy_message].
Proof.
  eexists. split; [reflexivity|]. split; [reflexivity|].
  apply (X18_healthy_message
           (Some [("ping_loss_pct", VInt 0)]) [] []
           (Some (mkPatterns 80 100 80 100 5 2)) _ eq_refl).
  name_check.
Defined.

Module DiagnoseFacts.
Import Py Diag DiagSpec DiagSpec2 DiagnoseSpec Diagnose PyFacts CauseFacts
       BusinessHoursFacts RecordFacts RowFacts TimePatternFacts
       CauseListFacts.

Lemma sum_values_fold (l : list pyval) :
  forall acc s,
    sum_values l acc = Ok s ->
    exists qs, map num_of l = map Some qs /\ s = fold_left Qplus qs acc.
Proof.
  induction l as [|v l IH]; intros acc s H.
  - inversion H. exists []. split; reflexivity.
  - cbn [sum_values] in H.
    destruct (num_of v) as [q|] eqn:Hq; [|discriminate H].
    destruct (IH _ _ H) as (qs & Hm & Hs).
    exists (q :: qs). cbn [map fold_left]. rewrite Hq, Hm. split; auto.
Qed.

Lemma sum_values_total (l : list pyval) :
  forallb numeric l = true -> forall acc, exists s, sum_values l acc = Ok s.
Proof.
  intros H acc. pose proof (sum_values_numeric l acc) as Hr.
  rewrite H in Hr. destruct (sum_values l acc) as [s|e];
    [exists s; reflexivity | discriminate].
Qed.

Lemma numeric_num (v : pyval) :
  numeric v = true <-> exists q, num_of v = Some q.
Proof.
  unfold numeric. destruct (num_of v) as [q|]; split; intro H;
    try discriminate; eauto.
  destruct H as (q & H). discriminate.
Qed.

Lemma py_min_spec (l : list pyval) :
  forall best b m,
    num_of best = Some b ->
    py_min best l = Ok m ->
    In m (best :: l)
    /\ exists a, num_of m = Some a
                 /\ forall v, In v (best :: l) ->
                              exists q, num_of v = Some q /\ (a <= q)%Q.
Proof.
  induction l as [|v l IH]; intros best b m Hb H.
  - inversion H; subst m. split; [left; reflexivity|].
    exists b. split; [exact Hb|].
    intros v [<-|[]]. exists b. split; [exact Hb | apply Qle_refl].
  - cbn [py_min] in H. unfold num_lt in H. rewrite Hb in H.
    destruct (num_of v) as [qv|] eqn:Hv; [|discriminate]. cbn [rbind] in H.
    destruct (Qltb qv b) eqn:Hlt.
    + apply Qltb_true in Hlt.
      destruct (IH v qv m Hv H) as (Hin & a & Ha & Hall).
      split; [destruct Hin as [<-|Hin]; [right; left; reflexivity
                                        | right; right; exact Hin]|].
      exists a. split; [exact Ha|].
      destruct (Hall v (or_introl eq_refl)) as (q0 & Hq0 & Hle0).
      rewrite Hv in Hq0. inversion Hq0; subst q0.
      intros x [<-|[<-|Hx]].
      * exists b. split; [exact Hb|].
        apply Qle_trans with qv; [exact Hle0 | apply Qlt_le_weak; exact Hlt].
      * exists qv. split; [exact Hv | exact Hle0].
      * apply Hall. right. exact Hx.
    + apply Qltb_false in Hlt.
      destruct (IH best b m Hb H) as (Hin & a & Ha & Hall).
      split; [destruct Hin as [<-|Hin]; [left; reflexivity
                                        | right; right; exact Hin]|].
      exists a. split; [exact Ha|].
      destruct (Hall best (or_introl eq_refl)) as (q0 & Hq0 & Hle0).
      rewrite Hb in Hq0. inversion Hq0; subst q0.
      intros x [<-|[<-|Hx]].
      * exists b. split; [exact Hb | exact Hle0].
      * exists qv. split; [exact Hv|].
        apply Qle_trans with b; assumption.
      * apply Hall. right. exact Hx.
Qed.

Lemma py_max_spec (l : list pyval) :
  forall best b m,
    num_of best = Some b ->
    py_max best l = Ok m ->
    In m (best :: l)
    /\ exists a, num_of m = Some a
                 /\ forall v, In v (best :: l) ->
                              exists q, num_of v = Some q /\ (q <= a)%Q.
Proof.
  induction l as [|v l IH]; intros best b m Hb H.
  - inversion H; subst m. split; [left; reflexivity|].
    exists b. split; [exact Hb|].
    intros v [<-|[]]. exists b. split; [exact Hb | apply Qle_refl].
  - cbn [py_max] in H. unfold num_lt in H. rewrite Hb in H.
    destruct (num_of v) as [qv|] eqn:Hv; [|discriminate]. cbn [rbind] in H.
    destruct (Qltb b qv) eqn:Hlt.
    + apply Qltb_true in Hlt.
      destruct (IH v qv m Hv H) as (Hin & a & Ha & Hall).
      split; [destruct Hin as [<-|Hin]; [right; left; reflexivity
                                        | right; right; exact Hin]|].
      exists a. split; [exact Ha|].
      destruct (Hall v (or_introl eq_refl)) as (q0 & Hq0 & Hle0).
      rewrite Hv in Hq0. inversion Hq0; subst q0.
      intros x [<-|[<-|Hx]].
      * exists b. split; [exact Hb|].
        apply Qle_trans with qv; [apply Qlt_le_weak; exact Hlt | exact Hle0].
      * exists qv. split; [exact Hv | exact Hle0].
      * apply Hall. right. exact Hx.
    + apply Qltb_false in Hlt.
      destruct (IH best b m Hb H) as (Hin & a & Ha & Hall).
      split; [destruct Hin as [<-|Hin]; [left; reflexivity
                                        | right; right; exact Hin]|].
      exists a. split; [exact Ha|].
      destruct (Hall best (or_introl eq_refl)) as (q0 & Hq0 & Hle0).
      rewrite Hb in Hq0. inversion Hq0; subst q0.
      intros x [<-|[<-|Hx]].
      * exists b. split; [exact Hb | exact Hle0].
      * exists qv. split; [exact Hv|].
        apply Qle_trans with b; assumption.
      * apply Hall. right. exact Hx.
Qed.

Lemma py_min_total (l : list pyval) :
  forall best,
    forallb numeric (best :: l) = true -> exists m, py_min best l = Ok m.
Proof.
  induction l as [|v l IH]; intros best H; [eexists; reflexivity|].
  cbn [forallb] in H. apply andb_true_iff in H as [Hb H].
  apply andb_true_iff in H as [Hv Hl].
  apply numeric_num in Hb as Hb'. destruct Hb' as (b & Hbq).
  apply numeric_num in Hv as Hv'. destruct Hv' as (q & Hvq).
  cbn [py_min]. unfold num_lt. rewrite Hbq, Hvq. cbn [rbind].
  apply IH. cbn [forallb]. rewrite Hl.
  destruct (Qltb q b); [rewrite Hv | rewrite Hb]; reflexivity.
Qed.

Lemma py_max_total (l : list pyval) :
  forall best,
    forallb numeric (best :: l) = true -> exists m, py_max best l = Ok m.
Proof.
  induction l as [|v l IH]; intros best H; [eexists; reflexivity|].
  cbn [forallb] in H. apply andb_true_iff in H as [Hb H].
  apply andb_true_iff in H as [Hv Hl].
  apply numeric_num in Hb as Hb'. destruct Hb' as (b & Hbq).
  apply numeric_num in Hv as Hv'. destruct Hv' as (q & Hvq).
  cbn [py_max]. unfold num_lt. rewrite Hbq, Hvq. cbn [rbind].
  apply IH. cbn [forallb]. rewrite Hl.
  destruct (Qltb b q); [rewrite Hv | rewrite Hb]; reflexivity.
Qed.

Lemma historical_stats_total (history : list dict) :
  forallb numeric (throughputs history) = true ->
  exists stats, historical_stats history = Ok stats.
Proof.
  intro H. unfold historical_stats.
  destruct (throughputs history) as [|t ts]; [eexists; reflexivity|].
  destruct (sum_values_total _ H 0%Q) as (s & ->).
  destruct (py_min_total ts t H) as (mn & ->).
  destruct (py_max_total ts t H) as (mx & ->).
  eexists. reflexivity.
Qed.

(** The statistics of the history: the count, and a minimum and a
    maximum that are two of the samples and bound every sample. *)
Lemma historical_stats_spec (history : list dict)
      (n : Z) (avg : Q) (mn mx : pyval) :
  historical_stats history = Ok (n, avg, mn, mx) ->
  n = Z.of_nat (length (throughputs history))
  /\ match throughputs history with
     | [] => avg = 0%Q /\ mn = VFloat 0 /\ mx = VFloat 0
     | _ :: _ =>
         In mn (throughputs history) /\ In mx (throughputs history)
         /\ forall v, In v (throughputs history) ->
                      exists q, num_of v = Some q /\ between mn mx q
     end.
Proof.
  unfold historical_stats.
  destruct (throughputs history) as [|t ts] eqn:Ht.
  - intro H. inversion H. repeat split; reflexivity.
  - destruct (sum_values (t :: ts) 0%Q) as [s|] eqn:Hs; [|discriminate].
    cbn [rbind].
    destruct (py_min t ts) as [m1|] eqn:Hmin; [|discriminate]. cbn [rbind].
    destruct (py_max t ts) as [m2|] eqn:Hmax; [|discriminate]. cbn [rbind].
    intro H. inversion H; subst n avg mn mx; clear H.
    split; [reflexivity|].
    destruct (sum_values_fold _ _ _ Hs) as (qs & Hqs & Hsum).
    destruct qs as [|q0 qs]; [discriminate|].
    assert (num_of t = Some q0) as Ht0 by (cbn in Hqs; congruence).
    destruct (py_min_spec ts t q0 m1 Ht0 Hmin) as (Hin1 & a & Ha & Hlo).
    destruct (py_max_spec ts t q0 m2 Ht0 Hmax) as (Hin2 & b & Hb & Hhi).
    split; [exact Hin1|]. split; [exact Hin2|].
    intros v Hv. destruct (Hlo v Hv) as (q1 & Hq1 & Hle1).
    destruct (Hhi v Hv) as (q2 & Hq2 & Hle2).
    rewrite Hq1 in Hq2. inversion Hq2; subst q2.
    exists q1. split; [exact Hq1|].
    exists a, b. repeat split; assumption.
Qed.

Section Analysis.

Variable fromisoformat : string -> option datetime.
Variable HAS_DERIVATIVES : bool.
Variable derivative_analysis : string -> list dict -> res dict.

(** What a returned diagnostic is made of. *)
Lemma diagnose_inv (state : option dict) (history : list dict)
      (source dest : option string) (d : NetworkDiagnostic) :
  diagnose_network fromisoformat HAS_DERIVATIVES derivative_analysis
    state history source dest = Ok (Some d) ->
  exists tp t1 t2,
    historical_stats history
    = Ok (samples_count d, avg_throughput_mbps d, min_throughput_mbps d,
          max_throughput_mbps d)
    /\ analyze_time_patterns fromisoformat history = Ok tp
    /\ analyze_throughput_trend HAS_DERIVATIVES derivative_analysis history
       = Ok t1
    /\ analyze_latency_trend HAS_DERIVATIVES derivative_analysis history
       = Ok t2
    /\ trends d = [("throughput", t1); ("latency", t2)]
    /\ analyze_potential_causes state history (trends d) tp
       = Ok (potential_causes d)
    /\ recommendations d = generate_recommendations (potential_causes d)
    /\ (state_present state = false ->
        history <> []
        /\ source_host d = VStr (or_unknown source)
        /\ dest_host d = VStr (or_unknown dest)
        /\ path_type d = VStr "unknown"
        /\ current_status d = VStr "no_data"
        /\ last_seen d = VNone
        /\ latency_avg_ms d = VFloat 0 /\ latency_jitter_ms d = VFloat 0
        /\ packet_loss_pct d = VFloat 0 /\ throughput_mbps d = VFloat 0
        /\ tcp_retrans d = VInt 0)
    /\ (forall st, state = Some st -> state_present state = true ->
        source_host d
        = dict_get_default "source_host" (VStr (or_unknown source)) st
        /\ dest_host d
           = dict_get_default "dest_host" (VStr (or_unknown dest)) st
        /\ current_status d = dict_get_default "status" (VStr "unknown") st
        /\ last_seen d = dict_get "timestamp" st).
Proof.
  unfold diagnose_network. intro H.
  destruct (negb (state_present state)
            && match history with [] => true | _ => false end) eqn:Hnone;
    [discriminate|].
  destruct (historical_stats history) as [[[[n avg] mn] mx]|] eqn:Hs;
    [|discriminate]. cbn [rbind] in H.
  destruct (analyze_time_patterns fromisoformat history) as [tp|] eqn:Htp;
    [|discriminate]. cbn [rbind] in H.
  destruct (analyze_throughput_trend _ _ history) as [t1|] eqn:Ht1;
    [|discriminate]. cbn [rbind] in H.
  destruct (analyze_latency_trend _ _ history) as [t2|] eqn:Ht2;
    [|discriminate]. cbn [rbind] in H.
  destruct (analyze_potential_causes _ _ _ _) as [causes|] eqn:Hc;
    [|discriminate]. cbn [rbind] in H.
  inversion H; subst d; clear H.
  cbn [samples_count avg_throughput_mbps min_throughput_mbps
       max_throughput_mbps trends potential_causes recommendations
       source_host dest_host path_type current_status last_seen
       latency_avg_ms latency_jitter_ms packet_loss_pct throughput_mbps
       tcp_retrans].
  exists tp, t1, t2.
  split; [reflexivity|]. split; [reflexivity|]. split; [reflexivity|].
  split; [reflexivity|]. split; [reflexivity|]. split; [exact Hc|].
  split; [reflexivity|]. split.
  - intro Hp. rewrite Hp in *. cbn [negb andb] in Hnone.
    split; [destruct history; discriminate|].
    repeat split; reflexivity.
  - intros st -> Hp. rewrite Hp. repeat split; reflexivity.
Qed.

End Analysis.

(** The trend functions without the derivatives module. *)
Lemma no_derivatives_no_trends
      (derivative_analysis : string -> list dict -> res dict)
      (history : list dict) :
  analyze_throughput_trend false derivative_analysis history = Ok []
  /\ analyze_latency_trend false derivative_analysis history = Ok [].
Proof.
  unfold analyze_throughput_trend, analyze_latency_trend.
  destruct history; split; reflexivity.
Qed.

(** The rows that [store] writes for the records of [collect] make a
    history that every loop over the history accepts. *)
Lemma stored_row_sample (c : CollectorSpec.collected) (r : NetworkPerf.row) :
  stored c r ->
  unstamped (state_of_row r) = false
  /\ (truthy (dict_get "throughput_mbps" (state_of_row r)) = true ->
      numeric (throughput_of (state_of_row r)) = true).
Proof.
  intros (Hts & ts & H). destruct c as [s|source dest pt now].
  - destruct s as [src dst pt tstamp pg cold hot wr st]. cbn in Hts.
    destruct tstamp as [t|]; [|congruence].
    destruct pg, cold, hot; inversion H; subst r; clear H;
      unfold unstamped, throughput_of; cbn;
      rewrite ?andb_false_r; split; auto.
  - inversion H; subst r. unfold unstamped, throughput_of. cbn. auto.
Qed.

Lemma stored_history (fromisoformat : string -> option datetime)
      (cs : list CollectorSpec.collected) (rows : list NetworkPerf.row) :
  Forall2 stored cs rows ->
  existsb unstamped (map state_of_row rows) = false
  /\ forallb numeric (throughputs (map state_of_row rows)) = true
  /\ forallb numeric
       (map snd (samples fromisoformat (map state_of_row rows))) = true.
Proof.
  induction 1 as [|c r cs rows Hs _ IH]; [repeat split; reflexivity|].
  destruct IH as (IH1 & IH2 & IH3).
  destruct (stored_row_sample c r Hs) as (Hu & Hn).
  cbn [map existsb]. rewrite Hu, IH1. split; [reflexivity|]. split.
  - unfold throughputs in *. cbn [filter].
    destruct (truthy (dict_get "throughput_mbps" (state_of_row r))) eqn:Ht;
      [|exact IH2].
    cbn [map forallb]. rewrite IH2. rewrite andb_true_r.
    exact (Hn eq_refl).
  - unfold samples in *. cbn [flat_map]. rewrite map_app, forallb_app, IH3.
    rewrite andb_true_r. unfold sample.
    destruct (truthy (throughput_of (state_of_row r))) eqn:Ht;
      [|reflexivity].
    cbn [negb].
    destruct (dict_get "timestamp" (state_of_row r)); try reflexivity.
    destruct (fromisoformat s); [|reflexivity].
    cbn [map snd forallb]. rewrite andb_true_r. apply Hn.
    unfold throughput_of, dict_get_default in Ht. unfold dict_get.
    destruct (dict_lookup "throughput_mbps" (state_of_row r));
      [exact Ht | discriminate].
Qed.

End DiagnoseFacts.

Import DiagnoseFacts.

(** X19. [diagnose_network] returns [None] exactly when there is neither
    a current row nor a history.  With a history but no current row the
    diagnostic it returns has status "no_data", no [last_seen], the
    host names of the arguments ("unknown" when absent), path type
    "unknown", all five current metrics (latency, jitter, loss,
    throughput, retransmits) at zero, and its only cause is "No network
    data available",
    for which the only recommendation is "Network appears healthy - no
    action required". *)
Theorem X19_no_current_row
        (fromisoformat : string -> option datetime) (HAS_DERIVATIVES : bool)
        (derivative_analysis : string -> list dict -> res dict)
        (state : option dict) (history : list dict)
        (source dest : option string) :
  (Diagnose.diagnose_network fromisoformat HAS_DERIVATIVES
     derivative_analysis state history source dest = Ok None
   <-> state_present state = false /\ history = [])
  /\ forall d,
      state_present state = false ->
      Diagnose.diagnose_network fromisoformat HAS_DERIVATIVES
        derivative_analysis state history source dest = Ok (Some d) ->
      Diagnose.current_status d = VStr "no_data"
      /\ Diagnose.last_seen d = VNone
      /\ Diagnose.source_host d = VStr (Diagnose.or_unknown source)
      /\ Diagnose.dest_host d = VStr (Diagnose.or_unknown dest)
      /\ Diagnose.path_type d = VStr "unknown"
      /\ Diagnose.latency_avg_ms d = VFloat 0
      /\ Diagnose.latency_jitter_ms d = VFloat 0
      /\ Diagnose.packet_loss_pct d = VFloat 0
      /\ Diagnose.throughput_mbps d = VFloat 0
      /\ Diagnose.tcp_retrans d = VInt 0
      /\ Diagnose.potential_causes d = [no_data_cause]
      /\ Diagnose.recommendations d = [healthy_message].
Proof.
  split.
  - unfold Diagnose.diagnose_network. split.
    + intro H.
      destruct (negb (state_present state)
                && match history with [] => true | _ => false end) eqn:Hg.
      * apply andb_true_iff in Hg as [H1 H2].
        apply negb_true_iff in H1.
        split; [exact H1 | destruct history; [reflexivity | discriminate]].
      * exfalso.
        destruct (Diagnose.historical_stats history) as [[[[n avg] mn] mx]|];
          [|discriminate]. cbn [rbind] in H.
        destruct (analyze_time_patterns fromisoformat history);
          [|discriminate]. cbn [rbind] in H.
        destruct (Diagnose.analyze_throughput_trend _ _ history);
          [|discriminate]. cbn [rbind] in H.
        destruct (Diagnose.analyze_latency_trend _ _ history);
          [|discriminate]. cbn [rbind] in H.
        destruct (analyze_potential_causes _ _ _ _); discriminate.
    + intros [-> ->]. reflexivity.
  - intros d Hp H.
    destruct (diagnose_inv _ _ _ _ _ _ _ d H)
      as (tp & t1 & t2 & _ & _ & _ & _ & _ & Hc & Hr & Habs & _).
    destruct (Habs Hp)
      as (_ & Hsrc & Hdst & Hpt & Hst & Hseen & Hlat & Hjit & Hloss & Hthr
          & Hret).
    assert (Diagnose.potential_causes d = [no_data_cause]) as Hcauses.
    { destruct state as [[|p st]|]; try discriminate;
        cbn in Hc; inversion Hc; reflexivity. }
    repeat (split; [assumption|]).
    rewrite Hr, Hcauses. reflexivity.
Qed.

Lemma X19_no_current_row_witness :
  exists d,
    Diagnose.diagnose_network (fun _ => Some (mkDatetime 0 10)) false
      (fun _ _ => Ok []) None
      [[("timestamp", VStr "2026-01-05T10:00:00");
        ("throughput_mbps", VInt 50)]] (Some "node01") None = Ok (Some d)
    /\ Diagnose.current_status d = VStr "no_data"
    /\ Diagnose.dest_host d = VStr "unknown"
    /\ Diagnose.latency_avg_ms d = VFloat 0
    /\ Diagnose.throughput_mbps d = VFloat 0
    /\ Diagnose.recommendations d = [healthy_message].
Proof.
  assert (exists d,
             Diagnose.diagnose_network (fun _ => Some (mkDatetime 0 10)) false
               (fun _ _ => Ok []) None
               [[("timestamp", VStr "2026-01-05T10:00:00");
                 ("throughput_mbps", VInt 50)]] (Some "node01") None
             = Ok (Some d)) as (d & Hd)
      by (eexists; vm_compute; reflexivity).
  exists d. split; [exact Hd|].
  destruct (proj2 (X19_no_current_row (fun _ => Some (mkDatetime 0 10)) false
                     (fun _ _ => Ok []) None
                     [[("timestamp", VStr "2026-01-05T10:00:00");
                       ("throughput_mbps", VInt 50)]] (Some "node01") None)
                  d eq_refl Hd)
    as (Hst & _ & _ & Hdst & _ & Hlat & _ & _ & Hthr & _ & _ & Hrec).
  split; [exact Hst|]. split; [exact Hdst|]. split; [exact Hlat|].
  split; [exact Hthr | exact Hrec].
Defined.

(** X20. The historical summary of a diagnostic: the sample count is the
    number of records of the history with a throughput that is not zero;
    with no such record the mean, minimum and maximum stay 0; otherwise
    the minimum and the maximum are two of the samples and every sample
    is a number between them. *)
Theorem X20_historical_summary
        (fromisoformat : string -> option datetime) (HAS_DERIVATIVES : bool)
        (derivative_analysis : string -> list dict -> res dict)
        (state : option dict) (history : list dict)
        (source dest : option string) (d : Diagnose.NetworkDiagnostic) :
  Diagnose.diagnose_network fromisoformat HAS_DERIVATIVES
    derivative_analysis state history source dest = Ok (Some d) ->
  Diagnose.samples_count d
  = Z.of_nat (length (Diagnose.throughputs history))
  /\ match Diagnose.throughputs history with
     | [] => Diagnose.avg_throughput_mbps d = 0%Q
             /\ Diagnose.min_throughput_mbps d = VFloat 0
             /\ Diagnose.max_throughput_mbps d = VFloat 0
     | _ :: _ =>
         In (Diagnose.min_throughput_mbps d) (Diagnose.throughputs history)
         /\ In (Diagnose.max_throughput_mbps d)
               (Diagnose.throughputs history)
         /\ forall v, In v (Diagnose.throughputs history) ->
                      exists q, num_of v = Some q
                                /\ DiagnoseSpec.between
                                     (Diagnose.min_throughput_mbps d)
                                     (Diagnose.max_throughput_mbps d) q
     end.
Proof.
  intro H.
  destruct (diagnose_inv _ _ _ _ _ _ _ d H) as (tp & t1 & t2 & Hs & _).
  exact (historical_stats_spec history _ _ _ _ Hs).
Qed.

Lemma X20_historical_summary_witness :
  exists d,
    Diagnose.diagnose_network (fun _ => Some (mkDatetime 0 10)) false
      (fun _ _ => Ok []) None
      [[("timestamp", VStr "2026-01-05T10:00:00");
        ("throughput_mbps", VInt 50)];
       [("timestamp", VStr "2026-01-05T11:00:00");
        ("throughput_mbps", VNone)];
       [("timestamp", VStr "2026-01-05T12:00:00");
        ("throughput_mbps", VFloat 150)]] None None = Ok (Some d)
    /\ Diagnose.samples_count d = 2
    /\ Diagnose.min_throughput_mbps d = VInt 50
    /\ Diagnose.max_throughput_mbps d = VFloat 150.
Proof.
  eexists. split; [vm_compute; reflexivity|].
  split; [|split; reflexivity].
  apply (X20_historical_summary (fun _ => Some (mkDatetime 0 10)) false
           (fun _ _ => Ok []) None
           [[("timestamp", VStr "2026-01-05T10:00:00");
             ("throughput_mbps", VInt 50)];
            [("timestamp", VStr "2026-01-05T11:00:00");
             ("throughput_mbps", VNone)];
            [("timestamp", VStr "2026-01-05T12:00:00");
             ("throughput_mbps", VFloat 150)]] None None).
  vm_compute. reflexivity.
Defined.

(** X21. When the current row is that of a record without a ping result
    or without a throughput result (an error record, or a full-mode
    record whose benchmark produced nothing), [diagnose_network] never
    returns a diagnostic: it raises, whatever the history, and with an
    empty history the exception is the [TypeError] of the analysis. *)
Theorem X21_current_error_row_raises
        (fromisoformat : string -> option datetime) (HAS_DERIVATIVES : bool)
        (derivative_analysis : string -> list dict -> res dict)
        (ts : string) (c : collected) (r : row) (history : list dict)
        (source dest : option string) :
  row_of_record ts (record_of c) = Ok r ->
  diagnosable c = false ->
  exists e,
    Diagnose.diagnose_network fromisoformat HAS_DERIVATIVES
      derivative_analysis (Some (state_of_row r)) history source dest
    = Raise e
    /\ (history = [] -> e = TypeError).
Proof.
  intros Hr Hd. unfold Diagnose.diagnose_network.
  change (state_present (Some (state_of_row r))) with true.
  cbn [negb andb].
  destruct (Diagnose.historical_stats history) as [[[[n avg] mn] mx]|e]
    eqn:Hs.
  - cbn [rbind].
    destruct (analyze_time_patterns fromisoformat history) as [tp|e] eqn:Htp.
    + cbn [rbind].
      destruct (Diagnose.analyze_throughput_trend _ _ history) as [t1|e]
        eqn:Ht1.
      * cbn [rbind].
        destruct (Diagnose.analyze_latency_trend _ _ history) as [t2|e]
          eqn:Ht2.
        -- cbn [rbind].
           rewrite (undiagnosable_row ts c r history _ tp Hr Hd).
           exists TypeError. split; reflexivity.
        -- exists e. split; [reflexivity|]. intros ->. discriminate.
      * exists e. split; [reflexivity|]. intros ->. discriminate.
    + exists e. split; [reflexivity|]. intros ->. discriminate.
  - exists e. split; [reflexivity|]. intros ->. discriminate.
Qed.

Lemma X21_current_error_row_raises_witness :
  exists r e,
    row_of_record "2026-01-05T11:00:00"
      (record_of (Failed "node01" "storage" "switch" "2026-01-05T10:00:00"))
    = Ok r
    /\ Diagnose.diagnose_network (fun _ => Some (mkDatetime 0 10)) false
         (fun _ _ => Ok []) (Some (state_of_row r)) [] None None = Raise e
    /\ ([] = @nil dict -> e = TypeError).
Proof.
  eexists.
  destruct (X21_current_error_row_raises (fun _ => Some (mkDatetime 0 10))
              false (fun _ _ => Ok []) "2026-01-05T11:00:00"
              (Failed "node01" "storage" "switch" "2026-01-05T10:00:00")
              _ [] None None eq_refl eq_refl) as (e & He & Hty).
  exists e. split; [reflexivity|]. split; assumption.
Defined.

(** X22. From collection to diagnosis: when the derivatives module is
    not importable, the current row is that of a record with a ping
    result and a throughput result, and the history is made of rows that
    [store] wrote for timestamped records, [diagnose_network] returns a
    diagnostic; its status is the stored status, both trends are empty
    and no trend cause is among its causes. *)
Theorem X22_diagnosis_of_stored_rows
        (fromisoformat : string -> option datetime)
        (derivative_analysis : string -> list dict -> res dict)
        (c : collected) (r : row) (cs : list collected) (rows : list row)
        (source dest : option string) :
  DiagnoseSpec.stored c r ->
  diagnosable c = true ->
  Forall2 DiagnoseSpec.stored cs rows ->
  exists d,
    Diagnose.diagnose_network fromisoformat false derivative_analysis
      (Some (state_of_row r)) (map state_of_row rows) source dest
    = Ok (Some d)
    /\ Diagnose.current_status d = col_status r
    /\ Diagnose.last_seen d = col_timestamp r
    /\ Diagnose.trends d = [("throughput", []); ("latency", [])]
    /\ ~ emitted (Diagnose.potential_causes d)
                 "Declining Throughput Trend" "medium"
    /\ ~ emitted (Diagnose.potential_causes d)
                 "Increasing Latency Trend" "medium".
Proof.
  intros (Hts & ts & Hr) Hd Hall.
  set (history := map state_of_row rows).
  destruct (stored_history fromisoformat cs rows Hall) as (Hu & Hn & Hsn).
  fold history in Hu, Hn, Hsn.
  destruct (historical_stats_total history Hn) as ([[[n avg] mn] mx] & Hs).
  pose proof (time_pattern_failures fromisoformat history) as Htp.
  rewrite Hu, Hsn in Htp.
  destruct (analyze_time_patterns fromisoformat history) as [tp|] eqn:Htp';
    [|discriminate]. clear Htp.
  destruct (no_derivatives_no_trends derivative_analysis history)
    as (Ht1 & Ht2).
  destruct (diagnosable_row ts c r Hr Hd) as [Hne Hcmp].
  destruct (analyze_business_hours _ history
              [("throughput", []); ("latency", [])] tp Hne Hcmp)
    as (causes & Hc & _).
  destruct (threshold_table (state_of_row r) history
                [("throughput", []); ("latency", [])] tp causes Hne Hc)
    as (loss & lat & jit & ret & _ & _ & _ & _ & _ & _ & _ & _ & _ & _ & _
        & _ & D1 & D2).
  eexists. split.
  - unfold Diagnose.diagnose_network.
    change (state_present (Some (state_of_row r))) with true.
    cbn [negb andb]. rewrite Hs. cbn [rbind]. rewrite Htp'. cbn [rbind].
    rewrite Ht1, Ht2. cbn [rbind].
    match goal with
    | |- rbind ?x _ = _ => replace x with (Ok causes) by (symmetry; exact Hc)
    end.
    cbn [rbind]. reflexivity.
  - cbn. split; [reflexivity|]. split; [reflexivity|].
    split; [reflexivity|]. split.
    + intro He. apply D1 in He. discriminate.
    + intro He. apply D2 in He. discriminate.
Qed.

Lemma X22_diagnosis_of_stored_rows_witness :
  exists r d,
    DiagnoseSpec.stored (Measured MoreWorlds.demo_stats) r
    /\ Diagnose.diagnose_network (fun _ => Some (mkDatetime 0 10)) false
         (fun _ _ => Raise ValueError)
         (Some (state_of_row r)) (map state_of_row [r]) None None
       = Ok (Some d)
    /\ Diagnose.current_status d = col_status r.
Proof.
  assert (exists r, DiagnoseSpec.stored (Measured MoreWorlds.demo_stats) r)
    as (r & Hr).
  { eexists. split; [discriminate|].
    exists "2026-01-05T11:00:00". reflexivity. }
  destruct (X22_diagnosis_of_stored_rows (fun _ => Some (mkDatetime 0 10))
              (fun _ _ => Raise ValueError)
              (Measured MoreWorlds.demo_stats) r [Measured MoreWorlds.demo_stats] [r] None None
              Hr eq_refl (Forall2_cons _ _ Hr (Forall2_nil _)))
    as (d & Hd & Hst & _).
  exists r, d. split; [exact Hr|]. split; [exact Hd | exact Hst].
Defined.

Module TraceFacts.
Import Py NetworkPerf CollectorSpec CollectorSpec2.

Lemma quiet_ret {A} (a : A) : quiet 0 (ret a).
Proof. intro w. exists []. repeat split; auto. Qed.

Lemma quiet_raise {A} (e : exn) : quiet 0 (@raise A e).
Proof. intro w. exists []. repeat split; auto. Qed.

Lemma quiet_lift {A} (r : res A) : quiet 0 (lift r).
Proof. intro w. exists []. repeat split; auto. Qed.

Lemma quiet_weaken {A} (n m : nat) (c : M A) :
  quiet n c -> (n <= m)%nat -> quiet m c.
Proof.
  intros H Hle w. destruct (H w) as (new & Hs & Hf & Hl).
  exists new. repeat split; auto. lia.
Qed.

Lemma quiet_bind {A B} (n m : nat) (c : M A) (k : A -> M B) :
  quiet n c -> (forall a, quiet m (k a)) -> quiet (n + m) (bind c k).
Proof.
  intros Hc Hk w. destruct (Hc w) as (new & Hs & Hf & Hl).
  unfold bind. destruct (c w) as [[a|e] w1]; cbn [snd] in Hs; subst w1.
  - destruct (Hk a (new ++ w)%list) as (new2 & Hs2 & Hf2 & Hl2).
    exists (new2 ++ new)%list. rewrite Hs2, app_assoc, forallb_app, Hf, Hf2.
    rewrite length_app. repeat split; auto. lia.
  - exists new. repeat split; auto. lia.
Qed.

Lemma quiet_try_except {A} (n m : nat) (body : M A) (handles : exn -> bool)
      (handler : exn -> M A) :
  quiet n body -> (forall e, quiet m (handler e)) ->
  quiet (n + m) (try_except body handles handler).
Proof.
  intros Hc Hk w. destruct (Hc w) as (new & Hs & Hf & Hl).
  unfold try_except. destruct (body w) as [[a|e] w1]; cbn [snd] in Hs; subst w1.
  - exists new. repeat split; auto. lia.
  - destruct (handles e); [|exists new; repeat split; auto; lia].
    destruct (Hk e (new ++ w)%list) as (new2 & Hs2 & Hf2 & Hl2).
    exists (new2 ++ new)%list. rewrite Hs2, app_assoc, forallb_app, Hf, Hf2.
    rewrite length_app. repeat split; auto. lia.
Qed.

Section Env.

Variable E : env.

Lemma quiet_run_command (cmd : string) (timeout : Z) :
  quiet 1 (run_command E cmd timeout).
Proof.
  intro w. exists [EvRun cmd timeout]. unfold run_command.
  destruct (subprocess_run E (length w) cmd timeout); repeat split; auto.
Qed.

Lemma quiet_datetime_now : quiet 1 (datetime_now_iso E).
Proof. intro w. exists [EvNow]. repeat split; auto. Qed.

Lemma quiet_measure_ping (host : string) (count : Z) :
  quiet 1 (measure_ping E host count).
Proof.
  unfold measure_ping.
  eapply quiet_weaken.
  - apply quiet_try_except.
    + apply quiet_bind; [apply quiet_run_command|]. intro output.
      apply quiet_bind.
      * destruct (search_loss output); [apply quiet_lift | apply quiet_ret].
      * intro stats1.
        destruct (search_rtt output) as [[[[g1 g2] g3] g4]|];
          [apply quiet_lift | apply quiet_ret].
    + intro e. apply quiet_ret.
  - cbn. lia.
Qed.

Lemma quiet_get_tcp_retrans : quiet 1 (get_tcp_retrans E).
Proof.
  unfold get_tcp_retrans.
  eapply quiet_weaken.
  - apply quiet_try_except.
    + apply quiet_bind; [apply quiet_run_command|]. intro output.
      destruct (2 <=? length (split_ws output))%nat;
        [apply quiet_lift | apply quiet_ret].
    + intro e. apply quiet_ret.
  - cbn. lia.
Qed.

Lemma quiet_measure_throughput_iperf (host : string) (duration : Z) :
  quiet 4 (measure_throughput_iperf E host duration).
Proof.
  unfold measure_throughput_iperf.
  eapply quiet_weaken.
  - apply quiet_try_except.
    + apply quiet_bind; [apply quiet_run_command|]. intros _.
      apply quiet_bind; [apply quiet_get_tcp_retrans|]. intro rb.
      apply quiet_bind; [apply quiet_run_command|]. intro output.
      apply quiet_bind; [apply quiet_get_tcp_retrans|]. intro ra.
      destruct (iperf_json E output) as [[sent|]|];
        [apply quiet_ret | apply quiet_ret | apply quiet_raise].
    + intro e. apply quiet_ret.
  - cbn. lia.
Qed.

Lemma quiet_measure_throughput_ssh (host : string) (user : option string)
      (size_mb : Z) :
  quiet 4 (measure_throughput_ssh E host user size_mb).
Proof.
  unfold measure_throughput_ssh.
  eapply quiet_weaken.
  - apply quiet_try_except.
    + apply quiet_bind; [apply quiet_run_command|]. intros _.
      apply quiet_bind; [apply quiet_get_tcp_retrans|]. intro rb.
      apply quiet_bind; [apply quiet_run_command|]. intro output.
      apply quiet_bind; [apply quiet_get_tcp_retrans|]. intro ra.
      apply quiet_bind.
      * destruct (search_bytes output) as [[g u]|];
          [apply quiet_bind; [apply quiet_lift|]; intro value; apply quiet_ret
          |apply quiet_ret].
      * intro bytes. apply quiet_ret.
    + intro e. apply quiet_ret.
  - cbn. lia.
Qed.

Lemma quiet_collect_path (self : collector) (source dest pt : string)
      (user : option string) :
  full_test self = false ->
  quiet 10 (_collect_path E self source dest pt user).
Proof.
  intro Hq. unfold _collect_path. rewrite Hq.
  eapply quiet_weaken.
  - apply quiet_bind; [apply quiet_datetime_now|]. intro now.
    apply quiet_bind; [apply quiet_measure_ping|]. intro p.
    apply quiet_bind.
    + apply quiet_bind; [apply quiet_measure_throughput_iperf|]. intro hot.
      apply quiet_bind.
      * destruct hot.
        -- eapply quiet_weaken; [apply quiet_ret | apply Nat.le_0_l].
        -- apply quiet_measure_throughput_ssh.
      * intro hot'. apply quiet_ret.
    + intros [[cold hot] write]. apply quiet_ret.
  - cbn. lia.
Qed.

End Env.

End TraceFacts.

Import TraceFacts.

(** X23. In quick mode [_collect_path] only reads the date and runs
    commands: it makes no scratch directory, writes and removes no file,
    never sleeps and never reads the wall clock, and it adds at most ten
    events (the date and up to nine commands), whatever the commands
    return. *)
Theorem X23_quick_mode_runs_commands_only (E : env) (self : collector)
        (source dest pt : string) (user : option string) (w : world) :
  full_test self = false ->
  exists new,
    snd (_collect_path E self source dest pt user w) = (new ++ w)%list
    /\ forallb is_run_or_now new = true
    /\ (length new <= 10)%nat.
Proof.
  intro Hq. exact (quiet_collect_path E self source dest pt user Hq w).
Qed.

Lemma X23_quick_mode_runs_commands_only_witness :
  exists new,
    snd (_collect_path Demo.quiet_env (Demo.quick_collector []) "localhost"
                       "storage" "switch" None []) = (new ++ [])%list
    /\ forallb is_run_or_now new = true
    /\ (length new <= 10)%nat.
Proof.
  apply (X23_quick_mode_runs_commands_only Demo.quiet_env
           (Demo.quick_collector []) "localhost" "storage" "switch" None []).
  reflexivity.
Defined.

Module FileFacts.
Import Py NetworkPerf CollectorSpec CollectorSpec2.



End FileFacts.

Import FileFacts.


(* ===================================================================== *)
(** ** The phases of the full benchmark and its probe                    *)
(* ===================================================================== *)

Module HotPhaseFacts.
Import Py NetworkPerf CollectorSpec CollectorSpec2 MonadFacts
       BenchmarkFacts InvariantFacts PhaseFacts.







Section Env.

Variable E : env.












End Env.

End HotPhaseFacts.

Import HotPhaseFacts.





